(** * Clipboard manager: history store, persistence codec and reconciler

    A shallow embedding of [clipboard_manager.py] (classes [ClipboardItem]
    and [ClipboardManager]) together with the parts of the Python runtime
    the program leans on: [base64.b64encode] / [base64.b64decode],
    [hashlib.md5(..).hexdigest()], [str()] of a [bytes] object, list
    slicing and list indexing.

    Conventions.
    - A Python [str] is a Rocq [string] holding its UTF-8 encoding, so
      [s.encode()] is the list of its bytes (a [str] with a lone
      surrogate, which has no encoding, is outside the model).
    - A Python [bytes] object is a [list byte].
    - A Python [int] is a [Z].
    - The [timestamp] float is only ever stored and copied; it is carried
      as an opaque number ([Z]).
    - Exceptions are values of [exn]; an operation of the manager is a
      computation in the monad [M], which threads the object's fields and
      the operating-system environment and keeps every mutation made before
      an exception was raised, as Python does.
    - The Qt widgets (list view, tray, dialogs, hotkeys) are external
      collaborators: of the list view only the exceptions its calls can
      raise are kept, and what reaches the clipboard is logged in the
      environment. *)

From Stdlib Require Import ZArith Lia List String Ascii Bool DecimalString.
From Stdlib.Strings Require Import Byte.
From stdpp Require Import base list.
Import ListNotations.

Open Scope string_scope.
Open Scope Z_scope.

(* ------------------------------------------------------------------ *)
(** ** Exceptions and results *)

Inductive exn : Type :=
  | KeyError (key : string)
  | TypeError
  | ValueError
  | BinasciiError (msg : string)
  | IndexError
  | OSError
  | PyperclipException.

Inductive result (A : Type) : Type :=
  | Ok (a : A)
  | Raise (e : exn).
Arguments Ok {A} a.
Arguments Raise {A} e.

Definition rbind {A B} (r : result A) (k : A -> result B) : result B :=
  match r with
  | Ok a => k a
  | Raise e => Raise e
  end.

(** A list comprehension whose body may raise: the first exception, in
    list order, aborts the whole comprehension. *)
Fixpoint mapM {A B} (f : A -> result B) (l : list A) : result (list B) :=
  match l with
  | [] => Ok []
  | x :: l' => rbind (f x) (fun y => rbind (mapM f l') (fun ys => Ok (y :: ys)))
  end.

(* ------------------------------------------------------------------ *)
(** ** Bytes and characters *)

Definition byte_to_Z (b : byte) : Z := Z.of_N (Byte.to_N b).

(** Storing an integer into an unsigned 8-bit cell keeps its low byte. *)
Definition byte_of_Z (z : Z) : byte :=
  match Byte.of_N (Z.to_N (Z.land z 0xff)) with
  | Some b => b
  | None => x00
  end.

Definition ord (c : ascii) : Z := Z.of_N (N_of_ascii c).
Definition chr (z : Z) : ascii := ascii_of_N (Z.to_N z).

(** [range n] is Python's [range(n)] over [Z]. *)
Definition range (n : nat) : list Z := map Z.of_nat (seq 0 n).

(* ------------------------------------------------------------------ *)
(** ** base64 (standard alphabet, as [binascii] implements it) *)

Module Base64.

Definition table_b2a_base64 : string :=
  "ABCDEFGHIJKLMNOPQRSTUVWXYZabcdefghijklmnopqrstuvwxyz0123456789+/".

Definition BASE64_PAD : ascii := "="%char.

Definition b2a (i : Z) : ascii :=
  match String.get (Z.to_nat i) table_b2a_base64 with
  | Some c => c
  | None => BASE64_PAD
  end.

(** The inverse table: [None] stands for the "not in the alphabet" entry. *)
Definition table_a2b_base64 (c : ascii) : option Z :=
  let n := ord c in
  if (65 <=? n) && (n <=? 90) then Some (n - 65)
  else if (97 <=? n) && (n <=? 122) then Some (n - 71)
  else if (48 <=? n) && (n <=? 57) then Some (n + 4)
  else if n =? 43 then Some 62
  else if n =? 47 then Some 63
  else None.

(** [base64.b64encode(data).decode()]: every 3 input bytes give 4
    characters; a tail of 1 or 2 bytes gives 2 or 3 characters and is
    padded with [=] to 4. No newline is appended. *)
Fixpoint b64encode (data : list byte) : string :=
  match data with
  | [] => EmptyString
  | [x] =>
      let a := byte_to_Z x in
      String (b2a (Z.shiftr a 2))
        (String (b2a (Z.shiftl (Z.land a 3) 4))
           (String BASE64_PAD (String BASE64_PAD EmptyString)))
  | [x; y] =>
      let a := byte_to_Z x in
      let b := byte_to_Z y in
      String (b2a (Z.shiftr a 2))
        (String (b2a (Z.lor (Z.shiftl (Z.land a 3) 4) (Z.shiftr b 4)))
           (String (b2a (Z.shiftl (Z.land b 0xf) 2))
              (String BASE64_PAD EmptyString)))
  | x :: y :: z :: rest =>
      let a := byte_to_Z x in
      let b := byte_to_Z y in
      let c := byte_to_Z z in
      String (b2a (Z.shiftr a 2))
        (String (b2a (Z.lor (Z.shiftl (Z.land a 3) 4) (Z.shiftr b 4)))
           (String (b2a (Z.lor (Z.shiftl (Z.land b 0xf) 2) (Z.shiftr c 6)))
              (String (b2a (Z.land c 0x3f)) (b64encode rest))))
  end.

(** [n] in decimal, as [%zd] prints it. *)
Definition decimal (n : nat) : string :=
  NilEmpty.string_of_uint (Nat.to_uint n).

(** The decoding loop of [binascii.a2b_base64] in its default, non-strict
    mode. [quad_pos] is the position inside the current group of four,
    [leftchar] the bits left over from the previous character, [pads] the
    number of [=] seen in a row once two characters of the group are in;
    [acc] is the output so far, last byte first. Characters outside the
    alphabet are skipped; a pad that completes a group ends the decoding
    and whatever follows is ignored. The count in the message for a single
    leftover character is computed, as there, from the bytes written. *)
Fixpoint a2b_loop (s : string) (quad_pos leftchar pads : Z) (acc : list byte)
  : result (list byte) :=
  match s with
  | EmptyString =>
      if quad_pos =? 0 then Ok (rev acc)
      else if quad_pos =? 1 then
        Raise (BinasciiError
                 ("Invalid base64-encoded string: number of data characters ("
                  ++ decimal (length acc / 3 * 4 + 1)
                  ++ ") cannot be 1 more than a multiple of 4"))
      else Raise (BinasciiError "Incorrect padding")
  | String this_ch s' =>
      if Ascii.eqb this_ch BASE64_PAD then
        if (2 <=? quad_pos) && (4 <=? quad_pos + (pads + 1)) then Ok (rev acc)
        else a2b_loop s' quad_pos leftchar
               (if 2 <=? quad_pos then pads + 1 else pads) acc
      else
        match table_a2b_base64 this_ch with
        | None => a2b_loop s' quad_pos leftchar pads acc
        | Some v =>
            if quad_pos =? 0 then a2b_loop s' 1 v 0 acc
            else if quad_pos =? 1 then
              a2b_loop s' 2 (Z.land v 0x0f) 0
                (byte_of_Z (Z.lor (Z.shiftl leftchar 2) (Z.shiftr v 4)) :: acc)
            else if quad_pos =? 2 then
              a2b_loop s' 3 (Z.land v 0x03) 0
                (byte_of_Z (Z.lor (Z.shiftl leftchar 4) (Z.shiftr v 2)) :: acc)
            else
              a2b_loop s' 0 0 0
                (byte_of_Z (Z.lor (Z.shiftl leftchar 6) v) :: acc)
        end
  end.

Fixpoint isascii (s : string) : bool :=
  match s with
  | EmptyString => true
  | String c s' => (ord c <? 128) && isascii s'
  end.

(** [base64.b64decode(s)] for a [str] argument: the string is first
    encoded as ASCII ([ValueError] if it is not), then decoded. *)
Definition b64decode (s : string) : result (list byte) :=
  if isascii s then a2b_loop s 0 0 0 [] else Raise ValueError.

End Base64.

(* ------------------------------------------------------------------ *)
(** ** MD5 ([hashlib.md5(data).hexdigest()], RFC 1321) *)

Module MD5.

Definition w32 (x : Z) : Z := Z.land x 0xffffffff.

Definition leftrotate (x c : Z) : Z :=
  w32 (Z.lor (Z.shiftl x c) (Z.shiftr x (32 - c))).

Definition not32 (x : Z) : Z := Z.lxor x 0xffffffff.

Definition K : list Z :=
  [ 0xd76aa478; 0xe8c7b756; 0x242070db; 0xc1bdceee;
    0xf57c0faf; 0x4787c62a; 0xa8304613; 0xfd469501;
    0x698098d8; 0x8b44f7af; 0xffff5bb1; 0x895cd7be;
    0x6b901122; 0xfd987193; 0xa679438e; 0x49b40821;
    0xf61e2562; 0xc040b340; 0x265e5a51; 0xe9b6c7aa;
    0xd62f105d; 0x02441453; 0xd8a1e681; 0xe7d3fbc8;
    0x21e1cde6; 0xc33707d6; 0xf4d50d87; 0x455a14ed;
    0xa9e3e905; 0xfcefa3f8; 0x676f02d9; 0x8d2a4c8a;
    0xfffa3942; 0x8771f681; 0x6d9d6122; 0xfde5380c;
    0xa4beea44; 0x4bdecfa9; 0xf6bb4b60; 0xbebfbc70;
    0x289b7ec6; 0xeaa127fa; 0xd4ef3085; 0x04881d05;
    0xd9d4d039; 0xe6db99e5; 0x1fa27cf8; 0xc4ac5665;
    0xf4292244; 0x432aff97; 0xab9423a7; 0xfc93a039;
    0x655b59c3; 0x8f0ccc92; 0xffeff47d; 0x85845dd1;
    0x6fa87e4f; 0xfe2ce6e0; 0xa3014314; 0x4e0811a1;
    0xf7537e82; 0xbd3af235; 0x2ad7d2bb; 0xeb86d391 ].

Definition S : list Z :=
  [ 7; 12; 17; 22; 7; 12; 17; 22; 7; 12; 17; 22; 7; 12; 17; 22;
    5; 9; 14; 20; 5; 9; 14; 20; 5; 9; 14; 20; 5; 9; 14; 20;
    4; 11; 16; 23; 4; 11; 16; 23; 4; 11; 16; 23; 4; 11; 16; 23;
    6; 10; 15; 21; 6; 10; 15; 21; 6; 10; 15; 21; 6; 10; 15; 21 ].

Definition zth (l : list Z) (i : Z) : Z := nth (Z.to_nat i) l 0.

(** Message padding: a single 1 bit, zeros up to 56 modulo 64 bytes, then
    the bit length as a 64-bit little-endian integer. *)
Definition le_bytes (n : nat) (x : Z) : list Z :=
  map (fun i => Z.land (Z.shiftr x (8 * i)) 0xff) (range n).

Definition pad (msg : list Z) : list Z :=
  let len := Z.of_nat (length msg) in
  let zeros := Z.to_nat ((55 - len) mod 64) in
  msg ++ [0x80] ++ repeat 0 zeros ++ le_bytes 8 (Z.land (8 * len) 0xffffffffffffffff).

Definition le_word (bs : list Z) : Z :=
  Z.lor (zth bs 0)
    (Z.lor (Z.shiftl (zth bs 1) 8)
       (Z.lor (Z.shiftl (zth bs 2) 16) (Z.shiftl (zth bs 3) 24))).

(** The sixteen little-endian words of one 64-byte block. *)
Definition words (block : list Z) : list Z :=
  map (fun i => le_word (firstn 4 (skipn (4 * i) block))) (seq 0 16).

Definition state : Type := Z * Z * Z * Z.

Definition round (M : list Z) (st : state) (i : Z) : state :=
  let '(A, B, C, D) := st in
  let '(F, g) :=
    if i <? 16 then (Z.lor (Z.land B C) (Z.land (not32 B) D), i)
    else if i <? 32 then
      (Z.lor (Z.land D B) (Z.land (not32 D) C), (5 * i + 1) mod 16)
    else if i <? 48 then (Z.lxor B (Z.lxor C D), (3 * i + 5) mod 16)
    else (Z.lxor C (Z.lor B (not32 D)), (7 * i) mod 16) in
  let F' := w32 (F + A + zth K i + zth M g) in
  (D, w32 (B + leftrotate F' (zth S i)), B, C).

Definition process_block (st : state) (block : list Z) : state :=
  let '(a0, b0, c0, d0) := st in
  let '(A, B, C, D) := fold_left (round (words block)) (range 64) st in
  (w32 (a0 + A), w32 (b0 + B), w32 (c0 + C), w32 (d0 + D)).

Fixpoint blocks (n : nat) (bs : list Z) : list (list Z) :=
  match n with
  | O => []
  | Datatypes.S n' => firstn 64 bs :: blocks n' (skipn 64 bs)
  end.

Definition init_state : state :=
  (0x67452301, 0xefcdab89, 0x98badcfe, 0x10325476).

Definition digest (msg : list byte) : list Z :=
  let p := pad (map byte_to_Z msg) in
  let '(A, B, C, D) :=
    fold_left process_block (blocks (length p / 64) p) init_state in
  le_bytes 4 A ++ le_bytes 4 B ++ le_bytes 4 C ++ le_bytes 4 D.

Definition hexdigit (d : Z) : ascii :=
  if d <? 10 then chr (48 + d) else chr (87 + d).

Fixpoint hex (bs : list Z) : string :=
  match bs with
  | [] => EmptyString
  | b :: bs' =>
      String (hexdigit (Z.shiftr b 4)) (String (hexdigit (Z.land b 0xf)) (hex bs'))
  end.

Definition hexdigest (msg : list byte) : string := hex (digest msg).

End MD5.

(* ------------------------------------------------------------------ *)
(** ** Python values held in an item's [content] *)

Inductive pyobj : Type :=
  | PyStr (s : string)
  | PyBytes (b : list byte).

(** [repr] of a [bytes] object: [b'..'] with the quote switched to a
    double quote when the data holds a single quote and no double quote;
    backslash and the chosen quote are escaped, tab, newline and carriage
    return are written [\t], [\n], [\r], every other byte outside the
    printable ASCII range as [\xhh]. *)
Definition repr_byte (quote : Z) (c : Z) : string :=
  if (c =? quote) || (c =? 92) then String "\" (String (chr c) EmptyString)
  else if c =? 9 then "\t"
  else if c =? 10 then "\n"
  else if c =? 13 then "\r"
  else if (c <? 32) || (127 <=? c) then
    String "\" (String "x"
      (String (MD5.hexdigit (Z.shiftr (Z.land c 0xf0) 4))
         (String (MD5.hexdigit (Z.land c 0xf)) EmptyString)))
  else String (chr c) EmptyString.

Definition bytes_repr (b : list byte) : string :=
  let cs := map byte_to_Z b in
  let squotes := existsb (Z.eqb 39) cs in
  let dquotes := existsb (Z.eqb 34) cs in
  let quote := if squotes && negb dquotes then 34 else 39 in
  String "b" (String (chr quote)
    (String.concat "" (map (repr_byte quote) cs) ++ String (chr quote) EmptyString))%string.

(** [str(content)] *)
Definition py_str (content : pyobj) : string :=
  match content with
  | PyStr s => s
  | PyBytes b => bytes_repr b
  end.

(** [s.encode()] *)
Definition encode (s : string) : list byte := list_byte_of_string s.

(** Python's [l[:n]]: a negative bound counts from the end. *)
Definition py_slice_to {A} (l : list A) (n : Z) : list A :=
  if 0 <=? n then take (Z.to_nat n) l
  else take (length l - Z.to_nat (- n)) l.

(** Python's [l[i]]: a negative index counts from the end; an index
    outside [-len(l) .. len(l)-1] raises [IndexError]. *)
Definition py_getitem {A} (l : list A) (i : Z) : result A :=
  let n := Z.of_nat (length l) in
  let j := if i <? 0 then i + n else i in
  if (0 <=? j) && (j <? n) then
    match l !! Z.to_nat j with
    | Some x => Ok x
    | None => Raise IndexError
    end
  else Raise IndexError.

(* ------------------------------------------------------------------ *)
(** ** The persisted document

    What [json.load] hands to the program: an object with the optional
    keys [history] and [max_items]; each record of [history] is an object
    with the optional keys [id], [content], [type] and [timestamp], whose
    values have the types of the documented format. A file that does not
    hold JSON at all is [FileGarbage].

    This is the format [save_config] writes, with keys possibly missing.
    JSON of any other shape (a top level that is not an object, a
    [content], [type] or [id] that is not a string, a [max_items] that is
    not an integer) has no counterpart here: the loader takes some of it
    over untyped and fails on the rest, and every statement below about a
    document is a statement about documents of this format only. *)

Record entry_record : Type := {
  rec_id : option string;
  rec_content : option string;
  rec_type : option string;
  rec_timestamp : option Z
}.

Record document : Type := {
  doc_history : option (list entry_record);
  doc_max_items : option Z
}.

Inductive file_content : Type :=
  | FileMissing
  | FileGarbage
  | FileJson (config : document).

(** [data[key]] *)
Definition getitem {A} (key : string) (field : option A) : result A :=
  match field with
  | Some v => Ok v
  | None => Raise (KeyError key)
  end.

(** [data.get(key, dflt)] *)
Definition get {A} (field : option A) (dflt : A) : A :=
  match field with
  | Some v => v
  | None => dflt
  end.

(* ------------------------------------------------------------------ *)
(** ** class ClipboardItem *)

Module ClipboardItem.

Record t : Type := {
  id : string;
  content : pyobj;
  type : string;
  timestamp : Z
}.

(** [mtime] is [os.path.getmtime(os.path.realpath(__file__))]. *)
Definition __init__ (content : pyobj) (content_type : string) (mtime : Z) : t :=
  {| id := MD5.hexdigest (encode (py_str content));
     content := content;
     type := content_type;
     timestamp := mtime |}.

(** The dictionary [to_dict] returns; its [content] is still a Python
    value, which [json.dump] may or may not be able to write. *)
Record dict : Type := {
  dict_id : string;
  dict_content : pyobj;
  dict_type : string;
  dict_timestamp : Z
}.

Definition to_dict (self : t) : result dict :=
  if String.eqb (type self) "image" then
    match content self with
    | PyBytes b =>
        Ok {| dict_id := id self;
              dict_content := PyStr (Base64.b64encode b);
              dict_type := type self;
              dict_timestamp := timestamp self |}
    | PyStr _ => Raise TypeError
    end
  else
    Ok {| dict_id := id self;
          dict_content := content self;
          dict_type := type self;
          dict_timestamp := timestamp self |}.

Definition from_dict (mtime : Z) (data : entry_record) : result t :=
  rbind (getitem "content" (rec_content data)) (fun c =>
  rbind (getitem "type" (rec_type data)) (fun ty =>
  let item := __init__ (PyStr c) ty mtime in
  rbind (getitem "id" (rec_id data)) (fun i =>
  let item := {| id := i; content := content item; type := type item;
                 timestamp := timestamp item |} in
  let item := {| id := id item; content := content item; type := type item;
                 timestamp := get (rec_timestamp data) (timestamp item) |} in
  if String.eqb (type item) "image" then
    rbind (Base64.b64decode c) (fun b =>
    Ok {| id := id item; content := PyBytes b; type := type item;
          timestamp := timestamp item |})
  else Ok item))).

End ClipboardItem.

(** [json.dump] of one dictionary: a [bytes] value is not serializable. *)
Definition json_record (d : ClipboardItem.dict) : result entry_record :=
  match ClipboardItem.dict_content d with
  | PyStr s =>
      Ok {| rec_id := Some (ClipboardItem.dict_id d);
            rec_content := Some s;
            rec_type := Some (ClipboardItem.dict_type d);
            rec_timestamp := Some (ClipboardItem.dict_timestamp d) |}
  | PyBytes _ => Raise TypeError
  end.

(* ------------------------------------------------------------------ *)
(** ** The environment of the process *)

(** [QImage.fromData(data)]: the image Qt decodes from [data], which is
    the null image when [data] is not an image file Qt can read. What Qt
    decodes is not modelled; the constructor only records the call. The
    bytes [check_clipboard] stores for an image are raw pixels, not an
    image file. *)
Inductive qimage : Type :=
  | QImage_fromData (data : list byte).

(** What the program hands to the clipboard sinks. *)
Inductive effect : Type :=
  | SetText (text : string)          (* QClipboard.setText *)
  | SetMimeData (image : qimage)     (* QClipboard.setMimeData of an image *)
  | PyperclipCopy (text : string)    (* pyperclip.copy *)
  | XdotoolPaste.                    (* os.system('xdotool key ctrl+v') *)

Record environment : Type := {
  config_file : file_content;   (* contents of [config_path] *)
  config_writable : bool;       (* does [open(config_path, 'w')] succeed *)
  script_mtime : Z;             (* modification time of the script file *)
  platform_linux : bool;        (* [sys.platform == 'linux'] *)
  sink : list effect            (* clipboard writes so far, latest first *)
}.

Definition with_config_file (os : environment) (f : file_content) : environment :=
  {| config_file := f;
     config_writable := config_writable os;
     script_mtime := script_mtime os;
     platform_linux := platform_linux os;
     sink := sink os |}.

Definition with_effect (os : environment) (e : effect) : environment :=
  {| config_file := config_file os;
     config_writable := config_writable os;
     script_mtime := script_mtime os;
     platform_linux := platform_linux os;
     sink := e :: sink os |}.

(** What the clipboard snapshot source yields on one poll. *)
Record mime_data : Type := {
  text : option string;
  imageData : option (list byte)
}.

(* ------------------------------------------------------------------ *)
(** ** class ClipboardManager *)

Module ClipboardManager.

Record t : Type := {
  history : list ClipboardItem.t;
  max_items : Z
}.

Definition state : Type := t * environment.

(** Methods are computations over the object and its environment. An
    exception leaves the state as it was when it was raised. *)
Definition M (A : Type) : Type := state -> result A * state.

Definition ret {A} (a : A) : M A := fun st => (Ok a, st).

Definition bind {A B} (m : M A) (k : A -> M B) : M B :=
  fun st =>
    match m st with
    | (Ok a, st') => k a st'
    | (Raise e, st') => (Raise e, st')
    end.

Definition raise {A} (e : exn) : M A := fun st => (Raise e, st).

Notation "x <- m ;; k" := (bind m (fun x => k))
  (at level 100, m at next level, right associativity).
Notation "m ;;; k" := (bind m (fun _ => k))
  (at level 100, right associativity).

Definition get_history : M (list ClipboardItem.t) :=
  fun st => (Ok (history (fst st)), st).

Definition get_max_items : M Z :=
  fun st => (Ok (max_items (fst st)), st).

Definition set_history (h : list ClipboardItem.t) : M unit :=
  fun st => (Ok tt, ({| history := h; max_items := max_items (fst st) |}, snd st)).

Definition set_max_items (n : Z) : M unit :=
  fun st => (Ok tt, ({| history := history (fst st); max_items := n |}, snd st)).

Definition get_env : M environment := fun st => (Ok (snd st), st).

Definition emit (e : effect) : M unit :=
  fun st => (Ok tt, (fst st, with_effect (snd st) e)).

Definition lift {A} (r : result A) : M A := fun st => (r, st).

(** [save_config]: the list of dictionaries is built first, then the file
    is opened for writing (which truncates it), then [json.dump] writes;
    a value it cannot serialize leaves a truncated, unparsable file. *)
Definition save_config : M unit :=
  h <- get_history ;;
  n <- get_max_items ;;
  dicts <- lift (mapM ClipboardItem.to_dict h) ;;
  os <- get_env ;;
  if config_writable os then
    fun st =>
      match mapM json_record dicts with
      | Ok records =>
          (Ok tt,
           (fst st,
            with_config_file (snd st)
              (FileJson {| doc_history := Some records;
                           doc_max_items := Some n |})))
      | Raise e => (Raise e, (fst st, with_config_file (snd st) FileGarbage))
      end
  else raise OSError.

(** [load_config]: only a missing file and a file that is not JSON are
    caught; an exception from [from_dict] propagates. *)
Definition load_config : M unit :=
  os <- get_env ;;
  match config_file os with
  | FileMissing | FileGarbage => set_history []
  | FileJson config =>
      h <- lift (mapM (ClipboardItem.from_dict (script_mtime os))
                   (get (doc_history config) [])) ;;
      set_history h ;;;
      set_max_items (get (doc_max_items config) 10)
  end.

(** The constructor, up to the point where the store is loaded. *)
Definition __init__ (max_items : Z) (os : environment) : result unit * state :=
  load_config ({| history := []; max_items := max_items |}, os).

(** The two ways [add_item] returns: early, at the duplicate test, or
    at the end, after the insertion. *)
Inductive InsertOutcome : Type :=
  | Duplicate
  | Inserted (item : ClipboardItem.t).

(** [populate_list] rebuilds the list view from the history. The view
    itself is not modelled, but the calls that fill it are typed: the
    label of a text item must be a [str] and the data of an image item
    must be [bytes], otherwise the call raises [TypeError]; an item of
    any other type gets an empty row. *)
Definition renders (item : ClipboardItem.t) : bool :=
  if String.eqb (ClipboardItem.type item) "text" then
    match ClipboardItem.content item with PyStr _ => true | PyBytes _ => false end
  else if String.eqb (ClipboardItem.type item) "image" then
    match ClipboardItem.content item with PyBytes _ => true | PyStr _ => false end
  else true.

Definition populate_list : M unit :=
  h <- get_history ;;
  if forallb renders h then ret tt else raise TypeError.

Definition add_item (content : pyobj) (content_type : string) : M InsertOutcome :=
  os <- get_env ;;
  let item := ClipboardItem.__init__ content content_type (script_mtime os) in
  h <- get_history ;;
  if existsb (fun existing =>
                String.eqb (ClipboardItem.id existing) (ClipboardItem.id item)) h
  then ret Duplicate
  else
    set_history (item :: h) ;;;
    h <- get_history ;;
    n <- get_max_items ;;
    (if Z.of_nat (length h) >? n then set_history (py_slice_to h n) else ret tt) ;;;
    populate_list ;;;
    save_config ;;;
    ret (Inserted item).

(** One tick of the polling timer. *)
Definition check_clipboard (mime : mime_data) : M (option InsertOutcome) :=
  match text mime with
  | Some s => r <- add_item (PyStr s) "text" ;; ret (Some r)
  | None =>
      match imageData mime with
      | Some image_bytes => r <- add_item (PyBytes image_bytes) "image" ;; ret (Some r)
      | None => ret None
      end
  end.

(** Pushing an item to the clipboard; [via_pyperclip] tells the two
    callers apart ([restore_item] copies text with pyperclip and never
    simulates the paste key). Given [bytes] where a text is expected,
    [setText] raises [TypeError], while [pyperclip.copy] (version 1.9 and
    later; earlier versions raise a [PyperclipException]) copies
    [str(content)]. *)
Definition push_item (via_pyperclip : bool) (item : ClipboardItem.t) : M unit :=
  if String.eqb (ClipboardItem.type item) "text" then
    match ClipboardItem.content item with
    | PyStr s =>
        if via_pyperclip then emit (PyperclipCopy s)
        else
          emit (SetText s) ;;;
          os <- get_env ;;
          if platform_linux os then emit XdotoolPaste else ret tt
    | PyBytes _ =>
        if via_pyperclip
        then emit (PyperclipCopy (py_str (ClipboardItem.content item)))
        else raise TypeError
    end
  else if String.eqb (ClipboardItem.type item) "image" then
    match ClipboardItem.content item with
    | PyBytes b => emit (SetMimeData (QImage_fromData b))
    | PyStr _ => raise TypeError
    end
  else ret tt.

(** [paste_last_item]; the value returned is the item found, [None] when
    the history is empty. *)
Definition paste_last_item : M (option ClipboardItem.t) :=
  h <- get_history ;;
  match h with
  | [] => ret None
  | last_item :: _ => push_item false last_item ;;; ret (Some last_item)
  end.

(** [restore_item]; [index] is what [clip_list.row(item)] returned. *)
Definition restore_item (index : Z) : M ClipboardItem.t :=
  h <- get_history ;;
  selected_item <- lift (py_getitem h index) ;;
  push_item true selected_item ;;;
  ret selected_item.

Definition clear_history : M unit :=
  set_history [] ;;;
  save_config.

(** The entry points through which the outside world drives the manager. *)
Inductive op : Type :=
  | AddItem (content : pyobj) (content_type : string)
  | CheckClipboard (mime : mime_data)
  | PasteLastItem
  | RestoreItem (index : Z)
  | ClearHistory
  | SetWritable (w : bool).   (* the environment changes under the program *)

Definition set_writable (w : bool) : M unit :=
  fun st =>
    (Ok tt,
     (fst st,
      {| config_file := config_file (snd st);
         config_writable := w;
         script_mtime := script_mtime (snd st);
         platform_linux := platform_linux (snd st);
         sink := sink (snd st) |})).

(** The state an entry point leaves behind, whether or not it raised. *)
Definition run_op (o : op) (st : state) : state :=
  match o with
  | AddItem c ty => snd (add_item c ty st)
  | CheckClipboard mime => snd (check_clipboard mime st)
  | PasteLastItem => snd (paste_last_item st)
  | RestoreItem i => snd (restore_item i st)
  | ClearHistory => snd (clear_history st)
  | SetWritable w => snd (set_writable w st)
  end.

Definition run_ops (ops : list op) (st : state) : state :=
  fold_left (fun st o => run_op o st) ops st.

End ClipboardManager.

(* ------------------------------------------------------------------ *)
(** ** Notions used to state the properties *)

(** Executable checks behind the base64 round trip. *)
Module Base64Check.
Import Base64.

(** Every 6-bit value is written as an ASCII character of the alphabet,
    which is not the pad and which the inverse table maps back. *)
Definition sextet_ok (i : Z) : bool :=
  match table_a2b_base64 (b2a i) with
  | Some v => v =? i
  | None => false
  end && negb (Ascii.eqb (b2a i) BASE64_PAD) && (ord (b2a i) <? 128).

(** The bit arithmetic of one group, checked over all byte values. *)
Definition in64 (i : Z) : bool := (0 <=? i) && (i <? 64).

Definition first_ok (a b : Z) : bool :=
  let s1 := Z.shiftr a 2 in
  let s2 := Z.lor (Z.shiftl (Z.land a 3) 4) (Z.shiftr b 4) in
  in64 s1 && in64 s2
  && (Z.land (Z.lor (Z.shiftl s1 2) (Z.shiftr s2 4)) 0xff =? a)
  && (Z.land s2 0x0f =? Z.shiftr b 4)
  && in64 (Z.shiftl (Z.land a 3) 4)
  && (Z.land (Z.lor (Z.shiftl s1 2) (Z.shiftr (Z.shiftl (Z.land a 3) 4) 4)) 0xff =? a).

Definition second_ok (b c : Z) : bool :=
  let s3 := Z.lor (Z.shiftl (Z.land b 0xf) 2) (Z.shiftr c 6) in
  in64 s3
  && (Z.land (Z.lor (Z.shiftl (Z.shiftr b 4) 4) (Z.shiftr s3 2)) 0xff =? b)
  && (Z.land s3 0x03 =? Z.shiftr c 6)
  && in64 (Z.shiftl (Z.land b 0xf) 2)
  && (Z.land (Z.lor (Z.shiftl (Z.shiftr b 4) 4)
                (Z.shiftr (Z.shiftl (Z.land b 0xf) 2) 2)) 0xff =? b).

Definition third_ok (c : Z) : bool :=
  let s4 := Z.land c 0x3f in
  in64 s4 && (Z.land (Z.lor (Z.shiftl (Z.shiftr c 6) 6) s4) 0xff =? c).

End Base64Check.

#[local] Instance string_eq_dec : EqDecision string := String.string_dec.
#[local] Instance byte_eq_dec : EqDecision byte := Byte.byte_eq_dec.
#[local] Instance pyobj_eq_dec : EqDecision pyobj.
Proof. solve_decision. Defined.

(** The identity [ClipboardItem.__init__] gives to a payload. *)
Definition fingerprint (content : pyobj) : string :=
  MD5.hexdigest (encode (py_str content)).

(** The identities held by a history, in order. *)
Definition ids (h : list ClipboardItem.t) : list string :=
  map ClipboardItem.id h.

(** An item whose [content] has the Python type its [type] announces:
    [bytes] for an image, [str] otherwise. Both callers of [add_item] and
    [from_dict] only build such items. *)
Definition well_typed (item : ClipboardItem.t) : bool :=
  match ClipboardItem.content item with
  | PyBytes _ => String.eqb (ClipboardItem.type item) "image"
  | PyStr _ => negb (String.eqb (ClipboardItem.type item) "image")
  end.

(** The record a well-typed item is written as. *)
Definition record_of (item : ClipboardItem.t) : entry_record :=
  {| rec_id := Some (ClipboardItem.id item);
     rec_content :=
       Some match ClipboardItem.content item with
            | PyStr s => s
            | PyBytes b => Base64.b64encode b
            end;
     rec_type := Some (ClipboardItem.type item);
     rec_timestamp := Some (ClipboardItem.timestamp item) |}.

(** The document a store of well-typed items is written as. *)
Definition document_of (self : ClipboardManager.t) : document :=
  {| doc_history := Some (map record_of (ClipboardManager.history self));
     doc_max_items := Some (ClipboardManager.max_items self) |}.

(** [len(history) <= max_items] *)
Definition capacity_bound (self : ClipboardManager.t) : Prop :=
  Z.of_nat (length (ClipboardManager.history self)) <= ClipboardManager.max_items self.

(** A payload as [add_item] receives it. *)
Definition payload : Type := pyobj * string.

Definition item_of (os : environment) (p : payload) : ClipboardItem.t :=
  ClipboardItem.__init__ (fst p) (snd p) (script_mtime os).

Definition add_items (ps : list payload) : list ClipboardManager.op :=
  map (fun p => ClipboardManager.AddItem (fst p) (snd p)) ps.

(** The history [add_item] leaves when the payload is new. *)
Definition inserted (item : ClipboardItem.t) (self : ClipboardManager.t)
  : ClipboardManager.t :=
  {| ClipboardManager.history :=
       if Z.of_nat (length (item :: ClipboardManager.history self)) >? ClipboardManager.max_items self
       then py_slice_to (item :: ClipboardManager.history self) (ClipboardManager.max_items self)
       else item :: ClipboardManager.history self;
     ClipboardManager.max_items := ClipboardManager.max_items self |}.


(* ------------------------------------------------------------------ *)
(** ** Concrete stores, environments and documents *)

Module Fixtures.
Import ClipboardManager.

Definition os_fresh : environment :=
  {| config_file := FileMissing;
     config_writable := true;
     script_mtime := 1700000000;
     platform_linux := true;
     sink := [] |}.

Definition os_readonly : environment :=
  {| config_file := FileMissing;
     config_writable := false;
     script_mtime := 1700000000;
     platform_linux := true;
     sink := [] |}.

Definition empty_store (n : Z) : t := {| history := []; max_items := n |}.

Definition hello : ClipboardItem.t :=
  ClipboardItem.__init__ (PyStr "hello") "text" 1700000000.
Definition world : ClipboardItem.t :=
  ClipboardItem.__init__ (PyStr "world") "text" 1700000000.
Definition pixel : ClipboardItem.t :=
  ClipboardItem.__init__ (PyBytes [x89; x50; x00; xff]) "image" 1700000000.

(** A store holding [world] (newest) and [hello], capacity 2. *)
Definition two_store : t := {| history := [world; hello]; max_items := 2 |}.

(** A text and an image, capacity 10. *)
Definition mixed_store : t := {| history := [pixel; hello]; max_items := 10 |}.

Definition rec_hello : entry_record :=
  {| rec_id := Some "5d41402abc4b2a76b9719d911017c592";
     rec_content := Some "hello";
     rec_type := Some "text";
     rec_timestamp := Some 1700000000 |}.

Definition rec_world : entry_record :=
  {| rec_id := Some "7d793037a0760186574b0282f2f435e7";
     rec_content := Some "world";
     rec_type := Some "text";
     rec_timestamp := Some 1700000000 |}.

(** A record whose [id] is not the digest of its [content]. *)
Definition rec_forged : entry_record :=
  {| rec_id := Some "00000000000000000000000000000000";
     rec_content := Some "hello";
     rec_type := Some "text";
     rec_timestamp := Some 1700000000 |}.

Definition os_with (config : document) : environment :=
  {| config_file := FileJson config;
     config_writable := true;
     script_mtime := 1700000000;
     platform_linux := true;
     sink := [] |}.

(** Two records, [max_items] 1. *)
Definition doc_oversized : document :=
  {| doc_history := Some [rec_world; rec_hello]; doc_max_items := Some 1 |}.



End Fixtures.

(* ------------------------------------------------------------------ *)
(** ** The rows of the list view

    What [populate_list] puts into the list widget, one row per entry of
    the history. A [str] being held as its UTF-8 encoding, its characters
    are counted and cut at the bytes that start one, that is at the bytes
    that are not continuation bytes. *)

Module ListView.

Definition is_continuation (c : ascii) : bool :=
  Z.land (ord c) 0xC0 =? 0x80.

(** [len(s)] *)
Fixpoint py_len (s : string) : nat :=
  match s with
  | EmptyString => O
  | String c s' => if is_continuation c then py_len s' else S (py_len s')
  end.

(** [s[:n]] *)
Fixpoint py_prefix (n : nat) (s : string) : string :=
  match s with
  | EmptyString => EmptyString
  | String c s' =>
      if is_continuation c then String c (py_prefix n s')
      else
        match n with
        | O => EmptyString
        | S n' => String c (py_prefix n' s')
        end
  end.

(** [content[:50] + '...' if len(content) > 50 else content] *)
Definition display_text (content : string) : string :=
  if (50 <? py_len content)%nat then (py_prefix 50 content ++ "...")%string
  else content.

(** A [QListWidgetItem]: its text (empty until set) and the image data
    its icon was made from. *)
Record row : Type := {
  label : string;
  icon : option (list byte)
}.

Definition list_item (item : ClipboardItem.t) : result row :=
  if String.eqb (ClipboardItem.type item) "text" then
    match ClipboardItem.content item with
    | PyStr s => Ok {| label := display_text s; icon := None |}
    | PyBytes _ => Raise TypeError
    end
  else if String.eqb (ClipboardItem.type item) "image" then
    match ClipboardItem.content item with
    | PyBytes b => Ok {| label := "Image"; icon := Some b |}
    | PyStr _ => Raise TypeError
    end
  else Ok {| label := ""; icon := None |}.


End ListView.

(* ------------------------------------------------------------------ *)
(** ** Key bindings and global hotkeys

    The second persisted document and the methods around it:
    [load_keybindings], [save_keybindings], [save_keybindings_from_dialog]
    and [setup_global_hotkeys]. A Python [dict] is an association list in
    insertion order, which is the order [json.dump] writes and the dialog
    shows. The file is taken to hold, when it holds JSON, an object from
    strings to strings. Of [pynput] only two facts are kept: whether it
    can be imported, and which key combinations its [GlobalHotKeys]
    accepts. *)

Module Keybindings.

Definition dict (V : Type) : Type := list (string * V).

(** [d.get(k)]; [d[k]] raises [KeyError] where this is [None]. *)
Fixpoint dict_get {V} (d : dict V) (k : string) : option V :=
  match d with
  | [] => None
  | (k', v) :: d' => if String.eqb k' k then Some v else dict_get d' k
  end.

(** [d[k] = v]: replaces the value in place, or appends a new key. *)
Fixpoint dict_set {V} (d : dict V) (k : string) (v : V) : dict V :=
  match d with
  | [] => [(k, v)]
  | (k', v') :: d' =>
      if String.eqb k' k then (k', v) :: d' else (k', v') :: dict_set d' k v
  end.

Definition keys {V} (d : dict V) : list string := map fst d.

(** The three methods a hotkey can call. *)
Inductive action : Type :=
  | RunToggleWindow
  | RunPasteLastItem
  | RunClearHistory.

(** A [keyboard.GlobalHotKeys] object. *)
Record listener : Type := {
  hotkeys : dict action;
  running : bool
}.

(** What the method prints. *)
Inductive message : Type :=
  | PynputNotInstalled
  | FailedToSetupHotkeys (e : exn).

Inductive keybindings_content : Type :=
  | KbMissing
  | KbGarbage
  | KbJson (bindings : dict string).

Record host : Type := {
  keybindings_file : keybindings_content;  (* contents of [keybindings_path] *)
  keybindings_writable : bool;             (* does [open(.., 'w')] succeed *)
  pynput_installed : bool;                 (* does the import succeed *)
  hotkey_accepted : string -> bool;        (* does GlobalHotKeys parse it *)
  console : list message                   (* printed so far, latest first *)
}.

(** The fields of the manager that concern key bindings. There are two
    dictionary objects: the one [default_keybindings] names for good, and
    another one (empty at first, later the one [json.load] returned);
    [aliased] tells that [self.keybindings] is the former. *)
Record t : Type := {
  default_keybindings : dict string;
  loaded : dict string;
  aliased : bool;
  current_listener : option listener
}.

Definition state : Type := t * host.

(** [self.keybindings] *)
Definition keybindings (self : t) : dict string :=
  if aliased self then default_keybindings self else loaded self.

Definition builtin_keybindings : dict string :=
  [("activate", "Ctrl+Alt+V"); ("paste_last", "Ctrl+Shift+V");
   ("clear_history", "Ctrl+Alt+C")].

(** The fields as [__init__] sets them. *)
Definition __init__ : t :=
  {| default_keybindings := builtin_keybindings;
     loaded := [];
     aliased := false;
     current_listener := None |}.

Definition with_file (os : host) (f : keybindings_content) : host :=
  {| keybindings_file := f;
     keybindings_writable := keybindings_writable os;
     pynput_installed := pynput_installed os;
     hotkey_accepted := hotkey_accepted os;
     console := console os |}.

Definition print (os : host) (m : message) : host :=
  {| keybindings_file := keybindings_file os;
     keybindings_writable := keybindings_writable os;
     pynput_installed := pynput_installed os;
     hotkey_accepted := hotkey_accepted os;
     console := m :: console os |}.

Definition save_keybindings (st : state) : result unit * state :=
  let (self, os) := st in
  if keybindings_writable os
  then (Ok tt, (self, with_file os (KbJson (keybindings self))))
  else (Raise OSError, st).

Definition load_keybindings (st : state) : result unit * state :=
  let (self, os) := st in
  match keybindings_file os with
  | KbJson bindings =>
      (Ok tt,
       ({| default_keybindings := default_keybindings self;
           loaded := bindings;
           aliased := false;
           current_listener := current_listener self |}, os))
  | KbMissing | KbGarbage =>
      save_keybindings
        ({| default_keybindings := default_keybindings self;
            loaded := loaded self;
            aliased := true;
            current_listener := current_listener self |}, os)
  end.

(** [self.keybindings[name] = text]: the assignment goes to whichever
    object [self.keybindings] is. *)
Definition set_binding (self : t) (name text : string) : t :=
  if aliased self then
    {| default_keybindings := dict_set (default_keybindings self) name text;
       loaded := loaded self;
       aliased := true;
       current_listener := current_listener self |}
  else
    {| default_keybindings := default_keybindings self;
       loaded := dict_set (loaded self) name text;
       aliased := false;
       current_listener := current_listener self |}.

Definition stop (l : listener) : listener :=
  {| hotkeys := hotkeys l; running := false |}.

Definition with_listener (self : t) (l : option listener) : t :=
  {| default_keybindings := default_keybindings self;
     loaded := loaded self;
     aliased := aliased self;
     current_listener := l |}.

(** [setup_global_hotkeys]. Everything happens inside the [try]: the
    import, stopping the previous listener, the three lookups in the
    order of the dictionary display, the construction and the start. *)
Definition setup_global_hotkeys (st : state) : result unit * state :=
  let (self, os) := st in
  if pynput_installed os then
    let self := with_listener self (option_map stop (current_listener self)) in
    match dict_get (keybindings self) "activate" with
    | None => (Ok tt, (self, print os (FailedToSetupHotkeys (KeyError "activate"))))
    | Some a =>
        match dict_get (keybindings self) "paste_last" with
        | None =>
            (Ok tt, (self, print os (FailedToSetupHotkeys (KeyError "paste_last"))))
        | Some p =>
            match dict_get (keybindings self) "clear_history" with
            | None =>
                (Ok tt,
                 (self, print os (FailedToSetupHotkeys (KeyError "clear_history"))))
            | Some c =>
                let d :=
                  dict_set (dict_set (dict_set [] a RunToggleWindow)
                              p RunPasteLastItem) c RunClearHistory in
                if forallb (hotkey_accepted os) (keys d) then
                  (Ok tt,
                   (with_listener self (Some {| hotkeys := d; running := true |}),
                    os))
                else (Ok tt, (self, print os (FailedToSetupHotkeys ValueError)))
            end
        end
    end
  else (Ok tt, (self, print os PynputNotInstalled)).

(** [save_keybindings_from_dialog]; [key_edits] gives, for each name the
    dialog shows, the text of its line edit when Save is clicked. *)
Definition save_keybindings_from_dialog (key_edits : dict string) (st : state)
  : result unit * state :=
  let (self, os) := st in
  let self :=
    fold_left (fun self e => set_binding self (fst e) (snd e)) key_edits self in
  match save_keybindings (self, os) with
  | (Ok _, st') => setup_global_hotkeys st'
  | (Raise e, st') => (Raise e, st')
  end.

End Keybindings.

(** The constructor of [ClipboardManager] as a whole, over both
    documents: [load_config], [load_keybindings], [init_ui] (which calls
    [populate_list]) and [setup_global_hotkeys], in this order. An
    exception anywhere aborts it. *)
Definition startup (max_items : Z) (os : environment) (kos : Keybindings.host)
  : result (ClipboardManager.state * Keybindings.state) :=
  match ClipboardManager.__init__ max_items os with
  | (Raise e, _) => Raise e
  | (Ok _, st) =>
      match Keybindings.load_keybindings (Keybindings.__init__, kos) with
      | (Raise e, _) => Raise e
      | (Ok _, kst) =>
          match ClipboardManager.populate_list st with
          | (Raise e, _) => Raise e
          | (Ok _, st') =>
              match Keybindings.setup_global_hotkeys kst with
              | (Raise e, _) => Raise e
              | (Ok _, kst') => Ok (st', kst')
              end
          end
      end
  end.

(* ------------------------------------------------------------------ *)
(** ** Notions for the properties of whole runs *)

(** A payload whose Python type fits its kind: [bytes] for an image, [str]
    otherwise. The timer's [check_clipboard] only hands over such
    payloads. *)
Definition payload_well_typed (content : pyobj) (content_type : string) : bool :=
  match content with
  | PyBytes _ => String.eqb content_type "image"
  | PyStr _ => negb (String.eqb content_type "image")
  end.

Definition op_well_typed (o : ClipboardManager.op) : bool :=
  match o with
  | ClipboardManager.AddItem c ty => payload_well_typed c ty
  | _ => true
  end.

(** An entry point that does not take the configuration file away. *)
Definition op_keeps_writable (o : ClipboardManager.op) : bool :=
  match o with
  | ClipboardManager.SetWritable w => w
  | _ => true
  end.

(** The configuration file holds the document of the store in memory. *)
Definition synced (st : ClipboardManager.state) : Prop :=
  config_file (snd st) = FileJson (document_of (fst st)).

(** Every entry's [id] is the digest of its own content. *)
Definition id_consistent (h : list ClipboardItem.t) : Prop :=
  Forall (fun e => ClipboardItem.id e = fingerprint (ClipboardItem.content e)) h.

(** The three facts that travel together along a run: the items are
    well-typed, the configuration file can be written, and it holds the
    document of the store. *)
Definition mirrored (st : ClipboardManager.state) : Prop :=
  forallb well_typed (ClipboardManager.history (fst st)) = true
  /\ config_writable (snd st) = true
  /\ synced st.

(** A run of timer ticks, one clipboard snapshot per tick. *)
Definition polls (mimes : list mime_data) : list ClipboardManager.op :=
  map ClipboardManager.CheckClipboard mimes.

(** The store [clear_history] leaves. *)
Definition cleared (self : ClipboardManager.t) : ClipboardManager.t :=
  {| ClipboardManager.history := [];
     ClipboardManager.max_items := ClipboardManager.max_items self |}.

(* ------------------------------------------------------------------ *)
(** ** Further concrete states *)

Module Scenarios.
Import ClipboardManager Fixtures.

(** [two_store] with its document on disk. *)
Definition synced_two : state :=
  (two_store, with_config_file os_fresh (FileJson (document_of two_store))).

Definition snap_text (s : string) : mime_data :=
  {| text := Some s; imageData := None |}.
Definition snap_image (b : list byte) : mime_data :=
  {| text := None; imageData := Some b |}.
Definition snap_empty : mime_data :=
  {| text := None; imageData := None |}.

(** A busy session: polls, lookups, a clear and more polls. *)
Definition session : list op :=
  [CheckClipboard (snap_text "alpha"); CheckClipboard (snap_text "alpha");
   PasteLastItem; CheckClipboard (snap_image [x00; x01; xfe]);
   RestoreItem 1; CheckClipboard snap_empty; ClearHistory;
   AddItem (PyStr "beta") "text"; CheckClipboard (snap_text "gamma");
   RestoreItem 7; CheckClipboard (snap_text "delta")].

(** A record without [content]. *)
Definition rec_no_content : entry_record :=
  {| rec_id := Some "5d41402abc4b2a76b9719d911017c592";
     rec_content := None;
     rec_type := Some "text";
     rec_timestamp := Some 1700000000 |}.

(** An image record whose content is not base64. *)
Definition rec_bad_image : entry_record :=
  {| rec_id := Some "abc";
     rec_content := Some "A";
     rec_type := Some "image";
     rec_timestamp := None |}.

(** One bad record between two good ones. *)
Definition doc_one_bad : document :=
  {| doc_history := Some [rec_world; rec_no_content; rec_hello];
     doc_max_items := Some 5 |}.

(** A text of 60 characters, 10 of them of two bytes. *)
Definition long_text : string :=
  "0123456789012345678901234567890123456789012345678"
  ++ String (chr 195) (String (chr 169) "")
  ++ String (chr 195) (String (chr 169) "")
  ++ String (chr 195) (String (chr 169) "")
  ++ String (chr 195) (String (chr 169) "")
  ++ String (chr 195) (String (chr 169) "")
  ++ String (chr 195) (String (chr 169) "")
  ++ String (chr 195) (String (chr 169) "")
  ++ String (chr 195) (String (chr 169) "")
  ++ String (chr 195) (String (chr 169) "")
  ++ String (chr 195) (String (chr 169) "")
  ++ "x".


End Scenarios.

(* ------------------------------------------------------------------ *)
(** ** Notions about the texts the program produces *)

Fixpoint string_forallb (f : ascii -> bool) (s : string) : bool :=
  match s with
  | EmptyString => true
  | String c s' => f c && string_forallb f s'
  end.

(** [0-9a-f] *)
Definition is_lower_hex (c : ascii) : bool :=
  let n := ord c in
  ((48 <=? n) && (n <=? 57)) || ((97 <=? n) && (n <=? 102)).

(** A character the base64 decoder looks at: one of the alphabet, or the
    pad. *)
Definition is_base64_char (c : ascii) : bool :=
  match Base64.table_a2b_base64 c with
  | Some _ => true
  | None => Ascii.eqb c Base64.BASE64_PAD
  end.

(** A text without the characters the decoder does not look at. *)
Fixpoint strip_foreign (s : string) : string :=
  match s with
  | EmptyString => EmptyString
  | String c s' =>
      if is_base64_char c then String c (strip_foreign s') else strip_foreign s'
  end.

(** Executable checks over all byte values. *)
Definition hex_pair_ok (b : Z) : bool :=
  is_lower_hex (MD5.hexdigit (Z.shiftr b 4))
  && is_lower_hex (MD5.hexdigit (Z.land b 0xf)).

Definition base64_char_ascii (n : Z) : bool :=
  negb (is_base64_char (chr n)) || (ord (chr n) <? 128).

(** The record of an image with the given base64 text. *)
Definition image_record (i c : string) (ts : option Z) : entry_record :=
  {| rec_id := Some i; rec_content := Some c; rec_type := Some "image";
     rec_timestamp := ts |}.

(** The dictionary after the assignments of the dialog, in order. *)
Definition apply_edits (d : Keybindings.dict string) (key_edits : Keybindings.dict string)
  : Keybindings.dict string :=
  fold_left (fun d e => Keybindings.dict_set d (fst e) (snd e)) key_edits d.

Module KeyScenarios.
Import Keybindings.

(** A host without a key bindings file, where pynput is installed and
    accepts combinations written with angle brackets. *)
Definition accepts (k : string) : bool :=
  match k with
  | String "<" _ => true
  | _ => false
  end.

Definition host_fresh : host :=
  {| keybindings_file := KbMissing;
     keybindings_writable := true;
     pynput_installed := true;
     hotkey_accepted := accepts;
     console := [] |}.

Definition host_readonly : host :=
  {| keybindings_file := KbGarbage;
     keybindings_writable := false;
     pynput_installed := true;
     hotkey_accepted := accepts;
     console := [] |}.

Definition host_with (b : dict string) : host :=
  {| keybindings_file := KbJson b;
     keybindings_writable := true;
     pynput_installed := true;
     hotkey_accepted := accepts;
     console := [] |}.

Definition pynput_bindings : dict string :=
  [("activate", "<ctrl>+<alt>+v"); ("paste_last", "<ctrl>+<shift>+v");
   ("clear_history", "<ctrl>+<alt>+c")].

(** Two actions on one combination. *)
Definition clashing_bindings : dict string :=
  [("activate", "<ctrl>+<alt>+v"); ("paste_last", "<ctrl>+<alt>+c");
   ("clear_history", "<ctrl>+<alt>+c")].

(** No binding for [paste_last]. *)
Definition partial_bindings : dict string :=
  [("activate", "<ctrl>+<alt>+v"); ("clear_history", "<ctrl>+<alt>+c")].

Definition a_listener : listener :=
  {| hotkeys := [("<ctrl>+<alt>+v", RunToggleWindow)]; running := true |}.

(** What the user left in the dialog opened on the built-in bindings. *)
Definition typed_edits : dict string :=
  [("activate", "<ctrl>+<alt>+v"); ("paste_last", "Ctrl+Shift+V");
   ("clear_history", "<ctrl>+<alt>+c")].

End KeyScenarios.

(* ================================================================== *)
(** * Properties *)

(* ------------------------------------------------------------------ *)
(** ** Bytes *)

Lemma range_forallb (P : Z -> bool) (n : nat) :
  forallb P (range n) = true ->
  forall z, 0 <= z < Z.of_nat n -> P z = true.
Proof.
  intros Hall z Hz.
  rewrite forallb_forall in Hall. apply Hall.
  unfold range. apply in_map_iff. exists (Z.to_nat z). split.
  - lia.
  - apply in_seq. lia.
Qed.

Lemma byte_to_Z_range (b : byte) : 0 <= byte_to_Z b < 256.
Proof.
  unfold byte_to_Z. pose proof (Byte.to_N_bounded b). lia.
Qed.

Lemma land_0xff_small (z : Z) : 0 <= z < 256 -> Z.land z 0xff = z.
Proof.
  intros Hz.
  assert (H : (Z.land z 0xff =? z) = true).
  { apply (range_forallb (fun z => Z.land z 0xff =? z) 256); [now vm_compute | exact Hz]. }
  now apply Z.eqb_eq.
Qed.

Lemma byte_of_Z_eq (z : Z) (b : byte) :
  Z.land z 0xff = byte_to_Z b -> byte_of_Z z = b.
Proof.
  intros H. unfold byte_of_Z. rewrite H. unfold byte_to_Z.
  rewrite N2Z.id, Byte.of_to_N. reflexivity.
Qed.

Lemma byte_of_to_Z (b : byte) : byte_of_Z (byte_to_Z b) = b.
Proof.
  apply byte_of_Z_eq, land_0xff_small, byte_to_Z_range.
Qed.

Lemma list_ind3 {A} (P : list A -> Prop) :
  P [] ->
  (forall x, P [x]) ->
  (forall x y, P [x; y]) ->
  (forall x y z l, P l -> P (x :: y :: z :: l)) ->
  forall l, P l.
Proof.
  intros H0 H1 H2 H3 l.
  assert (Hn : forall n (l : list A), (length l <= n)%nat -> P l).
  { induction n as [|n IH]; intros k Hk.
    - destruct k; [exact H0 | simpl in Hk; lia].
    - destruct k as [|x [|y [|z k]]]; auto.
      apply H3, IH. simpl in Hk. lia. }
  apply (Hn (length l)). lia.
Qed.

(* ------------------------------------------------------------------ *)
(** ** base64: decoding inverts encoding *)

Module Base64Facts.
Import Base64 Base64Check.

Lemma sextet_ok_all i : 0 <= i < 64 -> sextet_ok i = true.
Proof. apply (range_forallb sextet_ok 64). now vm_compute. Qed.

Lemma sextet_lookup i : 0 <= i < 64 -> table_a2b_base64 (b2a i) = Some i.
Proof.
  intros Hi. pose proof (sextet_ok_all i Hi) as H. unfold sextet_ok in H.
  apply andb_prop in H as [H _]. apply andb_prop in H as [H _].
  destruct (table_a2b_base64 (b2a i)); [|discriminate].
  apply Z.eqb_eq in H. now subst.
Qed.

Lemma sextet_not_pad i : 0 <= i < 64 -> Ascii.eqb (b2a i) BASE64_PAD = false.
Proof.
  intros Hi. pose proof (sextet_ok_all i Hi) as H. unfold sextet_ok in H.
  apply andb_prop in H as [H _]. apply andb_prop in H as [_ H].
  now apply negb_true_iff in H.
Qed.

Lemma sextet_ascii i : 0 <= i < 64 -> (ord (b2a i) <? 128) = true.
Proof.
  intros Hi. pose proof (sextet_ok_all i Hi) as H. unfold sextet_ok in H.
  now apply andb_prop in H as [_ H].
Qed.

(** One step of the loop on a character of the alphabet. *)
Lemma a2b_loop_sextet i s q lc p acc :
  0 <= i < 64 ->
  a2b_loop (String (b2a i) s) q lc p acc =
    if q =? 0 then a2b_loop s 1 i 0 acc
    else if q =? 1 then
      a2b_loop s 2 (Z.land i 0x0f) 0
        (byte_of_Z (Z.lor (Z.shiftl lc 2) (Z.shiftr i 4)) :: acc)
    else if q =? 2 then
      a2b_loop s 3 (Z.land i 0x03) 0
        (byte_of_Z (Z.lor (Z.shiftl lc 4) (Z.shiftr i 2)) :: acc)
    else a2b_loop s 0 0 0 (byte_of_Z (Z.lor (Z.shiftl lc 6) i) :: acc).
Proof.
  intros Hi. cbn [a2b_loop].
  rewrite (sextet_not_pad i Hi), (sextet_lookup i Hi). reflexivity.
Qed.

Lemma first_ok_all a b : 0 <= a < 256 -> 0 <= b < 256 -> first_ok a b = true.
Proof.
  intros Ha Hb.
  apply (range_forallb (fun a => forallb (first_ok a) (range 256)) 256) in Ha;
    [| now vm_compute].
  exact (range_forallb _ 256 Ha b Hb).
Qed.

Lemma second_ok_all b c : 0 <= b < 256 -> 0 <= c < 256 -> second_ok b c = true.
Proof.
  intros Hb Hc.
  apply (range_forallb (fun b => forallb (second_ok b) (range 256)) 256) in Hb;
    [| now vm_compute].
  exact (range_forallb _ 256 Hb c Hc).
Qed.

Lemma third_ok_all c : 0 <= c < 256 -> third_ok c = true.
Proof. apply (range_forallb third_ok 256). now vm_compute. Qed.

Lemma in64_spec i : in64 i = true -> 0 <= i < 64.
Proof. unfold in64. intros H. apply andb_prop in H as [H1 H2]. lia. Qed.

Ltac split_ok H :=
  repeat match type of H with
         | (_ && _) = true => let H' := fresh H in apply andb_prop in H as [H H']
         end.

(** Decoding the four characters of a full group appends its three bytes. *)
Lemma a2b_loop_group x y z s acc :
  a2b_loop (b64encode (x :: y :: z :: [])  ++ s) 0 0 0 acc =
  a2b_loop s 0 0 0 (z :: y :: x :: acc).
Proof.
  pose proof (first_ok_all _ _ (byte_to_Z_range x) (byte_to_Z_range y)) as F.
  pose proof (second_ok_all _ _ (byte_to_Z_range y) (byte_to_Z_range z)) as G.
  pose proof (third_ok_all _ (byte_to_Z_range z)) as T.
  unfold first_ok in F. unfold second_ok in G. unfold third_ok in T.
  cbv zeta in F, G, T. split_ok F. split_ok G. split_ok T.
  apply in64_spec in F, F4, G, T.
  apply Z.eqb_eq in F3, F2, G3, G2, T0.
  cbn [b64encode String.append].
  rewrite a2b_loop_sextet by assumption. cbn [Z.eqb].
  rewrite a2b_loop_sextet by assumption. cbn [Z.eqb Pos.eqb].
  rewrite a2b_loop_sextet by assumption. cbn [Z.eqb Pos.eqb].
  rewrite a2b_loop_sextet by assumption. cbn [Z.eqb Pos.eqb].
  rewrite F2, G2.
  rewrite (byte_of_Z_eq _ x F3), (byte_of_Z_eq _ y G3), (byte_of_Z_eq _ z T0).
  reflexivity.
Qed.

Lemma a2b_loop_tail1 x acc :
  a2b_loop (b64encode [x]) 0 0 0 acc = Ok (rev (x :: acc)).
Proof.
  pose proof (first_ok_all _ _ (byte_to_Z_range x) (byte_to_Z_range x)) as F.
  unfold first_ok in F. cbv zeta in F. split_ok F.
  apply in64_spec in F, F1. apply Z.eqb_eq in F0.
  cbn [b64encode].
  rewrite a2b_loop_sextet by assumption. cbn [Z.eqb].
  rewrite a2b_loop_sextet by assumption. cbn [Z.eqb Pos.eqb].
  rewrite (byte_of_Z_eq _ x F0).
  reflexivity.
Qed.

Lemma a2b_loop_tail2 x y acc :
  a2b_loop (b64encode [x; y]) 0 0 0 acc = Ok (rev (y :: x :: acc)).
Proof.
  pose proof (first_ok_all _ _ (byte_to_Z_range x) (byte_to_Z_range y)) as F.
  pose proof (second_ok_all _ _ (byte_to_Z_range y) (byte_to_Z_range y)) as G.
  unfold first_ok in F. unfold second_ok in G. cbv zeta in F, G.
  split_ok F. split_ok G.
  apply in64_spec in F, F4, G1.
  apply Z.eqb_eq in F3, F2, G0.
  cbn [b64encode].
  rewrite a2b_loop_sextet by assumption. cbn [Z.eqb].
  rewrite a2b_loop_sextet by assumption. cbn [Z.eqb Pos.eqb].
  rewrite a2b_loop_sextet by assumption. cbn [Z.eqb Pos.eqb].
  rewrite F2.
  rewrite (byte_of_Z_eq _ x F3), (byte_of_Z_eq _ y G0).
  reflexivity.
Qed.

Lemma a2b_loop_b64encode data :
  forall acc, a2b_loop (b64encode data) 0 0 0 acc = Ok (rev acc ++ data)%list.
Proof.
  induction data as [|x|x y|x y z data IH] using list_ind3; intros acc.
  - cbn. now rewrite app_nil_r.
  - rewrite a2b_loop_tail1. cbn [rev]. reflexivity.
  - rewrite a2b_loop_tail2. cbn [rev]. now rewrite <- !app_assoc.
  - change (b64encode (x :: y :: z :: data))
      with (b64encode [x; y; z] ++ b64encode data)%string.
    rewrite a2b_loop_group, IH. cbn [rev]. now rewrite <- !app_assoc.
Qed.

Lemma isascii_b64encode data : isascii (b64encode data) = true.
Proof.
  induction data as [|x|x y|x y z data IH] using list_ind3.
  - reflexivity.
  - pose proof (first_ok_all _ _ (byte_to_Z_range x) (byte_to_Z_range x)) as F.
    unfold first_ok in F. cbv zeta in F. split_ok F.
    apply in64_spec in F, F1.
    cbn [b64encode isascii]. now rewrite !sextet_ascii by assumption.
  - pose proof (first_ok_all _ _ (byte_to_Z_range x) (byte_to_Z_range y)) as F.
    pose proof (second_ok_all _ _ (byte_to_Z_range y) (byte_to_Z_range y)) as G.
    unfold first_ok in F. unfold second_ok in G. cbv zeta in F, G.
    split_ok F. split_ok G. apply in64_spec in F, F4, G1.
    cbn [b64encode isascii]. now rewrite !sextet_ascii by assumption.
  - pose proof (first_ok_all _ _ (byte_to_Z_range x) (byte_to_Z_range y)) as F.
    pose proof (second_ok_all _ _ (byte_to_Z_range y) (byte_to_Z_range z)) as G.
    pose proof (third_ok_all _ (byte_to_Z_range z)) as T.
    unfold first_ok in F. unfold second_ok in G. unfold third_ok in T.
    cbv zeta in F, G, T. split_ok F. split_ok G. split_ok T.
    apply in64_spec in F, F4, G, T.
    cbn [b64encode isascii]. rewrite !sextet_ascii by assumption.
    exact IH.
Qed.

(** [b64decode(b64encode(data).decode()) == data], for every [data]. *)
Lemma b64decode_b64encode data : b64decode (b64encode data) = Ok data.
Proof.
  unfold b64decode. rewrite isascii_b64encode. apply a2b_loop_b64encode.
Qed.

End Base64Facts.

(* ------------------------------------------------------------------ *)
(** ** The methods, unfolded *)

Module ManagerFacts.
Import ClipboardManager.

Lemma save_config_eq self os :
  save_config (self, os) =
    match mapM ClipboardItem.to_dict (history self) with
    | Raise e => (Raise e, (self, os))
    | Ok dicts =>
        if config_writable os then
          match mapM json_record dicts with
          | Ok records =>
              (Ok tt,
               (self,
                with_config_file os
                  (FileJson {| doc_history := Some records;
                               doc_max_items := Some (max_items self) |})))
          | Raise e => (Raise e, (self, with_config_file os FileGarbage))
          end
        else (Raise OSError, (self, os))
    end.
Proof.
  unfold save_config, bind, get_history, get_max_items, get_env, lift, raise.
  cbn [fst snd].
  destruct (mapM ClipboardItem.to_dict (history self)) as [dicts|e]; [|reflexivity].
  destruct (config_writable os); reflexivity.
Qed.

(** Saving never touches the object. *)
Lemma save_config_self st : fst (snd (save_config st)) = fst st.
Proof.
  destruct st as [self os]. rewrite save_config_eq.
  destruct (mapM ClipboardItem.to_dict (history self)); [|reflexivity].
  destruct (config_writable os); [|reflexivity].
  destruct (mapM json_record a); reflexivity.
Qed.

Lemma add_item_eq content content_type self os :
  let item := ClipboardItem.__init__ content content_type (script_mtime os) in
  add_item content content_type (self, os) =
    if existsb (fun existing =>
                  String.eqb (ClipboardItem.id existing) (ClipboardItem.id item))
         (history self)
    then (Ok Duplicate, (self, os))
    else if forallb ClipboardManager.renders (history (inserted item self)) then
      match save_config (inserted item self, os) with
      | (Ok _, st') => (Ok (Inserted item), st')
      | (Raise e, st') => (Raise e, st')
      end
    else (Raise TypeError, (inserted item self, os)).
Proof.
  intros item. unfold add_item, bind, get_env, get_history. cbn [fst snd].
  fold item.
  destruct (existsb _ (history self)); [reflexivity|].
  unfold set_history, get_max_items, populate_list, bind, get_history, ret, raise.
  cbn [fst snd history max_items].
  unfold inserted.
  destruct (Z.of_nat (length (item :: history self)) >? max_items self);
    cbn [fst snd history max_items];
    (match goal with
     | |- context [forallb ClipboardManager.renders ?h] =>
         destruct (forallb ClipboardManager.renders h)
     end; [|reflexivity]);
    match goal with
    | |- context [save_config ?st] => destruct (save_config st) as [[u|e] st']
    end; reflexivity.
Qed.

Lemma existsb_ids (i : string) (h : list ClipboardItem.t) :
  existsb (fun existing => String.eqb (ClipboardItem.id existing) i) h = true
  <-> In i (ids h).
Proof.
  unfold ids. rewrite existsb_exists, in_map_iff. split.
  - intros [x [Hx He]]. apply String.eqb_eq in He. eauto.
  - intros [x [He Hx]]. exists x. split; [exact Hx|]. now apply String.eqb_eq.
Qed.

Lemma existsb_ids_false (i : string) (h : list ClipboardItem.t) :
  ~ In i (ids h) ->
  existsb (fun existing => String.eqb (ClipboardItem.id existing) i) h = false.
Proof.
  intros Hn. apply not_true_is_false. intros H. now apply existsb_ids in H.
Qed.

(** The object after [add_item], whatever became of the write. *)
Lemma add_item_self content content_type self os :
  let item := ClipboardItem.__init__ content content_type (script_mtime os) in
  fst (snd (add_item content content_type (self, os))) =
    if existsb (fun existing =>
                  String.eqb (ClipboardItem.id existing) (ClipboardItem.id item))
         (history self)
    then self else inserted item self.
Proof.
  intros item. rewrite add_item_eq. fold item.
  destruct (existsb _ (history self)); [reflexivity|].
  destruct (forallb ClipboardManager.renders _); [|reflexivity].
  pose proof (save_config_self (inserted item self, os)) as H.
  destruct (save_config (inserted item self, os)) as [[u|e] st']; exact H.
Qed.

(** With a capacity that is not negative the slice is a prefix. *)
Lemma inserted_history item self :
  0 <= max_items self ->
  history (inserted item self) =
    take (Z.to_nat (max_items self)) (item :: history self).
Proof.
  intros Hn. unfold inserted. cbn [history].
  destruct (Z.of_nat (length (item :: history self)) >? max_items self) eqn:E.
  - unfold py_slice_to. destruct (0 <=? max_items self) eqn:E0; [reflexivity|lia].
  - symmetry. apply take_ge. lia.
Qed.

Lemma inserted_max_items item self : max_items (inserted item self) = max_items self.
Proof. reflexivity. Qed.

End ManagerFacts.

(* ------------------------------------------------------------------ *)
(** ** What each entry point does to the object *)

Module StoreFacts.
Import ClipboardManager ManagerFacts.

Lemma push_item_self via item st : fst (snd (push_item via item st)) = fst st.
Proof.
  unfold push_item, bind, emit, get_env, raise, ret.
  destruct (String.eqb (ClipboardItem.type item) "text").
  - destruct (ClipboardItem.content item); destruct via; cbn [fst snd];
      try reflexivity.
    destruct (platform_linux _); reflexivity.
  - destruct (String.eqb (ClipboardItem.type item) "image"); [|reflexivity].
    destruct (ClipboardItem.content item); reflexivity.
Qed.

Lemma paste_last_item_self st : fst (snd (paste_last_item st)) = fst st.
Proof.
  unfold paste_last_item, bind, get_history, ret. cbn [fst snd].
  destruct (history (fst st)) as [|last_item h]; [reflexivity|].
  pose proof (push_item_self false last_item st) as H.
  destruct (push_item false last_item st) as [[u|e] st']; exact H.
Qed.

Lemma restore_item_self index st : fst (snd (restore_item index st)) = fst st.
Proof.
  unfold restore_item, bind, get_history, lift, ret. cbn [fst snd].
  destruct (py_getitem (history (fst st)) index) as [item|e]; [|reflexivity].
  pose proof (push_item_self true item st) as H.
  destruct (push_item true item st) as [[u|e] st']; exact H.
Qed.

Lemma clear_history_self st :
  fst (snd (clear_history st)) =
    {| history := []; max_items := max_items (fst st) |}.
Proof.
  unfold clear_history, bind, set_history.
  match goal with
  | |- context [save_config ?s] => exact (save_config_self s)
  end.
Qed.


Lemma inserted_capacity_bound item self :
  capacity_bound self -> capacity_bound (inserted item self).
Proof.
  unfold capacity_bound. intros Hb.
  assert (Hn : 0 <= max_items self) by lia.
  rewrite inserted_history, inserted_max_items by exact Hn.
  rewrite length_take. lia.
Qed.




(** What the constructor leaves in the object. *)
Lemma init_no_document mx os :
  config_file os = FileMissing \/ config_file os = FileGarbage ->
  __init__ mx os = (Ok tt, ({| history := []; max_items := mx |}, os)).
Proof.
  unfold __init__, load_config, bind, get_env. cbn [fst snd].
  intros [H|H]; rewrite H; reflexivity.
Qed.

Lemma init_document mx os config :
  config_file os = FileJson config ->
  __init__ mx os =
    match mapM (ClipboardItem.from_dict (script_mtime os))
            (get (doc_history config) []) with
    | Ok h =>
        (Ok tt, ({| history := h; max_items := get (doc_max_items config) 10 |}, os))
    | Raise e => (Raise e, ({| history := []; max_items := mx |}, os))
    end.
Proof.
  unfold __init__, load_config, bind, get_env. cbn [fst snd].
  intros H. rewrite H. unfold lift.
  destruct (mapM _ _); reflexivity.
Qed.


End StoreFacts.

(* ------------------------------------------------------------------ *)
(** ** The codec on well-typed items *)

Module CodecFacts.
Import ClipboardManager ManagerFacts StoreFacts.

Lemma to_dict_record_of item :
  well_typed item = true ->
  rbind (ClipboardItem.to_dict item) json_record = Ok (record_of item).
Proof.
  unfold well_typed, ClipboardItem.to_dict, record_of, json_record.
  destruct item as [i c ty ts]. cbn [ClipboardItem.content ClipboardItem.type
    ClipboardItem.id ClipboardItem.timestamp].
  destruct c as [s|b]; intros H.
  - apply negb_true_iff in H. rewrite H. reflexivity.
  - rewrite H. reflexivity.
Qed.

Lemma mapM_to_dict h :
  forallb well_typed h = true ->
  exists dicts,
    mapM ClipboardItem.to_dict h = Ok dicts
    /\ mapM json_record dicts = Ok (map record_of h).
Proof.
  induction h as [|item h IH]; intros H.
  - exists []. split; reflexivity.
  - cbn [forallb] in H. apply andb_prop in H as [Hi Hh].
    destruct (IH Hh) as [dicts [E1 E2]].
    pose proof (to_dict_record_of item Hi) as E.
    destruct (ClipboardItem.to_dict item) as [d|e] eqn:Ed; [|discriminate].
    cbn [rbind] in E.
    exists (d :: dicts). cbn [mapM map]. rewrite Ed, E1. cbn [rbind].
    rewrite E, E2. split; reflexivity.
Qed.

Lemma from_dict_record_of mtime item :
  well_typed item = true ->
  ClipboardItem.from_dict mtime (record_of item) = Ok item.
Proof.
  unfold well_typed, ClipboardItem.from_dict, record_of.
  destruct item as [i c ty ts].
  cbn [ClipboardItem.content ClipboardItem.type ClipboardItem.id
       ClipboardItem.timestamp rec_content rec_type rec_id rec_timestamp
       getitem rbind get ClipboardItem.__init__].
  destruct c as [s|b]; intros H.
  - apply negb_true_iff in H. rewrite H. reflexivity.
  - rewrite H, Base64Facts.b64decode_b64encode. reflexivity.
Qed.

Lemma mapM_from_dict_record_of mtime h :
  forallb well_typed h = true ->
  mapM (ClipboardItem.from_dict mtime) (map record_of h) = Ok h.
Proof.
  induction h as [|item h IH]; intros H; [reflexivity|].
  cbn [forallb] in H. apply andb_prop in H as [Hi Hh].
  cbn [map mapM]. rewrite (from_dict_record_of mtime item Hi), (IH Hh).
  reflexivity.
Qed.

(** On a store of well-typed items the only way [save_config] fails is
    the file that cannot be opened for writing. *)
Lemma save_config_well_typed self os :
  forallb well_typed (history self) = true ->
  save_config (self, os) =
    if config_writable os
    then (Ok tt, (self, with_config_file os (FileJson (document_of self))))
    else (Raise OSError, (self, os)).
Proof.
  intros H. rewrite save_config_eq.
  destruct (mapM_to_dict _ H) as [dicts [E1 E2]]. rewrite E1, E2.
  reflexivity.
Qed.

Lemma well_typed_renders item : well_typed item = true -> renders item = true.
Proof.
  unfold well_typed, renders.
  destruct (String.eqb (ClipboardItem.type item) "text") eqn:Et.
  - apply String.eqb_eq in Et. rewrite Et.
    destruct (ClipboardItem.content item); [reflexivity|discriminate].
  - destruct (String.eqb (ClipboardItem.type item) "image");
      destruct (ClipboardItem.content item); cbn; intros H;
      try discriminate; reflexivity.
Qed.

Lemma well_typed_all_render h :
  forallb well_typed h = true -> forallb renders h = true.
Proof.
  induction h as [|x h IH]; intros H; [reflexivity|].
  cbn [forallb] in *. apply andb_prop in H as [Hx Hh].
  now rewrite (well_typed_renders x Hx), (IH Hh).
Qed.

Lemma well_typed_take n h :
  forallb well_typed h = true -> forallb well_typed (take n h) = true.
Proof.
  revert n. induction h as [|x h IH]; intros n H; destruct n; try reflexivity.
  cbn [forallb] in H. apply andb_prop in H as [Hx Hh].
  cbn [take forallb]. now rewrite Hx, IH.
Qed.

End CodecFacts.

(* ------------------------------------------------------------------ *)
(** ** Capacity *)

Module Capacity.
Import ClipboardManager ManagerFacts StoreFacts Fixtures.




End Capacity.

(* ------------------------------------------------------------------ *)
(** ** Insertion *)

Module Insertion.
Import ClipboardManager ManagerFacts StoreFacts CodecFacts Fixtures.

Lemma In_take {A} (x : A) n (l : list A) : In x (take n l) -> In x l.
Proof.
  revert n. induction l as [|y l IH]; intros [|n] H; cbn in *; try contradiction.
  destruct H as [H|H]; [now left | right; eauto].
Qed.

Lemma ids_take n h : ids (take n h) = take n (ids h).
Proof. unfold ids. symmetry. apply firstn_map. Qed.

Lemma save_config_mtime st :
  script_mtime (snd (snd (save_config st))) = script_mtime (snd st).
Proof.
  destruct st as [self os]. rewrite save_config_eq.
  destruct (mapM ClipboardItem.to_dict (history self)) as [dicts|e]; [|reflexivity].
  destruct (config_writable os); [|reflexivity].
  destruct (mapM json_record dicts); reflexivity.
Qed.

Lemma add_item_mtime content content_type st :
  script_mtime (snd (snd (add_item content content_type st))) = script_mtime (snd st).
Proof.
  destruct st as [self os]. rewrite add_item_eq.
  destruct (existsb _ (history self)); [reflexivity|].
  destruct (forallb ClipboardManager.renders _); [|reflexivity].
  match goal with
  | |- context [save_config ?s] =>
      pose proof (save_config_mtime s) as H; destruct (save_config s) as [[u|e] st']
  end; exact H.
Qed.

(** The object after inserting a payload whose identity is new. *)
Lemma add_item_absent content content_type st :
  ~ In (fingerprint content) (ids (history (fst st))) ->
  fst (snd (add_item content content_type st)) =
    inserted (ClipboardItem.__init__ content content_type (script_mtime (snd st)))
      (fst st).
Proof.
  destruct st as [self os]. cbn [fst snd]. intros Hn.
  rewrite add_item_self.
  change (ClipboardItem.id (ClipboardItem.__init__ content content_type (script_mtime os)))
    with (fingerprint content).
  now rewrite (existsb_ids_false _ _ Hn).
Qed.

Lemma add_item_present content content_type st :
  In (fingerprint content) (ids (history (fst st))) ->
  add_item content content_type st = (Ok Duplicate, st).
Proof.
  destruct st as [self os]. cbn [fst]. intros Hin.
  rewrite add_item_eq.
  change (ClipboardItem.id (ClipboardItem.__init__ content content_type (script_mtime os)))
    with (fingerprint content).
  apply existsb_ids in Hin. now rewrite Hin.
Qed.

(** After [add_item], with room for at least one entry, the payload's
    identity is in the history. *)
Lemma add_item_then_present content content_type st :
  1 <= max_items (fst st) ->
  In (fingerprint content) (ids (history (fst (snd (add_item content content_type st))))).
Proof.
  intros Hn.
  destruct (in_dec string_dec (fingerprint content) (ids (history (fst st))))
    as [Hin|Hout].
  - now rewrite (add_item_present _ _ _ Hin).
  - rewrite (add_item_absent _ _ _ Hout), inserted_history by lia.
    destruct (Z.to_nat (max_items (fst st))) as [|k] eqn:E; [lia|].
    cbn. now left.
Qed.

Lemma filter_id_absent (i : string) (h : list ClipboardItem.t) :
  ~ In i (ids h) -> filter (fun e => ClipboardItem.id e = i) h = [].
Proof.
  induction h as [|x h IH]; intros Hn; [reflexivity|].
  cbn in Hn. rewrite filter_cons_False by tauto. apply IH. tauto.
Qed.

Lemma filter_id_present (i : string) (h : list ClipboardItem.t) :
  List.NoDup (ids h) -> In i (ids h) ->
  length (filter (fun e => ClipboardItem.id e = i) h) = 1%nat.
Proof.
  induction h as [|x h IH]; intros Hnd Hin; [contradiction|].
  cbn in Hnd, Hin. inversion Hnd as [|? ? Hx Hh]; subst.
  destruct (string_dec (ClipboardItem.id x) i) as [E|E].
  - rewrite filter_cons_True by exact E.
    rewrite filter_id_absent; [reflexivity|]. now rewrite <- E.
  - rewrite filter_cons_False by exact E. apply IH; [exact Hh|]. tauto.
Qed.

Lemma filter_content_absent (c : pyobj) (h : list ClipboardItem.t) :
  Forall (fun e => ClipboardItem.id e = fingerprint (ClipboardItem.content e)) h ->
  ~ In (fingerprint c) (ids h) ->
  filter (fun e => ClipboardItem.content e = c) h = [].
Proof.
  induction h as [|x h IH]; intros Hinv Hn; [reflexivity|].
  inversion Hinv as [|? ? Hx Hh]; subst. cbn in Hn.
  rewrite filter_cons_False.
  - apply IH; [exact Hh | tauto].
  - intros E. apply Hn. left. now rewrite Hx, E.
Qed.

Lemma Forall_take {A} (P : A -> Prop) n (l : list A) :
  Forall P l -> Forall P (take n l).
Proof.
  intros H. revert n. induction H as [|x l Hx Hl IH]; intros [|n]; cbn;
    constructor; auto.
Qed.

(** C2, as stated, fails in its last part: the same payload offered twice
    in a row does not always leave one entry with that content. The
    identity does not tell a text from an image whose [str()] rendering
    it is. In the store that holds only the image of the four bytes abcd
    (identities pairwise distinct, each the digest of its content,
    capacity 10), the text [b'abcd'] is a duplicate both times: the store
    is unchanged, and no entry has that content. *)
Lemma add_item_twice_leaves_no_such_content :
  let st := snd (add_item (PyBytes [x61; x62; x63; x64]) "image"
                   (empty_store 10, os_fresh)) in
  let twice := snd (add_item (PyStr "b'abcd'") "text"
                      (snd (add_item (PyStr "b'abcd'") "text" st))) in
  List.NoDup (ids (history (fst st)))
  /\ add_item (PyStr "b'abcd'") "text" st = (Ok Duplicate, st)
  /\ twice = st
  /\ length (history (fst twice)) = 1%nat
  /\ filter (fun e => ClipboardItem.content e = PyStr "b'abcd'")
       (history (fst twice)) = [].
Proof.
  cbv zeta. split; [|split; [|split; [|split]]].
  - vm_compute. repeat constructor. intros H; inversion H.
  - vm_compute. reflexivity.
  - vm_compute. reflexivity.
  - vm_compute. reflexivity.
  - vm_compute. reflexivity.
Qed.

(** C2, amended. A payload whose identity is already in the history, at
    whatever position, makes [add_item] return at the duplicate test and
    leaves the object and the environment exactly as they were: no entry
    moves. Hence, with room for at least one entry, a second [add_item]
    of the same payload right after the first is a duplicate that changes
    nothing; the history, if its identities are pairwise distinct, then
    holds exactly one entry with that identity; and when the identity was
    new and the identities in the history are those of their contents,
    exactly one entry with that content: the one just inserted. *)
Theorem add_item_duplicate_noop :
  (forall (content : pyobj) (content_type : string) (st : state),
      In (fingerprint content) (ids (history (fst st))) ->
      add_item content content_type st = (Ok Duplicate, st))
  /\ (forall (content : pyobj) (content_type : string) (st : state),
         1 <= max_items (fst st) ->
         let st1 := snd (add_item content content_type st) in
         add_item content content_type st1 = (Ok Duplicate, st1))
  /\ (forall (content : pyobj) (content_type : string) (st : state),
         1 <= max_items (fst st) ->
         List.NoDup (ids (history (fst st))) ->
         let st2 :=
           snd (add_item content content_type
                  (snd (add_item content content_type st))) in
         length (filter (fun e => ClipboardItem.id e = fingerprint content)
                   (history (fst st2))) = 1%nat)
  /\ (forall (content : pyobj) (content_type : string) (st : state),
         1 <= max_items (fst st) ->
         ~ In (fingerprint content) (ids (history (fst st))) ->
         Forall (fun e => ClipboardItem.id e = fingerprint (ClipboardItem.content e))
           (history (fst st)) ->
         let st2 :=
           snd (add_item content content_type
                  (snd (add_item content content_type st))) in
         filter (fun e => ClipboardItem.content e = content) (history (fst st2))
         = [ClipboardItem.__init__ content content_type (script_mtime (snd st))]).
Proof.
  split; [|split; [|split]].
  - intros. now apply add_item_present.
  - intros content content_type st Hn st1. subst st1.
    apply add_item_present. now apply add_item_then_present.
  - intros content content_type st Hn Hnd st2. subst st2.
    rewrite (add_item_present content content_type
               (snd (add_item content content_type st)))
      by now apply add_item_then_present.
    cbn [snd].
    destruct (in_dec string_dec (fingerprint content) (ids (history (fst st))))
      as [Hin|Hout].
    + rewrite (add_item_present _ _ _ Hin). cbn [snd].
      now apply filter_id_present.
    + rewrite (add_item_absent _ _ _ Hout), inserted_history by lia.
      destruct (Z.to_nat (max_items (fst st))) as [|k] eqn:E; [lia|].
      cbn [take]. rewrite filter_cons_True by reflexivity.
      rewrite filter_id_absent; [reflexivity|].
      rewrite ids_take. intros H. apply Hout. now apply In_take in H.
  - intros content content_type st Hn Hout Hinv st2. subst st2.
    rewrite (add_item_present content content_type
               (snd (add_item content content_type st)))
      by now apply add_item_then_present.
    cbn [snd].
    rewrite (add_item_absent _ _ _ Hout), inserted_history by lia.
    destruct (Z.to_nat (max_items (fst st))) as [|k] eqn:E; [lia|].
    cbn [take]. rewrite filter_cons_True by reflexivity.
    rewrite filter_content_absent; [reflexivity| |].
    + now apply Forall_take.
    + rewrite ids_take. intros H. apply Hout. now apply In_take in H.
Qed.

Lemma add_item_duplicate_noop_witness :
  add_item (PyStr "hello") "text" (two_store, os_fresh)
    = (Ok Duplicate, (two_store, os_fresh))
  /\ (let st1 := snd (add_item (PyStr "again") "text" (two_store, os_fresh)) in
      add_item (PyStr "again") "text" st1 = (Ok Duplicate, st1))
  /\ length (filter (fun e => ClipboardItem.id e = fingerprint (PyStr "again"))
               (history (fst (snd (add_item (PyStr "again") "text"
                  (snd (add_item (PyStr "again") "text" (two_store, os_fresh))))))))
     = 1%nat
  /\ filter (fun e => ClipboardItem.content e = PyStr "again")
       (history (fst (snd (add_item (PyStr "again") "text"
          (snd (add_item (PyStr "again") "text" (two_store, os_fresh)))))))
     = [ClipboardItem.__init__ (PyStr "again") "text" 1700000000].
Proof.
  destruct add_item_duplicate_noop as [H1 [H2 [H3 H4]]].
  split; [|split; [|split]].
  - apply H1. vm_compute. tauto.
  - apply H2. cbn. lia.
  - apply H3; [cbn; lia|].
    vm_compute. repeat constructor; cbn; intros H; intuition discriminate.
  - apply (H4 (PyStr "again") "text" (two_store, os_fresh)); [cbn; lia| |].
    + vm_compute. intros H; intuition discriminate.
    + change (history (fst (two_store, os_fresh))) with [world; hello].
      repeat (constructor; [vm_compute; reflexivity|]). constructor.
Defined.

End Insertion.

(* ------------------------------------------------------------------ *)
(** ** Eviction *)

Module Eviction.
Import ClipboardManager ManagerFacts StoreFacts CodecFacts Insertion Fixtures.

Lemma take_app_take {A} n (l m : list A) :
  take n (l ++ take n m) = take n (l ++ m).
Proof.
  rewrite !take_app, take_take. f_equal. f_equal. lia.
Qed.

Lemma item_of_mtime os os' :
  script_mtime os' = script_mtime os -> forall ps, map (item_of os') ps = map (item_of os) ps.
Proof.
  intros E ps. apply map_ext. intros p. unfold item_of. now rewrite E.
Qed.

Lemma run_ops_add_items_cons p ps st :
  run_ops (add_items (p :: ps)) st =
  run_ops (add_items ps) (snd (add_item (fst p) (snd p) st)).
Proof. reflexivity. Qed.

(** Distinct new payloads, inserted one after the other. *)
Lemma add_items_history ps :
  forall st,
    capacity_bound (fst st) ->
    List.NoDup (map (fun p : payload => fingerprint (fst p)) ps) ->
    (forall p, In p ps -> ~ In (fingerprint (fst p)) (ids (history (fst st)))) ->
    history (fst (run_ops (add_items ps) st)) =
      take (Z.to_nat (max_items (fst st)))
        (rev (map (item_of (snd st)) ps) ++ history (fst st))
    /\ max_items (fst (run_ops (add_items ps) st)) = max_items (fst st).
Proof.
  induction ps as [|p ps IH]; intros st Hb Hnd Hnew.
  - cbn. split; [|reflexivity]. symmetry. apply take_ge.
    unfold capacity_bound in Hb. lia.
  - rewrite run_ops_add_items_cons.
    set (st1 := snd (add_item (fst p) (snd p) st)).
    assert (Hn : 0 <= max_items (fst st)) by (unfold capacity_bound in Hb; lia).
    assert (Hp : ~ In (fingerprint (fst p)) (ids (history (fst st))))
      by (apply Hnew; now left).
    assert (E1 : fst st1 = inserted (item_of (snd st) p) (fst st))
      by (apply add_item_absent; exact Hp).
    assert (Em : script_mtime (snd st1) = script_mtime (snd st))
      by apply add_item_mtime.
    inversion Hnd as [|? ? Hhead Htail]; subst.
    destruct (IH st1) as [Hh Hm].
    + rewrite E1. now apply inserted_capacity_bound.
    + exact Htail.
    + intros q Hq. rewrite E1, inserted_history, ids_take by exact Hn.
      intros H. apply In_take in H. destruct H as [H|H].
      * apply Hhead. change (fingerprint (fst p) = fingerprint (fst q)) in H.
        rewrite H.
        apply (in_map (fun p : payload => fingerprint (fst p))). exact Hq.
      * revert H. apply Hnew. now right.
    + rewrite Hh, Hm, (item_of_mtime _ _ Em), E1.
      rewrite inserted_max_items, inserted_history by exact Hn.
      split; [|reflexivity].
      rewrite take_app_take. cbn [map rev]. now rewrite <- app_assoc.
Qed.




End Eviction.

(* ------------------------------------------------------------------ *)
(** ** Persistence *)

Module Persistence.
Import ClipboardManager ManagerFacts StoreFacts CodecFacts Fixtures.

(** C4. Writing a store of well-typed items (text items holding a [str],
    image items holding [bytes], in any mix) and reading it back gives the
    same store. Per entry: [from_dict] of the record [json.dump] writes
    for [to_dict] is the entry itself, with its identity, kind, payload
    and timestamp. For images: decoding the base64 text gives back the
    bytes, whatever they are. For the store: [save_config] on a writable
    file succeeds and leaves the document of the store, and a constructor
    run on that file ends with the same history, in the same order, and
    the same [max_items]. *)
Theorem persistence_round_trip :
  (forall (item : ClipboardItem.t) (mtime : Z),
      well_typed item = true ->
      rbind (rbind (ClipboardItem.to_dict item) json_record)
        (ClipboardItem.from_dict mtime) = Ok item)
  /\ (forall data : list byte,
         Base64.b64decode (Base64.b64encode data) = Ok data)
  /\ (forall (self : t) (os : environment) (mx : Z),
         forallb well_typed (history self) = true ->
         config_writable os = true ->
         exists os',
           save_config (self, os) = (Ok tt, (self, os'))
           /\ config_file os' = FileJson (document_of self)
           /\ __init__ mx os' = (Ok tt, (self, os'))).
Proof.
  split; [|split].
  - intros item mtime Hwt. rewrite (to_dict_record_of item Hwt). cbn [rbind].
    now apply from_dict_record_of.
  - apply Base64Facts.b64decode_b64encode.
  - intros self os mx Hwt Hw.
    exists (with_config_file os (FileJson (document_of self))).
    rewrite (save_config_well_typed self os Hwt), Hw.
    split; [reflexivity|]. split; [reflexivity|].
    rewrite (init_document mx _ (document_of self)) by reflexivity.
    cbn [document_of doc_history doc_max_items get with_config_file script_mtime].
    rewrite (mapM_from_dict_record_of _ _ Hwt).
    destruct self; reflexivity.
Qed.

Lemma persistence_round_trip_witness :
  rbind (rbind (ClipboardItem.to_dict pixel) json_record)
    (ClipboardItem.from_dict 5) = Ok pixel
  /\ (exists os',
         save_config (mixed_store, os_fresh) = (Ok tt, (mixed_store, os'))
         /\ config_file os' = FileJson (document_of mixed_store)
         /\ __init__ 3 os' = (Ok tt, (mixed_store, os'))).
Proof.
  destruct persistence_round_trip as [H1 [_ H3]].
  split.
  - apply H1. vm_compute. reflexivity.
  - apply H3; vm_compute; reflexivity.
Defined.

End Persistence.

(* ------------------------------------------------------------------ *)
(** ** Setting the capacity *)

Module CapacitySetting.
Import ClipboardManager ManagerFacts StoreFacts CodecFacts Insertion Fixtures.




End CapacitySetting.

(* ------------------------------------------------------------------ *)
(** ** A document that cannot be written *)

Module WriteFailure.
Import ClipboardManager ManagerFacts StoreFacts CodecFacts Insertion Fixtures.

Lemma clear_history_eq self os :
  clear_history (self, os) =
    let cleared := {| history := []; max_items := max_items self |} in
    if config_writable os
    then (Ok tt, (cleared, with_config_file os (FileJson (document_of cleared))))
    else (Raise OSError, (cleared, os)).
Proof.
  unfold clear_history, bind, set_history. cbn [fst snd].
  rewrite save_config_well_typed by reflexivity.
  destruct (config_writable os); reflexivity.
Qed.

Lemma add_item_new_eq content content_type self os :
  let item := ClipboardItem.__init__ content content_type (script_mtime os) in
  ~ In (fingerprint content) (ids (history self)) ->
  0 <= max_items self ->
  forallb well_typed (history self) = true ->
  well_typed item = true ->
  add_item content content_type (self, os) =
    if config_writable os
    then (Ok (Inserted item),
          (inserted item self,
           with_config_file os (FileJson (document_of (inserted item self)))))
    else (Raise OSError, (inserted item self, os)).
Proof.
  intros item Hout Hn Hwt Hit. rewrite add_item_eq. fold item.
  change (ClipboardItem.id item) with (fingerprint content).
  rewrite (existsb_ids_false _ _ Hout).
  assert (Hall : forallb well_typed (history (inserted item self)) = true).
  { rewrite inserted_history by exact Hn. apply well_typed_take.
    cbn [forallb]. now rewrite Hit, Hwt. }
  rewrite (well_typed_all_render _ Hall), (save_config_well_typed _ _ Hall).
  destruct (config_writable os); reflexivity.
Qed.

(** C6, as stated, fails: a failed write is not absorbed. On the empty
    store with a configuration file that cannot be opened for writing,
    [add_item] raises [OSError], having already put the entry in the
    history, and [clear_history] raises as well. *)
Lemma add_item_unwritable_raises :
  add_item (PyStr "hello") "text" (empty_store 10, os_readonly) =
    (Raise OSError, ({| history := [hello]; max_items := 10 |}, os_readonly))
  /\ clear_history (two_store, os_readonly) =
       (Raise OSError, (empty_store 2, os_readonly)).
Proof.
  split; vm_compute; reflexivity.
Qed.

(** C6, amended. When the configuration file cannot be opened for
    writing, [add_item] of a new payload and [clear_history] raise
    [OSError] to their caller, after the change in memory has been made:
    the history is what it is when the write succeeds (the new entry in
    front, cut to the capacity; respectively empty) and the file is left
    as it was. Every mutation writes the whole store, so the first one
    whose write succeeds leaves the document of the store as it then is
    in memory. *)
Theorem write_failure_raises_after_mutation :
  (forall (content : pyobj) (content_type : string) (st : state),
      let item := ClipboardItem.__init__ content content_type (script_mtime (snd st)) in
      ~ In (fingerprint content) (ids (history (fst st))) ->
      0 <= max_items (fst st) ->
      forallb well_typed (history (fst st)) = true ->
      well_typed item = true ->
      (config_writable (snd st) = false ->
       add_item content content_type st =
         (Raise OSError, (inserted item (fst st), snd st)))
      /\ (config_writable (snd st) = true ->
          add_item content content_type st =
            (Ok (Inserted item),
             (inserted item (fst st),
              with_config_file (snd st)
                (FileJson (document_of (inserted item (fst st))))))))
  /\ (forall st : state,
         let cleared := {| history := []; max_items := max_items (fst st) |} in
         (config_writable (snd st) = false ->
          clear_history st = (Raise OSError, (cleared, snd st)))
         /\ (config_writable (snd st) = true ->
             clear_history st =
               (Ok tt,
                (cleared, with_config_file (snd st) (FileJson (document_of cleared)))))).
Proof.
  split.
  - intros content content_type [self os] item Hout Hn Hwt Hit.
    cbn [fst snd] in *.
    rewrite (add_item_new_eq content content_type self os Hout Hn Hwt Hit).
    fold item. split; intros Hw; rewrite Hw; reflexivity.
  - intros [self os] cleared. cbn [fst snd] in *. rewrite clear_history_eq.
    fold cleared. split; intros Hw; rewrite Hw; reflexivity.
Qed.

Lemma write_failure_raises_after_mutation_witness :
  add_item (PyStr "again") "text" (two_store, os_readonly) =
    (Raise OSError,
     (inserted (ClipboardItem.__init__ (PyStr "again") "text" 1700000000) two_store,
      os_readonly))
  /\ add_item (PyStr "again") "text" (two_store, os_fresh) =
       (Ok (Inserted (ClipboardItem.__init__ (PyStr "again") "text" 1700000000)),
        (inserted (ClipboardItem.__init__ (PyStr "again") "text" 1700000000) two_store,
         with_config_file os_fresh
           (FileJson
              (document_of
                 (inserted (ClipboardItem.__init__ (PyStr "again") "text" 1700000000)
                    two_store)))))
  /\ clear_history (two_store, os_readonly) =
       (Raise OSError, ({| history := []; max_items := 2 |}, os_readonly))
  /\ clear_history (two_store, os_fresh) =
       (Ok tt,
        ({| history := []; max_items := 2 |},
         with_config_file os_fresh
           (FileJson (document_of {| history := []; max_items := 2 |})))).
Proof.
  destruct write_failure_raises_after_mutation as [H1 H2].
  assert (Hout : ~ In (fingerprint (PyStr "again")) (ids (history two_store)))
    by (vm_compute; intros H; intuition discriminate).
  assert (Hn : 0 <= max_items two_store) by (cbn; lia).
  assert (Hwt : forallb well_typed (history two_store) = true)
    by (vm_compute; reflexivity).
  assert (Hit : well_typed (ClipboardItem.__init__ (PyStr "again") "text" 1700000000) = true)
    by (vm_compute; reflexivity).
  split; [|split; [|split]].
  - apply (H1 (PyStr "again") "text" (two_store, os_readonly) Hout Hn Hwt Hit).
    reflexivity.
  - apply (H1 (PyStr "again") "text" (two_store, os_fresh) Hout Hn Hwt Hit).
    reflexivity.
  - apply (H2 (two_store, os_readonly)). reflexivity.
  - apply (H2 (two_store, os_fresh)). reflexivity.
Defined.

End WriteFailure.

(* ------------------------------------------------------------------ *)
(** ** Lookups *)

Module Lookup.
Import ClipboardManager ManagerFacts StoreFacts CodecFacts WriteFailure Fixtures.










(** C8. [clear_history] leaves an empty history, whatever the state and
    whether or not the document could be written, and keeps the capacity;
    [paste_last_item] right after finds nothing; and clearing a second
    time gives the same outcome and the same state as clearing once. *)
Theorem clear_history_empties :
  forall st : state,
    let st' := snd (clear_history st) in
    history (fst st') = []
    /\ max_items (fst st') = max_items (fst st)
    /\ paste_last_item st' = (Ok None, st')
    /\ clear_history st' = clear_history st.
Proof.
  intros [self os] st'. subst st'. rewrite clear_history_eq. cbv zeta.
  destruct (config_writable os) eqn:Hw; cbn [fst snd history max_items].
  - split; [reflexivity|]. split; [reflexivity|]. split; [reflexivity|].
    rewrite clear_history_eq. cbv zeta. cbn [with_config_file config_writable max_items].
    rewrite Hw. reflexivity.
  - split; [reflexivity|]. split; [reflexivity|]. split; [reflexivity|].
    rewrite clear_history_eq. cbv zeta. cbn [max_items]. rewrite Hw. reflexivity.
Qed.

End Lookup.

(* ------------------------------------------------------------------ *)
(** ** Identity *)

Module Identity.
Import ClipboardManager ManagerFacts StoreFacts Insertion Fixtures.

(** C9. [from_dict] gives the entry the identity stored in the record:
    whenever it returns an entry, the entry's [id] is the record's [id]
    field, and it returns one for every record that has [content], [type]
    and [id], the content of an image being decodable. The identity is
    neither recomputed nor compared with the digest of the content: the
    record with [id] 000..0 and content hello decodes to an entry with
    that [id], which is not the digest of hello. *)
Theorem from_dict_trusts_stored_id :
  (forall (mtime : Z) (data : entry_record) (item : ClipboardItem.t),
      ClipboardItem.from_dict mtime data = Ok item ->
      rec_id data = Some (ClipboardItem.id item))
  /\ (forall (mtime : Z) (i c ty : string) (ts : option Z),
         String.eqb ty "image" = false ->
         ClipboardItem.from_dict mtime
           {| rec_id := Some i; rec_content := Some c; rec_type := Some ty;
              rec_timestamp := ts |}
         = Ok {| ClipboardItem.id := i;
                 ClipboardItem.content := PyStr c;
                 ClipboardItem.type := ty;
                 ClipboardItem.timestamp := get ts mtime |})
  /\ (forall (mtime : Z) (i c : string) (ts : option Z) (b : list byte),
         Base64.b64decode c = Ok b ->
         ClipboardItem.from_dict mtime
           {| rec_id := Some i; rec_content := Some c; rec_type := Some "image";
              rec_timestamp := ts |}
         = Ok {| ClipboardItem.id := i;
                 ClipboardItem.content := PyBytes b;
                 ClipboardItem.type := "image";
                 ClipboardItem.timestamp := get ts mtime |})
  /\ (ClipboardItem.from_dict 0 rec_forged
        = Ok {| ClipboardItem.id := "00000000000000000000000000000000";
                ClipboardItem.content := PyStr "hello";
                ClipboardItem.type := "text";
                ClipboardItem.timestamp := 1700000000 |}
      /\ fingerprint (PyStr "hello") <> "00000000000000000000000000000000").
Proof.
  split; [|split; [|split]].
  - intros mtime [i c ty ts] item. unfold ClipboardItem.from_dict.
    cbn [rec_id rec_content rec_type rec_timestamp].
    destruct c as [c|]; [|discriminate]. cbn [getitem rbind].
    destruct ty as [ty|]; [|discriminate]. cbn [getitem rbind].
    destruct i as [i|]; [|discriminate]. cbn [getitem rbind].
    cbn [ClipboardItem.id ClipboardItem.type ClipboardItem.content
         ClipboardItem.timestamp ClipboardItem.__init__].
    destruct (String.eqb ty "image").
    + destruct (Base64.b64decode c) as [b|e]; cbn [rbind]; [|discriminate].
      intros H. inversion H. reflexivity.
    + intros H. inversion H. reflexivity.
  - intros mtime i c ty ts Hty. unfold ClipboardItem.from_dict.
    cbn [rec_id rec_content rec_type rec_timestamp getitem rbind
         ClipboardItem.id ClipboardItem.type ClipboardItem.content
         ClipboardItem.timestamp ClipboardItem.__init__].
    rewrite Hty. reflexivity.
  - intros mtime i c ts b Hb. unfold ClipboardItem.from_dict.
    cbn [rec_id rec_content rec_type rec_timestamp getitem rbind
         ClipboardItem.id ClipboardItem.type ClipboardItem.content
         ClipboardItem.timestamp ClipboardItem.__init__].
    change (String.eqb "image" "image") with true. cbv iota.
    rewrite Hb. reflexivity.
  - split; [vm_compute; reflexivity|]. vm_compute. discriminate.
Qed.

Lemma from_dict_trusts_stored_id_witness :
  rec_id rec_forged =
    Some (ClipboardItem.id
            {| ClipboardItem.id := "00000000000000000000000000000000";
               ClipboardItem.content := PyStr "hello";
               ClipboardItem.type := "text";
               ClipboardItem.timestamp := 1700000000 |})
  /\ ClipboardItem.from_dict 7
       {| rec_id := Some "abc"; rec_content := Some "hello";
          rec_type := Some "text"; rec_timestamp := None |}
     = Ok {| ClipboardItem.id := "abc";
             ClipboardItem.content := PyStr "hello";
             ClipboardItem.type := "text";
             ClipboardItem.timestamp := get None 7 |}
  /\ ClipboardItem.from_dict 7
       {| rec_id := Some "abc"; rec_content := Some "YQ==";
          rec_type := Some "image"; rec_timestamp := Some 3 |}
     = Ok {| ClipboardItem.id := "abc";
             ClipboardItem.content := PyBytes [x61];
             ClipboardItem.type := "image";
             ClipboardItem.timestamp := get (Some 3) 7 |}.
Proof.
  destruct from_dict_trusts_stored_id as [H1 [H2 [H3 _]]].
  split; [|split].
  - apply (H1 0 rec_forged). vm_compute. reflexivity.
  - apply H2. reflexivity.
  - apply H3. vm_compute. reflexivity.
Defined.

(** C10. The identity is the digest of [str(content)] and nothing else:
    the kind does not enter it. For every byte string, the image holding
    these bytes and the text holding their [str()] rendering get the same
    identity although their kinds and their contents differ; so, with room
    for at least one entry, inserting either of the two right after the
    other returns at the duplicate test and adds nothing. The image of the
    single byte 0x61 and the text [b'a'] are such a pair, of identity
    4398cf918c4f260e8c4d6a8e5a925b9d. *)
Theorem fingerprint_ignores_kind :
  (forall (b : list byte) (mtime : Z),
      ClipboardItem.id (ClipboardItem.__init__ (PyBytes b) "image" mtime)
      = ClipboardItem.id (ClipboardItem.__init__ (PyStr (bytes_repr b)) "text" mtime)
      /\ PyBytes b <> PyStr (bytes_repr b))
  /\ (forall (b : list byte) (st : state),
         1 <= max_items (fst st) ->
         let st1 := snd (add_item (PyBytes b) "image" st) in
         add_item (PyStr (bytes_repr b)) "text" st1 = (Ok Duplicate, st1))
  /\ (forall (b : list byte) (st : state),
         1 <= max_items (fst st) ->
         let st1 := snd (add_item (PyStr (bytes_repr b)) "text" st) in
         add_item (PyBytes b) "image" st1 = (Ok Duplicate, st1))
  /\ (bytes_repr [x61] = "b'a'"
      /\ fingerprint (PyBytes [x61]) = "4398cf918c4f260e8c4d6a8e5a925b9d"
      /\ fingerprint (PyStr "b'a'") = "4398cf918c4f260e8c4d6a8e5a925b9d"
      /\ add_item (PyStr "b'a'") "text"
           (snd (add_item (PyBytes [x61]) "image" (empty_store 10, os_fresh)))
         = (Ok Duplicate,
            snd (add_item (PyBytes [x61]) "image" (empty_store 10, os_fresh)))
      /\ ids (history (fst (snd (add_item (PyBytes [x61]) "image"
                                   (empty_store 10, os_fresh)))))
         = ["4398cf918c4f260e8c4d6a8e5a925b9d"]).
Proof.
  split; [|split; [|split]].
  - intros b mtime. split; [reflexivity|discriminate].
  - intros b st Hn st1. subst st1. apply add_item_present.
    change (fingerprint (PyStr (bytes_repr b))) with (fingerprint (PyBytes b)).
    now apply add_item_then_present.
  - intros b st Hn st1. subst st1. apply add_item_present.
    change (fingerprint (PyBytes b)) with (fingerprint (PyStr (bytes_repr b))).
    now apply add_item_then_present.
  - repeat split; vm_compute; reflexivity.
Qed.

Lemma fingerprint_ignores_kind_witness :
  (let st1 := snd (add_item (PyBytes [x61; x27]) "image" (two_store, os_fresh)) in
   add_item (PyStr (bytes_repr [x61; x27])) "text" st1 = (Ok Duplicate, st1))
  /\ (let st1 := snd (add_item (PyStr (bytes_repr [x61; x27])) "text"
                        (two_store, os_readonly)) in
      add_item (PyBytes [x61; x27]) "image" st1 = (Ok Duplicate, st1)).
Proof.
  destruct fingerprint_ignores_kind as [_ [H2 [H3 _]]].
  split.
  - apply (H2 [x61; x27] (two_store, os_fresh)). cbn. lia.
  - apply (H3 [x61; x27] (two_store, os_readonly)). cbn. lia.
Defined.

End Identity.

(* ------------------------------------------------------------------ *)
(** ** Reference values

    The library models agree with CPython on the published test vectors
    and on the scenarios of the specification. *)

Module Vectors.
Import ClipboardManager Fixtures.

Example md5_empty : MD5.hexdigest [] = "d41d8cd98f00b204e9800998ecf8427e".
Proof. vm_compute. reflexivity. Qed.

Example md5_abc : MD5.hexdigest (encode "abc") = "900150983cd24fb0d6963f7d28e17f72".
Proof. vm_compute. reflexivity. Qed.

Example md5_two_blocks :
  MD5.hexdigest
    (encode "12345678901234567890123456789012345678901234567890123456789012345678901234567890")
  = "57edf4a22be3c955ac49da2e2107b67a".
Proof. vm_compute. reflexivity. Qed.

Example b64encode_sentence :
  Base64.b64encode (encode "Many hands make light work.")
  = "TWFueSBoYW5kcyBtYWtlIGxpZ2h0IHdvcmsu".
Proof. vm_compute. reflexivity. Qed.

Example b64decode_lenient :
  Base64.b64decode "TWE=x" = Ok [x4d; x61]
  /\ Base64.b64decode "T Q = = T W E" = Ok [x4d]
  /\ Base64.b64decode "TQ" = Raise (BinasciiError "Incorrect padding").
Proof. repeat split; vm_compute; reflexivity. Qed.

Example bytes_repr_escapes :
  bytes_repr [x61; x27; x5c; x0a; x00; xff; x7e; x09; x0d]
  = "b" ++ String (chr 34) "a'\\\n\x00\xff~\t\r" ++ String (chr 34) "".
Proof. vm_compute. reflexivity. Qed.

(** Inserting hello then world with room for both: index 0 is world,
    index 1 is hello. *)
Example restore_after_two_inserts :
  let st := run_ops [AddItem (PyStr "hello") "text"; AddItem (PyStr "world") "text"]
              (empty_store 2, os_fresh) in
  fst (restore_item 0 st) = Ok world /\ fst (restore_item 1 st) = Ok hello.
Proof. split; vm_compute; reflexivity. Qed.

(** A poll that finds neither text nor image changes nothing. *)
Example check_clipboard_empty :
  check_clipboard {| text := None; imageData := None |} (two_store, os_fresh)
  = (Ok None, (two_store, os_fresh)).
Proof. reflexivity. Qed.

End Vectors.

(* ================================================================== *)
(** * Further properties of the store *)

(* ------------------------------------------------------------------ *)
(** ** What an entry point can do to the object, by cases *)

Module RunFacts.
Import ClipboardManager ManagerFacts StoreFacts CodecFacts Insertion.

Lemma inserted_history_take item self :
  exists k, history (inserted item self) = take k (item :: history self).
Proof.
  unfold inserted. cbn [history].
  destruct (Z.of_nat (length (item :: history self)) >? max_items self).
  - unfold py_slice_to. destruct (0 <=? max_items self); eauto.
  - exists (length (item :: history self)). symmetry. apply firstn_all.
Qed.

Lemma check_clipboard_state mime st :
  snd (check_clipboard mime st) =
    match text mime, imageData mime with
    | Some s, _ => snd (add_item (PyStr s) "text" st)
    | None, Some b => snd (add_item (PyBytes b) "image" st)
    | None, None => st
    end.
Proof.
  unfold check_clipboard, bind, ret.
  destruct (text mime) as [s|].
  - destruct (add_item (PyStr s) "text" st) as [[r|e] st']; reflexivity.
  - destruct (imageData mime) as [b|]; [|reflexivity].
    destruct (add_item (PyBytes b) "image" st) as [[r|e] st']; reflexivity.
Qed.

(** A tick of the timer is an [add_item] of a well-typed payload, or
    nothing. *)
Lemma run_op_check_clipboard mime st :
  run_op (CheckClipboard mime) st = st
  \/ exists c ty,
      payload_well_typed c ty = true
      /\ run_op (CheckClipboard mime) st = run_op (AddItem c ty) st.
Proof.
  cbn [run_op]. rewrite check_clipboard_state.
  destruct (text mime) as [s|].
  - right. exists (PyStr s), "text". split; reflexivity.
  - destruct (imageData mime) as [b|].
    + right. exists (PyBytes b), "image". split; reflexivity.
    + now left.
Qed.

Lemma run_op_self_cases o st :
  fst (run_op o st) = fst st
  \/ (exists c ty,
         (op_well_typed o = true -> payload_well_typed c ty = true)
         /\ ~ In (fingerprint c) (ids (history (fst st)))
         /\ fst (run_op o st) =
              inserted (ClipboardItem.__init__ c ty (script_mtime (snd st))) (fst st))
  \/ fst (run_op o st) = cleared (fst st).
Proof.
  assert (Hadd : forall c ty,
             fst (run_op (AddItem c ty) st) = fst st
             \/ (~ In (fingerprint c) (ids (history (fst st)))
                 /\ fst (run_op (AddItem c ty) st) =
                      inserted (ClipboardItem.__init__ c ty (script_mtime (snd st)))
                        (fst st))).
  { intros c ty. cbn [run_op].
    destruct (in_dec string_dec (fingerprint c) (ids (history (fst st)))) as [Hin|Hout].
    - left. now rewrite (add_item_present _ _ _ Hin).
    - right. split; [exact Hout|]. now apply add_item_absent. }
  destruct o as [c ty|mime| |index| |w].
  - destruct (Hadd c ty) as [H|[H1 H2]]; [now left|].
    right; left. exists c, ty. split; [|split]; auto.
  - destruct (run_op_check_clipboard mime st) as [E|[c [ty [Hwt E]]]].
    + left. now rewrite E.
    + rewrite E. destruct (Hadd c ty) as [H|[H1 H2]]; [now left|].
      right; left. exists c, ty. split; [|split]; auto.
  - left. apply paste_last_item_self.
  - left. apply restore_item_self.
  - right; right. apply clear_history_self.
  - now left.
Qed.

Lemma well_typed_init c ty mtime :
  well_typed (ClipboardItem.__init__ c ty mtime) = payload_well_typed c ty.
Proof. reflexivity. Qed.

Lemma well_typed_inserted item self :
  well_typed item = true ->
  forallb well_typed (history self) = true ->
  forallb well_typed (history (inserted item self)) = true.
Proof.
  intros Hi Hh. destruct (inserted_history_take item self) as [k ->].
  apply well_typed_take. cbn [forallb]. now rewrite Hi, Hh.
Qed.

Lemma NoDup_take {A} n (l : list A) : List.NoDup l -> List.NoDup (take n l).
Proof.
  intros H. revert n. induction H as [|x l Hx Hl IH]; intros [|n]; cbn;
    try constructor; auto.
  intros Hin. apply Hx. now apply In_take in Hin.
Qed.

Lemma run_op_well_typed o st :
  op_well_typed o = true ->
  forallb well_typed (history (fst st)) = true ->
  forallb well_typed (history (fst (run_op o st))) = true.
Proof.
  intros Ho Hh.
  destruct (run_op_self_cases o st) as [E|[[c [ty [Hwt [_ E]]]]|E]]; rewrite E.
  - exact Hh.
  - apply well_typed_inserted; [|exact Hh]. rewrite well_typed_init. auto.
  - reflexivity.
Qed.

Lemma run_op_NoDup o st :
  List.NoDup (ids (history (fst st))) ->
  List.NoDup (ids (history (fst (run_op o st)))).
Proof.
  intros Hh.
  destruct (run_op_self_cases o st) as [E|[[c [ty [_ [Hout E]]]]|E]]; rewrite E.
  - exact Hh.
  - destruct (inserted_history_take
                (ClipboardItem.__init__ c ty (script_mtime (snd st))) (fst st))
      as [k ->].
    rewrite ids_take. apply NoDup_take. cbn [ids map]. constructor; assumption.
  - constructor.
Qed.

Lemma run_op_id_consistent o st :
  id_consistent (history (fst st)) ->
  id_consistent (history (fst (run_op o st))).
Proof.
  unfold id_consistent. intros Hh.
  destruct (run_op_self_cases o st) as [E|[[c [ty [_ [_ E]]]]|E]]; rewrite E.
  - exact Hh.
  - destruct (inserted_history_take
                (ClipboardItem.__init__ c ty (script_mtime (snd st))) (fst st))
      as [k ->].
    apply Forall_take. constructor; [reflexivity|exact Hh].
  - constructor.
Qed.

Lemma run_ops_invariant (P : state -> Prop) (ok : op -> bool) :
  (forall o st, ok o = true -> P st -> P (run_op o st)) ->
  forall ops st, forallb ok ops = true -> P st -> P (run_ops ops st).
Proof.
  intros Hstep. unfold run_ops.
  induction ops as [|o ops IH]; intros st Hok HP; cbn [fold_left]; [exact HP|].
  cbn [forallb] in Hok. apply andb_prop in Hok as [Ho Hops].
  apply IH; [exact Hops|]. now apply Hstep.
Qed.

Lemma forallb_true {A} (l : list A) : forallb (fun _ => true) l = true.
Proof. induction l; auto. Qed.

Lemma mapM_Forall {A B} (f : A -> result B) (P : B -> Prop) :
  (forall x y, f x = Ok y -> P y) ->
  forall l l', mapM f l = Ok l' -> Forall P l'.
Proof.
  intros Hf. induction l as [|x l IH]; intros l' H; cbn in H.
  - inversion H. constructor.
  - destruct (f x) as [y|e] eqn:E; cbn in H; [|discriminate].
    destruct (mapM f l) as [ys|e]; cbn in H; [|discriminate].
    inversion H; subst. constructor; eauto.
Qed.

Lemma from_dict_well_typed mtime data item :
  ClipboardItem.from_dict mtime data = Ok item -> well_typed item = true.
Proof.
  destruct data as [i c ty ts]. unfold ClipboardItem.from_dict.
  cbn [rec_id rec_content rec_type rec_timestamp].
  destruct c as [c|]; [|discriminate]. cbn [getitem rbind].
  destruct ty as [ty|]; [|discriminate]. cbn [getitem rbind].
  destruct i as [i|]; [|discriminate]. cbn [getitem rbind].
  cbn [ClipboardItem.id ClipboardItem.type ClipboardItem.content
       ClipboardItem.timestamp ClipboardItem.__init__].
  destruct (String.eqb ty "image") eqn:E.
  - destruct (Base64.b64decode c) as [b|e]; cbn [rbind]; [|discriminate].
    intros H. inversion H. unfold well_typed. cbn. exact E.
  - intros H. inversion H. unfold well_typed. cbn. now rewrite E.
Qed.

End RunFacts.

(* ------------------------------------------------------------------ *)
(** ** Invariants of the history *)

Module StoreInvariants.
Import ClipboardManager ManagerFacts StoreFacts CodecFacts Insertion RunFacts.
Import Fixtures Scenarios.

Lemma Forall_forallb {A} (f : A -> bool) (l : list A) :
  Forall (fun x => f x = true) l -> forallb f l = true.
Proof.
  induction 1 as [|x l Hx Hl IH]; [reflexivity|]. cbn. now rewrite Hx, IH.
Qed.

Lemma init_history_well_typed mx os :
  forallb well_typed (history (fst (snd (__init__ mx os)))) = true.
Proof.
  destruct (config_file os) as [| |config] eqn:Hf.
  - rewrite init_no_document by auto. reflexivity.
  - rewrite init_no_document by auto. reflexivity.
  - rewrite (init_document mx os config Hf).
    destruct (mapM _ _) as [h|e] eqn:E; [|reflexivity].
    cbn [fst snd history]. apply Forall_forallb.
    apply (mapM_Forall _ _ (from_dict_well_typed (script_mtime os)) _ _ E).
Qed.

(** X1. Loading keeps the items well-typed. For a configuration file
    that is missing, is not JSON, or holds a document of the persisted
    format (records whose [content], [type] and [id], where present, are
    strings), the history the constructor ends with only has well-typed
    items, whether the load succeeds or raises: [from_dict] gives an
    image item the decoded [bytes] and every other item the [str] of the
    record. Documents with a [content] that is not a string are outside
    this statement. *)
Theorem load_yields_well_typed_items :
  forall (mx : Z) (os : environment),
    forallb well_typed (history (fst (snd (__init__ mx os)))) = true.
Proof. exact init_history_well_typed. Qed.

Lemma add_item_well_typed_eq content content_type self os :
  let item := ClipboardItem.__init__ content content_type (script_mtime os) in
  ~ In (fingerprint content) (ids (history self)) ->
  forallb well_typed (history self) = true ->
  payload_well_typed content content_type = true ->
  add_item content content_type (self, os) =
    if config_writable os
    then (Ok (Inserted item),
          (inserted item self,
           with_config_file os (FileJson (document_of (inserted item self)))))
    else (Raise OSError, (inserted item self, os)).
Proof.
  intros item Hout Hwt Hit. rewrite add_item_eq. fold item.
  change (ClipboardItem.id item) with (fingerprint content).
  rewrite (existsb_ids_false _ _ Hout).
  assert (Hall : forallb well_typed (history (inserted item self)) = true)
    by (apply well_typed_inserted; assumption).
  rewrite (well_typed_all_render _ Hall), (save_config_well_typed _ _ Hall).
  destruct (config_writable os); reflexivity.
Qed.

Lemma check_clipboard_result mime st :
  forallb well_typed (history (fst st)) = true ->
  (exists r, fst (check_clipboard mime st) = Ok r)
  \/ (config_writable (snd st) = false
      /\ fst (check_clipboard mime st) = Raise OSError).
Proof.
  intros Hwt.
  assert (Hadd : forall c ty,
             payload_well_typed c ty = true ->
             (exists r, fst (add_item c ty st) = Ok r)
             \/ (config_writable (snd st) = false
                 /\ fst (add_item c ty st) = Raise OSError)).
  { intros c ty Hp. destruct st as [self os]. cbn [fst snd] in *.
    destruct (in_dec string_dec (fingerprint c) (ids (history self))) as [Hin|Hout].
    - left. rewrite (add_item_present c ty (self, os) Hin). eauto.
    - rewrite (add_item_well_typed_eq c ty self os Hout Hwt Hp).
      destruct (config_writable os); [left; eauto | right; auto]. }
  unfold check_clipboard, bind, ret.
  destruct (text mime) as [s|].
  - destruct (Hadd (PyStr s) "text" eq_refl) as [[r Hr]|[Hw Hr]];
      destruct (add_item (PyStr s) "text" st) as [[r'|e] st'];
      cbn [fst] in *; try discriminate;
      first [left; now eauto | right; inversion Hr; now auto].
  - destruct (imageData mime) as [b|]; [|left; eauto].
    destruct (Hadd (PyBytes b) "image" eq_refl) as [[r Hr]|[Hw Hr]];
      destruct (add_item (PyBytes b) "image" st) as [[r'|e] st'];
      cbn [fst] in *; try discriminate;
      first [left; now eauto | right; inversion Hr; now auto].
Qed.

(** X2. Well-typedness is an invariant of every run whose [add_item]
    calls get well-typed payloads, in particular of every run of timer
    ticks, lookups and clears; and in a well-typed store a tick never
    fails on a type: it returns normally, or raises [OSError] and then
    only because the configuration file cannot be written. *)
Theorem polling_keeps_items_well_typed :
  (forall (st : state) (ops : list op),
      forallb op_well_typed ops = true ->
      forallb well_typed (history (fst st)) = true ->
      forallb well_typed (history (fst (run_ops ops st))) = true)
  /\ (forall (st : state) (mime : mime_data),
         forallb well_typed (history (fst st)) = true ->
         (exists r, fst (check_clipboard mime st) = Ok r)
         \/ (config_writable (snd st) = false
             /\ fst (check_clipboard mime st) = Raise OSError)).
Proof.
  split.
  - intros st ops Hops Hwt.
    apply (run_ops_invariant
             (fun st => forallb well_typed (history (fst st)) = true)
             op_well_typed); auto.
    intros o st' Ho H. now apply run_op_well_typed.
  - intros. now apply check_clipboard_result.
Qed.

Lemma polling_keeps_items_well_typed_witness :
  forallb well_typed (history (fst (run_ops session (two_store, os_fresh)))) = true
  /\ ((exists r, fst (check_clipboard (snap_image [x00]) (two_store, os_readonly)) = Ok r)
      \/ (config_writable (snd (two_store, os_readonly)) = false
          /\ fst (check_clipboard (snap_image [x00]) (two_store, os_readonly))
             = Raise OSError)).
Proof.
  destruct polling_keeps_items_well_typed as [H1 H2].
  split.
  - apply H1; vm_compute; reflexivity.
  - apply H2. vm_compute. reflexivity.
Defined.

(** X3. No entry point ever gives two entries the same [id]: if the
    identities in the history are pairwise distinct, they still are after
    any sequence of operations, with any payloads, whatever the capacity
    and whether or not the writes succeed. *)
Theorem ids_stay_distinct :
  forall (st : state) (ops : list op),
    List.NoDup (ids (history (fst st))) ->
    List.NoDup (ids (history (fst (run_ops ops st)))).
Proof.
  intros st ops H.
  apply (run_ops_invariant
           (fun st => List.NoDup (ids (history (fst st)))) (fun _ => true)).
  - intros o st' _ H'. now apply run_op_NoDup.
  - apply forallb_true.
  - exact H.
Qed.

Lemma ids_stay_distinct_witness :
  List.NoDup (ids (history (fst (run_ops session (two_store, os_readonly))))).
Proof.
  apply ids_stay_distinct.
  vm_compute. repeat constructor; cbn; intros H; intuition discriminate.
Defined.

Lemma NoDup_map_inv {A B C} (f : A -> B) (g : A -> C) (h : B -> C) (l : list A) :
  (forall x, In x l -> g x = h (f x)) ->
  List.NoDup (map g l) -> List.NoDup (map f l).
Proof.
  induction l as [|x l IH]; intros Hg Hnd; cbn in *; [constructor|].
  inversion Hnd as [|? ? Hx Hl]; subst. constructor.
  - intros Hin. apply Hx. apply in_map_iff in Hin as [y [Hy Hin]].
    apply in_map_iff. exists y. split; [|exact Hin].
    rewrite (Hg y), (Hg x), Hy by auto. reflexivity.
  - apply IH; auto.
Qed.

(** X4. An entry made by [add_item] has the digest of its own content as
    [id], and nothing changes an [id] afterwards: if every [id] in the
    history is the digest of its entry's content, this still holds after
    any sequence of operations. Together with distinct identities it
    follows that no two entries of the history hold the same content. *)
Theorem ids_stay_digests :
  forall (st : state) (ops : list op),
    id_consistent (history (fst st)) ->
    id_consistent (history (fst (run_ops ops st)))
    /\ (List.NoDup (ids (history (fst st))) ->
        List.NoDup (map ClipboardItem.content (history (fst (run_ops ops st))))).
Proof.
  intros st ops H.
  assert (Hc : id_consistent (history (fst (run_ops ops st)))).
  { apply (run_ops_invariant
             (fun st => id_consistent (history (fst st))) (fun _ => true)).
    - intros o st' _ H'. now apply run_op_id_consistent.
    - apply forallb_true.
    - exact H. }
  split; [exact Hc|]. intros Hnd.
  assert (Hn : List.NoDup (ids (history (fst (run_ops ops st))))).
  { apply (run_ops_invariant
             (fun st => List.NoDup (ids (history (fst st)))) (fun _ => true)).
    - intros o st' _ H'. now apply run_op_NoDup.
    - apply forallb_true.
    - exact Hnd. }
  apply (NoDup_map_inv ClipboardItem.content ClipboardItem.id fingerprint).
  - intros x Hx. unfold id_consistent in Hc. rewrite Forall_forall in Hc.
    apply Hc. now apply list_elem_of_In.
  - exact Hn.
Qed.

Lemma ids_stay_digests_witness :
  id_consistent (history (fst (run_ops session (two_store, os_fresh))))
  /\ (List.NoDup (ids (history (fst (two_store, os_fresh)))) ->
      List.NoDup (map ClipboardItem.content
                    (history (fst (run_ops session (two_store, os_fresh)))))).
Proof.
  apply ids_stay_digests.
  change (history (fst (two_store, os_fresh))) with [world; hello].
  unfold id_consistent.
  repeat (constructor; [vm_compute; reflexivity|]). constructor.
Defined.

End StoreInvariants.

(* ------------------------------------------------------------------ *)
(** ** The document on disk *)

Module DiskFacts.
Import ClipboardManager ManagerFacts StoreFacts CodecFacts Insertion RunFacts.
Import WriteFailure StoreInvariants.

Lemma push_item_disk via item st :
  config_file (snd (snd (push_item via item st))) = config_file (snd st)
  /\ config_writable (snd (snd (push_item via item st))) = config_writable (snd st).
Proof.
  unfold push_item, bind, emit, get_env, raise, ret.
  destruct (String.eqb (ClipboardItem.type item) "text").
  - destruct (ClipboardItem.content item); destruct via; cbn [fst snd];
      try (split; reflexivity).
    destruct (platform_linux _); split; reflexivity.
  - destruct (String.eqb (ClipboardItem.type item) "image"); [|split; reflexivity].
    destruct (ClipboardItem.content item); split; reflexivity.
Qed.

Lemma paste_last_item_disk st :
  config_file (snd (snd (paste_last_item st))) = config_file (snd st)
  /\ config_writable (snd (snd (paste_last_item st))) = config_writable (snd st).
Proof.
  unfold paste_last_item, bind, get_history, ret. cbn [fst snd].
  destruct (history (fst st)) as [|last_item h]; [split; reflexivity|].
  pose proof (push_item_disk false last_item st) as H.
  destruct (push_item false last_item st) as [[u|e] st']; exact H.
Qed.

Lemma restore_item_disk index st :
  config_file (snd (snd (restore_item index st))) = config_file (snd st)
  /\ config_writable (snd (snd (restore_item index st))) = config_writable (snd st).
Proof.
  unfold restore_item, bind, get_history, lift, ret. cbn [fst snd].
  destruct (py_getitem (history (fst st)) index) as [item|e]; [|split; reflexivity].
  pose proof (push_item_disk true item st) as H.
  destruct (push_item true item st) as [[u|e] st']; exact H.
Qed.

Lemma add_item_mirrored c ty st :
  payload_well_typed c ty = true ->
  mirrored st -> mirrored (snd (add_item c ty st)).
Proof.
  intros Hp [Hwt [Hw Hs]]. destruct st as [self os]. cbn [fst snd] in *.
  destruct (in_dec string_dec (fingerprint c) (ids (history self))) as [Hin|Hout].
  - rewrite (add_item_present c ty (self, os) Hin). repeat split; assumption.
  - rewrite (add_item_well_typed_eq c ty self os Hout Hwt Hp), Hw.
    cbn [snd]. split; [|split].
    + cbn [fst]. apply well_typed_inserted; [|exact Hwt]. exact Hp.
    + exact Hw.
    + reflexivity.
Qed.

Lemma run_op_mirrored o st :
  op_well_typed o = true -> op_keeps_writable o = true ->
  mirrored st -> mirrored (run_op o st).
Proof.
  intros Ho Hk Hm. destruct o as [c ty|mime| |index| |w].
  - now apply add_item_mirrored.
  - destruct (run_op_check_clipboard mime st) as [E|[c [ty [Hp E]]]]; rewrite E.
    + exact Hm.
    + now apply add_item_mirrored.
  - destruct Hm as [Hwt [Hw Hs]]. cbn [run_op]. unfold mirrored, synced in *.
    destruct (paste_last_item_disk st) as [Hf Hw'].
    rewrite paste_last_item_self, Hf, Hw'. auto.
  - destruct Hm as [Hwt [Hw Hs]]. cbn [run_op]. unfold mirrored, synced in *.
    destruct (restore_item_disk index st) as [Hf Hw'].
    rewrite restore_item_self, Hf, Hw'. auto.
  - destruct Hm as [Hwt [Hw Hs]]. destruct st as [self os]. cbn [run_op fst snd] in *.
    rewrite clear_history_eq. cbv zeta. rewrite Hw. cbn [snd].
    repeat split. exact Hw.
  - cbn in Hk. subst w. destruct Hm as [Hwt [Hw Hs]].
    repeat split; assumption.
Qed.

Lemma run_ops_mirrored ops st :
  forallb op_well_typed ops = true -> forallb op_keeps_writable ops = true ->
  mirrored st -> mirrored (run_ops ops st).
Proof.
  revert st. unfold run_ops.
  induction ops as [|o ops IH]; intros st H1 H2 Hm; cbn [fold_left]; [exact Hm|].
  cbn [forallb] in H1, H2.
  apply andb_prop in H1 as [Ho H1]. apply andb_prop in H2 as [Hk H2].
  apply IH; auto. now apply run_op_mirrored.
Qed.

(** A constructor run on the document of a well-typed store. *)
Lemma init_synced mx self os :
  forallb well_typed (history self) = true ->
  synced (self, os) ->
  __init__ mx os = (Ok tt, (self, os)).
Proof.
  unfold synced. cbn [fst snd]. intros Hwt Hs.
  rewrite (init_document mx os (document_of self) Hs).
  cbn [document_of doc_history doc_max_items get].
  rewrite (mapM_from_dict_record_of _ _ Hwt). destruct self; reflexivity.
Qed.

End DiskFacts.

(* ------------------------------------------------------------------ *)
(** ** Persistence across a session *)

Module Session.
Import ClipboardManager ManagerFacts StoreFacts CodecFacts Insertion Eviction.
Import RunFacts WriteFailure StoreInvariants DiskFacts Fixtures Scenarios.

(** X5. The file mirrors the store. In a well-typed store, an [add_item]
    that inserts and returns normally, and a [clear_history] that returns
    normally, leave in the configuration file exactly the document of the
    store now in memory. And once the file holds the document of the
    store, it does so after every further operation, mutation or lookup,
    as long as the file stays writable and payloads are well-typed. *)
Theorem file_mirrors_store :
  (forall (c : pyobj) (ty : string) (st st' : state) (item : ClipboardItem.t),
      forallb well_typed (history (fst st)) = true ->
      payload_well_typed c ty = true ->
      add_item c ty st = (Ok (Inserted item), st') ->
      synced st')
  /\ (forall st st' : state, clear_history st = (Ok tt, st') -> synced st')
  /\ (forall (st : state) (ops : list op),
         forallb op_well_typed ops = true ->
         forallb op_keeps_writable ops = true ->
         forallb well_typed (history (fst st)) = true ->
         config_writable (snd st) = true ->
         synced st ->
         synced (run_ops ops st)).
Proof.
  split; [|split].
  - intros c ty [self os] st' item Hwt Hp Ha. cbn [fst] in Hwt.
    destruct (in_dec string_dec (fingerprint c) (ids (history self))) as [Hin|Hout].
    + rewrite (add_item_present c ty (self, os) Hin) in Ha. discriminate.
    + rewrite (add_item_well_typed_eq c ty self os Hout Hwt Hp) in Ha.
      destruct (config_writable os); [|discriminate].
      inversion Ha; subst. reflexivity.
  - intros [self os] st' Hc. rewrite clear_history_eq in Hc. cbv zeta in Hc.
    destruct (config_writable os); [|discriminate].
    inversion Hc; subst. reflexivity.
  - intros st ops H1 H2 Hwt Hw Hs.
    apply (run_ops_mirrored ops st H1 H2). repeat split; assumption.
Qed.

Lemma file_mirrors_store_witness :
  synced (snd (add_item (PyStr "again") "text" (two_store, os_fresh)))
  /\ synced (snd (clear_history (two_store, os_fresh)))
  /\ synced (run_ops session synced_two).
Proof.
  destruct file_mirrors_store as [H1 [H2 H3]].
  split; [|split].
  - apply (H1 (PyStr "again") "text" (two_store, os_fresh) _
             (ClipboardItem.__init__ (PyStr "again") "text" 1700000000));
      vm_compute; reflexivity.
  - apply (H2 (two_store, os_fresh)). vm_compute. reflexivity.
  - apply H3; vm_compute; reflexivity.
Defined.

(** X6. A restart brings the store back. Starting from a store whose
    document is on disk, run any sequence of polls, well-typed
    insertions, lookups and clears with the file writable; a constructor
    run on the environment the session leaves, with whatever [max_items]
    argument, succeeds and ends with exactly the history and the capacity
    the session ended with. *)
Theorem restart_restores_store :
  forall (st : state) (ops : list op) (mx : Z),
    forallb op_well_typed ops = true ->
    forallb op_keeps_writable ops = true ->
    forallb well_typed (history (fst st)) = true ->
    config_writable (snd st) = true ->
    synced st ->
    __init__ mx (snd (run_ops ops st)) = (Ok tt, run_ops ops st).
Proof.
  intros st ops mx H1 H2 Hwt Hw Hs.
  destruct (run_ops_mirrored ops st H1 H2) as [Hwt' [_ Hs']];
    [repeat split; assumption|].
  destruct (run_ops ops st) as [self os] eqn:E. cbn [fst snd] in *.
  now apply init_synced.
Qed.

Lemma restart_restores_store_witness :
  __init__ 3 (snd (run_ops session synced_two)) = (Ok tt, run_ops session synced_two).
Proof.
  apply restart_restores_store; vm_compute; reflexivity.
Defined.

Lemma ids_item_of os ps :
  ids (map (item_of os) ps) = map (fun p : payload => fingerprint (fst p)) ps.
Proof. unfold ids. rewrite map_map. reflexivity. Qed.

Lemma ids_app h1 h2 : ids (h1 ++ h2) = (ids h1 ++ ids h2)%list.
Proof. unfold ids. apply map_app. Qed.

Lemma ids_rev h : ids (rev h) = rev (ids h).
Proof. unfold ids. apply map_rev. Qed.

(** X7. Only the capacity forgets. Insert a new payload [p] and then
    further payloads of pairwise distinct, new identities into a store
    within its capacity [n]. As long as fewer than [n] payloads have
    followed, [p] is still known: offering it again is a duplicate and
    changes nothing. Once [n] or more have followed, [p] has been evicted:
    its identity is gone from the history, and offering it again inserts
    it anew, in front. *)
Theorem capacity_alone_forgets :
  forall (p : payload) (ps : list payload) (st : state),
    capacity_bound (fst st) ->
    List.NoDup (map (fun q : payload => fingerprint (fst q)) (p :: ps)) ->
    (forall q, In q (p :: ps) -> ~ In (fingerprint (fst q)) (ids (history (fst st)))) ->
    let st' := run_ops (add_items (p :: ps)) st in
    (Z.of_nat (length ps) < max_items (fst st) ->
     add_item (fst p) (snd p) st' = (Ok Duplicate, st'))
    /\ (max_items (fst st) <= Z.of_nat (length ps) ->
        ~ In (fingerprint (fst p)) (ids (history (fst st')))
        /\ history (fst (snd (add_item (fst p) (snd p) st'))) =
             take (Z.to_nat (max_items (fst st)))
               (item_of (snd st') p :: history (fst st'))).
Proof.
  intros p ps st Hb Hnd Hnew st'.
  destruct (add_items_history (p :: ps) st Hb Hnd Hnew) as [Hh Hm].
  fold st' in Hh, Hm.
  assert (Hn : 0 <= max_items (fst st)) by (unfold capacity_bound in Hb; lia).
  cbn [map rev] in Hh. rewrite <- app_assoc in Hh. cbn [app] in Hh.
  inversion Hnd as [|? ? Hp Hps]; subst.
  split.
  - intros Hlt. apply add_item_present. rewrite Hh, take_app_ge.
    + rewrite ids_app. apply in_or_app. right.
      rewrite length_rev, length_map.
      destruct (Z.to_nat (max_items (fst st)) - length ps)%nat as [|k] eqn:E; [lia|].
      cbn. now left.
    + rewrite length_rev, length_map. lia.
  - intros Hge.
    assert (Hout : ~ In (fingerprint (fst p)) (ids (history (fst st')))).
    { rewrite Hh, take_app_le by (rewrite length_rev, length_map; lia).
      rewrite ids_take. intros H. apply In_take in H.
      rewrite ids_rev, ids_item_of in H. apply in_rev in H. contradiction. }
    split; [exact Hout|].
    rewrite (add_item_absent _ _ _ Hout), inserted_history, Hm by lia.
    reflexivity.
Qed.

Lemma capacity_alone_forgets_witness :
  let p := (PyStr "p", "text") in
  (let st' := run_ops (add_items [p; (PyStr "q", "text")]) (empty_store 2, os_fresh) in
   add_item (fst p) (snd p) st' = (Ok Duplicate, st'))
  /\ (let st' := run_ops (add_items [p; (PyStr "q", "text"); (PyBytes [x07], "image")])
                   (empty_store 2, os_fresh) in
      ~ In (fingerprint (fst p)) (ids (history (fst st')))
      /\ history (fst (snd (add_item (fst p) (snd p) st'))) =
           take (Z.to_nat 2) (item_of (snd st') p :: history (fst st'))).
Proof.
  intros p. split.
  - apply (capacity_alone_forgets p [(PyStr "q", "text")] (empty_store 2, os_fresh)).
    + unfold capacity_bound. cbn. lia.
    + vm_compute. repeat constructor; cbn; intros H; intuition discriminate.
    + intros q _ [].
    + cbn. lia.
  - apply (capacity_alone_forgets p [(PyStr "q", "text"); (PyBytes [x07], "image")]
             (empty_store 2, os_fresh)).
    + unfold capacity_bound. cbn. lia.
    + vm_compute. repeat constructor; cbn; intros H; intuition discriminate.
    + intros q _ [].
    + cbn. lia.
Defined.

(** X8. Polling an unchanged clipboard is harmless. With room for at
    least one entry, a second tick on the same snapshot right after the
    first changes neither the store nor the environment: it returns at
    the duplicate test when the snapshot holds text or an image, and has
    nothing to do when it holds neither. When a snapshot holds both, the
    text is taken and the image is never looked at. *)
Theorem second_poll_is_noop :
  forall (st : state) (mime : mime_data),
    1 <= max_items (fst st) ->
    let st1 := snd (check_clipboard mime st) in
    check_clipboard mime st1 =
      (Ok (match text mime, imageData mime with
           | None, None => None
           | _, _ => Some Duplicate
           end), st1)
    /\ (forall s, text mime = Some s ->
        check_clipboard mime st
        = check_clipboard {| text := Some s; imageData := None |} st).
Proof.
  intros st mime Hn st1. subst st1. split.
  - rewrite check_clipboard_state. unfold check_clipboard, bind, ret.
    destruct (text mime) as [s|].
    + rewrite (add_item_present (PyStr s) "text")
        by now apply add_item_then_present.
      reflexivity.
    + destruct (imageData mime) as [b|]; [|reflexivity].
      rewrite (add_item_present (PyBytes b) "image")
        by now apply add_item_then_present.
      reflexivity.
  - intros s Hs. unfold check_clipboard. cbn [text]. now rewrite Hs.
Qed.

Lemma second_poll_is_noop_witness :
  let mime := {| text := Some "both"; imageData := Some [x01] |} in
  let st1 := snd (check_clipboard mime (two_store, os_readonly)) in
  check_clipboard mime st1 = (Ok (Some Duplicate), st1)
  /\ (forall s, text mime = Some s ->
      check_clipboard mime (two_store, os_readonly)
      = check_clipboard {| text := Some s; imageData := None |} (two_store, os_readonly)).
Proof.
  intros mime st1.
  apply (second_poll_is_noop (two_store, os_readonly) mime). cbn. lia.
Defined.

Lemma mapM_first_error {A B} (f : A -> result B) (good : list A) bad rest e :
  (forall x, In x good -> exists y, f x = Ok y) ->
  f bad = Raise e ->
  mapM f (good ++ bad :: rest) = Raise e.
Proof.
  induction good as [|x good IH]; intros Hg Hb; cbn [app mapM].
  - now rewrite Hb.
  - destruct (Hg x) as [y Hy]; [now left|]. rewrite Hy. cbn [rbind].
    rewrite IH; auto. intros z Hz. apply Hg. now right.
Qed.

(** X9. Loading fails closed. If some record of the document cannot be
    decoded (a missing [content], [type] or [id], or an image whose
    content is not base64) while the records before it can, the
    constructor raises that record's exception. Nothing of the document
    is taken over: the history is empty and the capacity is still the
    constructor's argument, not the document's [max_items]; the file is
    left as it is. *)
Theorem load_fails_closed :
  forall (mx : Z) (os : environment) (config : document)
         (good : list entry_record) (bad : entry_record) (rest : list entry_record)
         (e : exn),
    config_file os = FileJson config ->
    get (doc_history config) [] = (good ++ bad :: rest)%list ->
    (forall r, In r good ->
       exists item, ClipboardItem.from_dict (script_mtime os) r = Ok item) ->
    ClipboardItem.from_dict (script_mtime os) bad = Raise e ->
    __init__ mx os = (Raise e, ({| history := []; max_items := mx |}, os)).
Proof.
  intros mx os config good bad rest e Hf Hh Hgood Hbad.
  rewrite (init_document mx os config Hf), Hh.
  now rewrite (mapM_first_error _ good bad rest e Hgood Hbad).
Qed.

Lemma load_fails_closed_witness :
  __init__ 10 (os_with doc_one_bad)
  = (Raise (KeyError "content"),
     ({| history := []; max_items := 10 |}, os_with doc_one_bad))
  /\ __init__ 10 (os_with {| doc_history := Some [rec_bad_image; rec_hello];
                             doc_max_items := None |})
     = (Raise (BinasciiError
                 "Invalid base64-encoded string: number of data characters (1) cannot be 1 more than a multiple of 4"),
        ({| history := []; max_items := 10 |},
         os_with {| doc_history := Some [rec_bad_image; rec_hello];
                    doc_max_items := None |})).
Proof.
  split.
  - apply (load_fails_closed 10 (os_with doc_one_bad) doc_one_bad
             [rec_world] rec_no_content [rec_hello]); try reflexivity.
    intros r [<-|[]]. eexists. vm_compute. reflexivity.
  - apply (load_fails_closed 10 _ {| doc_history := Some [rec_bad_image; rec_hello];
                                     doc_max_items := None |}
             [] rec_bad_image [rec_hello]); try reflexivity.
    intros r [].
Defined.

End Session.

(* ------------------------------------------------------------------ *)
(** ** The texts the program produces *)

Module Texts.
Import ClipboardManager Base64 Base64Check Base64Facts Fixtures Scenarios.

Lemma hex_length bs : String.length (MD5.hex bs) = (2 * length bs)%nat.
Proof. induction bs as [|b bs IH]; cbn [MD5.hex String.length length]; lia. Qed.

Lemma le_bytes_length n x : length (MD5.le_bytes n x) = n.
Proof. unfold MD5.le_bytes, range. now rewrite !length_map, length_seq. Qed.

Lemma le_bytes_range n x : Forall (fun b => 0 <= b < 256) (MD5.le_bytes n x).
Proof.
  unfold MD5.le_bytes. apply Forall_forall. intros b Hb.
  apply list_elem_of_In, in_map_iff in Hb as [i [<- _]].
  change 0xff with (Z.ones 8). rewrite Z.land_ones by lia.
  apply Z.mod_pos_bound. lia.
Qed.

Lemma digest_shape msg :
  length (MD5.digest msg) = 16%nat
  /\ Forall (fun b => 0 <= b < 256) (MD5.digest msg).
Proof.
  unfold MD5.digest.
  destruct (fold_left MD5.process_block _ _) as [[[A B] C] D].
  split.
  - rewrite !length_app, !le_bytes_length. reflexivity.
  - repeat (apply Forall_app; split); apply le_bytes_range.
Qed.

Lemma hex_pair_ok_all b : 0 <= b < 256 -> hex_pair_ok b = true.
Proof. apply (range_forallb hex_pair_ok 256). now vm_compute. Qed.

Lemma hex_chars bs :
  Forall (fun b => 0 <= b < 256) bs ->
  string_forallb is_lower_hex (MD5.hex bs) = true.
Proof.
  induction 1 as [|b bs Hb Hbs IH]; [reflexivity|].
  pose proof (hex_pair_ok_all b Hb) as H. unfold hex_pair_ok in H.
  apply andb_prop in H as [H1 H2].
  cbn [MD5.hex string_forallb]. now rewrite H1, H2, IH.
Qed.

(** X10. Whatever the payload, the identity [ClipboardItem] computes is a
    string of exactly 32 characters, each a digit or a letter from a to
    f. *)
Theorem item_id_is_32_hex_digits :
  forall (content : pyobj) (content_type : string) (mtime : Z),
    let i := ClipboardItem.id (ClipboardItem.__init__ content content_type mtime) in
    String.length i = 32%nat /\ string_forallb is_lower_hex i = true.
Proof.
  intros content content_type mtime i. subst i.
  change (ClipboardItem.id (ClipboardItem.__init__ content content_type mtime))
    with (MD5.hex (MD5.digest (encode (py_str content)))).
  destruct (digest_shape (encode (py_str content))) as [Hl Hr].
  split.
  - rewrite hex_length, Hl. reflexivity.
  - now apply hex_chars.
Qed.

Lemma sextet_base64_char i : 0 <= i < 64 -> is_base64_char (b2a i) = true.
Proof.
  intros Hi. unfold is_base64_char. now rewrite (sextet_lookup i Hi).
Qed.

Lemma b64encode_shape data :
  String.length (b64encode data) = (4 * ((length data + 2) / 3))%nat
  /\ string_forallb is_base64_char (b64encode data) = true.
Proof.
  induction data as [|x|x y|x y z data [IHl IHc]] using list_ind3.
  - split; reflexivity.
  - pose proof (first_ok_all _ _ (byte_to_Z_range x) (byte_to_Z_range x)) as F.
    unfold first_ok in F. cbv zeta in F. split_ok F.
    apply in64_spec in F, F1.
    split; [reflexivity|].
    cbn [b64encode string_forallb]. rewrite !sextet_base64_char by assumption.
    reflexivity.
  - pose proof (first_ok_all _ _ (byte_to_Z_range x) (byte_to_Z_range y)) as F.
    pose proof (second_ok_all _ _ (byte_to_Z_range y) (byte_to_Z_range y)) as G.
    unfold first_ok in F. unfold second_ok in G. cbv zeta in F, G.
    split_ok F. split_ok G. apply in64_spec in F, F4, G1.
    split; [reflexivity|].
    cbn [b64encode string_forallb]. rewrite !sextet_base64_char by assumption.
    reflexivity.
  - pose proof (first_ok_all _ _ (byte_to_Z_range x) (byte_to_Z_range y)) as F.
    pose proof (second_ok_all _ _ (byte_to_Z_range y) (byte_to_Z_range z)) as G.
    pose proof (third_ok_all _ (byte_to_Z_range z)) as T.
    unfold first_ok in F. unfold second_ok in G. unfold third_ok in T.
    cbv zeta in F, G, T. split_ok F. split_ok G. split_ok T.
    apply in64_spec in F, F4, G, T.
    split.
    + cbn [b64encode String.length length]. rewrite IHl.
      replace (S (S (S (length data))) + 2)%nat with (1 * 3 + (length data + 2))%nat by lia.
      rewrite Nat.div_add_l by lia. lia.
    + cbn [b64encode string_forallb]. rewrite !sextet_base64_char by assumption.
      exact IHc.
Qed.

(** X11. What [to_dict] writes for an image of [n] bytes is a text of
    exactly 4 * ceil(n / 3) characters, all of them from the base64
    alphabet or the pad, hence plain ASCII that [json.dump] writes as it
    is and [b64decode] accepts. *)
Theorem image_content_is_base64_text :
  forall (item : ClipboardItem.t) (b : list byte),
    ClipboardItem.type item = "image" ->
    ClipboardItem.content item = PyBytes b ->
    exists s,
      rbind (ClipboardItem.to_dict item) json_record
        = Ok {| rec_id := Some (ClipboardItem.id item);
                rec_content := Some s;
                rec_type := Some "image";
                rec_timestamp := Some (ClipboardItem.timestamp item) |}
      /\ String.length s = (4 * ((length b + 2) / 3))%nat
      /\ string_forallb is_base64_char s = true
      /\ isascii s = true.
Proof.
  intros [i c ty ts] b Hty Hc. cbn in Hty, Hc. subst ty c.
  exists (b64encode b). split; [reflexivity|].
  destruct (b64encode_shape b) as [Hl Hch].
  split; [exact Hl|]. split; [exact Hch|]. apply isascii_b64encode.
Qed.

Lemma image_content_is_base64_text_witness :
  exists s,
    rbind (ClipboardItem.to_dict pixel) json_record
      = Ok {| rec_id := Some (ClipboardItem.id pixel);
              rec_content := Some s;
              rec_type := Some "image";
              rec_timestamp := Some (ClipboardItem.timestamp pixel) |}
    /\ String.length s = (4 * ((length [x89; x50; x00; xff] + 2) / 3))%nat
    /\ string_forallb is_base64_char s = true
    /\ isascii s = true.
Proof.
  apply (image_content_is_base64_text pixel [x89; x50; x00; xff]); reflexivity.
Defined.

Lemma a2b_loop_strip s :
  forall q lc p acc,
    a2b_loop s q lc p acc = a2b_loop (strip_foreign s) q lc p acc.
Proof.
  induction s as [|c s IH]; intros q lc p acc; [reflexivity|].
  cbn [strip_foreign]. unfold is_base64_char.
  destruct (table_a2b_base64 c) as [v|] eqn:Et.
  - cbn [a2b_loop]. rewrite Et.
    destruct (Ascii.eqb c BASE64_PAD).
    + destruct ((2 <=? q) && (4 <=? q + (p + 1))); [reflexivity|apply IH].
    + destruct (q =? 0); [apply IH|].
      destruct (q =? 1); [apply IH|].
      destruct (q =? 2); apply IH.
  - destruct (Ascii.eqb c BASE64_PAD) eqn:Ep.
    + cbn [a2b_loop]. rewrite Ep.
      destruct ((2 <=? q) && (4 <=? q + (p + 1))); [reflexivity|apply IH].
    + cbn [a2b_loop]. rewrite Ep, Et. apply IH.
Qed.

Lemma chr_ord c : chr (ord c) = c.
Proof.
  unfold chr, ord. rewrite N2Z.id. apply ascii_N_embedding.
Qed.

Lemma ord_range c : 0 <= ord c < 256.
Proof.
  unfold ord. pose proof (N_ascii_bounded c). lia.
Qed.

Lemma is_base64_char_ascii c : is_base64_char c = true -> (ord c <? 128) = true.
Proof.
  intros H.
  pose proof (range_forallb base64_char_ascii 256 eq_refl (ord c) (ord_range c)) as Hc.
  unfold base64_char_ascii in Hc. rewrite chr_ord, H in Hc. exact Hc.
Qed.

Lemma isascii_strip s : isascii (strip_foreign s) = true.
Proof.
  induction s as [|c s IH]; [reflexivity|].
  cbn [strip_foreign]. destruct (is_base64_char c) eqn:E; [|exact IH].
  cbn [isascii]. now rewrite (is_base64_char_ascii c E), IH.
Qed.

Lemma from_dict_image mtime i c ts :
  ClipboardItem.from_dict mtime (image_record i c ts) =
    rbind (b64decode c) (fun b =>
      Ok {| ClipboardItem.id := i;
            ClipboardItem.content := PyBytes b;
            ClipboardItem.type := "image";
            ClipboardItem.timestamp := get ts mtime |}).
Proof. reflexivity. Qed.

(** X12. Decoding an image record is lenient. Characters of the stored
    text that are neither in the base64 alphabet nor the pad (spaces,
    line breaks, punctuation) are skipped: an ASCII text decodes to
    exactly what it decodes to with these characters removed. So a
    document whose base64 text was re-wrapped or indented still loads to
    the same bytes; only a text with a character outside ASCII is refused
    outright, with [ValueError]. *)
Theorem image_decoding_skips_foreign_characters :
  forall (mtime : Z) (i c : string) (ts : option Z),
    (isascii c = true ->
     ClipboardItem.from_dict mtime (image_record i c ts)
     = ClipboardItem.from_dict mtime (image_record i (strip_foreign c) ts))
    /\ (isascii c = true ->
        forall b : list byte,
          strip_foreign c = b64encode b ->
          ClipboardItem.from_dict mtime (image_record i c ts)
          = Ok {| ClipboardItem.id := i;
                  ClipboardItem.content := PyBytes b;
                  ClipboardItem.type := "image";
                  ClipboardItem.timestamp := get ts mtime |})
    /\ (isascii c = false ->
        ClipboardItem.from_dict mtime (image_record i c ts) = Raise ValueError).
Proof.
  intros mtime i c ts.
  assert (E : isascii c = true -> b64decode c = b64decode (strip_foreign c)).
  { intros Ha. unfold b64decode. rewrite Ha, isascii_strip. apply a2b_loop_strip. }
  split; [|split].
  - intros Ha. rewrite !from_dict_image, (E Ha). reflexivity.
  - intros Ha b Hb. rewrite from_dict_image, (E Ha), Hb, b64decode_b64encode.
    reflexivity.
  - intros Ha. rewrite from_dict_image. unfold b64decode. rewrite Ha. reflexivity.
Qed.

Lemma image_decoding_skips_foreign_characters_witness :
  ClipboardItem.from_dict 5 (image_record "abc" "iV AA, /w ==" None)
  = ClipboardItem.from_dict 5 (image_record "abc" (strip_foreign "iV AA, /w ==") None)
  /\ ClipboardItem.from_dict 5 (image_record "abc" "iV AA, /w ==" None)
     = Ok {| ClipboardItem.id := "abc";
             ClipboardItem.content := PyBytes [x89; x50; x00; xff];
             ClipboardItem.type := "image";
             ClipboardItem.timestamp := get None 5 |}
  /\ ClipboardItem.from_dict 5 (image_record "abc" (String (chr 233) "QQ==") None)
     = Raise ValueError.
Proof.
  destruct (image_decoding_skips_foreign_characters 5 "abc" "iV AA, /w ==" None)
    as [H1 [H2 _]].
  destruct (image_decoding_skips_foreign_characters 5 "abc"
              (String (chr 233) "QQ==") None) as [_ [_ H3]].
  split; [|split].
  - apply H1. reflexivity.
  - apply H2; reflexivity.
  - apply H3. reflexivity.
Defined.

End Texts.

(* ------------------------------------------------------------------ *)
(** ** The list view *)

Module ListViewFacts.
Import ClipboardManager ManagerFacts StoreFacts CodecFacts Lookup ListView.
Import Fixtures Scenarios.

Lemma py_len_app s1 s2 : py_len (s1 ++ s2) = (py_len s1 + py_len s2)%nat.
Proof.
  induction s1 as [|c s1 IH]; [reflexivity|].
  cbn [String.append py_len]. destruct (is_continuation c); lia.
Qed.

Lemma py_len_prefix n s : py_len (py_prefix n s) = Nat.min n (py_len s).
Proof.
  revert n. induction s as [|c s IH]; intros n; cbn [py_prefix py_len].
  - lia.
  - destruct (is_continuation c) eqn:E.
    + cbn [py_len]. rewrite E. apply IH.
    + destruct n as [|n]; [reflexivity|]. cbn [py_len]. rewrite E, IH. lia.
Qed.

Lemma py_prefix_is_prefix n s : exists rest, s = (py_prefix n s ++ rest)%string.
Proof.
  revert n. induction s as [|c s IH]; intros n; cbn [py_prefix].
  - exists "". reflexivity.
  - destruct (is_continuation c).
    + destruct (IH n) as [rest Hr]. exists rest. cbn. now rewrite <- Hr.
    + destruct n as [|n].
      * exists (String c s). reflexivity.
      * destruct (IH n) as [rest Hr]. exists rest. cbn. now rewrite <- Hr.
Qed.

Lemma py_prefix_all n s : (py_len s <= n)%nat -> py_prefix n s = s.
Proof.
  revert n. induction s as [|c s IH]; intros n H; cbn [py_prefix py_len] in *;
    [reflexivity|].
  destruct (is_continuation c).
  - now rewrite IH.
  - destruct n as [|n]; [lia|]. rewrite IH by lia. reflexivity.
Qed.

Lemma display_text_len s : (py_len (display_text s) <= 53)%nat.
Proof.
  unfold display_text. destruct (50 <? py_len s)%nat eqn:E.
  - rewrite py_len_app, py_len_prefix. change (py_len "...") with 3%nat. lia.
  - apply Nat.ltb_ge in E. lia.
Qed.

(** X13. The label of a text row. A text of at most 50 characters is
    shown as it is. A longer one is shown as its first 50 characters,
    exactly 50 and a prefix of the text, followed by three dots. In both
    cases the label has at most 53 characters. Characters are counted as
    Python does, not bytes. *)
Theorem text_label_is_cut_at_50 :
  forall s : string,
    (py_len (display_text s) <= 53)%nat
    /\ ((py_len s <= 50)%nat -> display_text s = s)
    /\ ((50 < py_len s)%nat ->
        display_text s = (py_prefix 50 s ++ "...")%string
        /\ py_len (py_prefix 50 s) = 50%nat
        /\ exists rest, s = (py_prefix 50 s ++ rest)%string).
Proof.
  intros s. split; [apply display_text_len|]. split.
  - intros H. unfold display_text.
    destruct (50 <? py_len s)%nat eqn:E; [|reflexivity].
    apply Nat.ltb_lt in E. lia.
  - intros H. unfold display_text.
    destruct (50 <? py_len s)%nat eqn:E; [|apply Nat.ltb_ge in E; lia].
    split; [reflexivity|]. split.
    + rewrite py_len_prefix. lia.
    + apply py_prefix_is_prefix.
Qed.

Lemma text_label_is_cut_at_50_witness :
  display_text "hello" = "hello"
  /\ (display_text long_text = (py_prefix 50 long_text ++ "...")%string
      /\ py_len (py_prefix 50 long_text) = 50%nat
      /\ exists rest, long_text = (py_prefix 50 long_text ++ rest)%string).
Proof.
  destruct (text_label_is_cut_at_50 "hello") as [_ [H1 _]].
  destruct (text_label_is_cut_at_50 long_text) as [_ [_ H2]].
  split.
  - apply H1. vm_compute. lia.
  - apply H2. vm_compute. lia.
Defined.


Lemma list_item_error item e : list_item item = Raise e -> e = TypeError.
Proof.
  unfold list_item.
  destruct (String.eqb (ClipboardItem.type item) "text").
  - destruct (ClipboardItem.content item); intros H; inversion H; reflexivity.
  - destruct (String.eqb (ClipboardItem.type item) "image").
    + destruct (ClipboardItem.content item); intros H; inversion H; reflexivity.
    + discriminate.
Qed.





End ListViewFacts.

(* ------------------------------------------------------------------ *)
(** ** Key bindings *)

Module KeybindingFacts.
Import Keybindings KeyScenarios.

Lemma dict_get_set_eq {V} (d : dict V) k v : dict_get (dict_set d k v) k = Some v.
Proof.
  induction d as [|[k' v'] d IH]; cbn.
  - now rewrite String.eqb_refl.
  - destruct (String.eqb k' k) eqn:E; cbn; rewrite E; [reflexivity|exact IH].
Qed.

Lemma dict_get_set_ne {V} (d : dict V) k k' v :
  k <> k' -> dict_get (dict_set d k v) k' = dict_get d k'.
Proof.
  intros Hne. induction d as [|[k0 v0] d IH]; cbn.
  - destruct (String.eqb k k') eqn:E; [apply String.eqb_eq in E; contradiction|].
    reflexivity.
  - destruct (String.eqb k0 k) eqn:E; cbn.
    + apply String.eqb_eq in E. subst k0.
      destruct (String.eqb k k') eqn:E'; [apply String.eqb_eq in E'; contradiction|].
      reflexivity.
    + destruct (String.eqb k0 k'); [reflexivity|exact IH].
Qed.

Lemma keys_dict_set {V} (d : dict V) k v :
  forall x, In x (keys (dict_set d k v)) -> x = k \/ In x (keys d).
Proof.
  induction d as [|[k' v'] d IH]; cbn; intros x H.
  - destruct H as [H|[]]. now left.
  - destruct (String.eqb k' k); cbn in H.
    + right. exact H.
    + destruct H as [H|H]; [right; now left|].
      destruct (IH x H) as [H'|H']; [now left | right; now right].
Qed.

Lemma apply_edits_cons k t d key_edits :
  ~ In k (keys key_edits) ->
  apply_edits ((k, t) :: d) key_edits = (k, t) :: apply_edits d key_edits.
Proof.
  unfold apply_edits. revert d.
  induction key_edits as [|[k1 t1] es IH]; intros d Hk; [reflexivity|].
  cbn [fold_left fst snd dict_set].
  destruct (String.eqb k k1) eqn:E.
  - apply String.eqb_eq in E. subst k1. exfalso. apply Hk. now left.
  - apply IH. intros H. apply Hk. now right.
Qed.

(** The dialog has one line per binding: assigning each line's text gives
    the dictionary of the texts. *)
Lemma apply_edits_same_keys d :
  forall key_edits,
    List.NoDup (keys d) -> keys key_edits = keys d ->
    apply_edits d key_edits = key_edits.
Proof.
  induction d as [|[k v] d IH]; intros [|[k1 t1] es] Hnd Hk; cbn in Hk;
    try discriminate; [reflexivity|].
  inversion Hk; subst. inversion Hnd as [|? ? Hx Hd]; subst.
  change (apply_edits ((k, v) :: d) ((k, t1) :: es))
    with (apply_edits (dict_set ((k, v) :: d) k t1) es).
  cbn [dict_set]. rewrite String.eqb_refl.
  rewrite apply_edits_cons by (unfold keys in *; congruence).
  now rewrite IH.
Qed.

Lemma set_binding_spec self k v :
  aliased (set_binding self k v) = aliased self
  /\ current_listener (set_binding self k v) = current_listener self
  /\ keybindings (set_binding self k v) = dict_set (keybindings self) k v
  /\ (aliased self = true ->
      default_keybindings (set_binding self k v)
        = dict_set (default_keybindings self) k v
      /\ loaded (set_binding self k v) = loaded self)
  /\ (aliased self = false ->
      default_keybindings (set_binding self k v) = default_keybindings self).
Proof.
  unfold set_binding, keybindings.
  destruct (aliased self); cbn; repeat split; try reflexivity; discriminate.
Qed.

Lemma fold_set_binding key_edits :
  forall self,
    let self' :=
      fold_left (fun self e => set_binding self (fst e) (snd e)) key_edits self in
    aliased self' = aliased self
    /\ current_listener self' = current_listener self
    /\ keybindings self' = apply_edits (keybindings self) key_edits
    /\ (aliased self = true ->
        default_keybindings self' = apply_edits (default_keybindings self) key_edits
        /\ loaded self' = loaded self)
    /\ (aliased self = false -> default_keybindings self' = default_keybindings self).
Proof.
  induction key_edits as [|[k v] es IH]; intros self; cbn [fold_left fst snd].
  - cbv zeta. repeat split; reflexivity.
  - specialize (IH (set_binding self k v)). cbv zeta in IH |- *.
    destruct IH as [Ha [Hl [Hk [Hd Hn]]]].
    destruct (set_binding_spec self k v) as [Sa [Sl [Sk [Sd Sn]]]].
    rewrite Sa in Ha, Hd, Hn. rewrite Sl in Hl. rewrite Sk in Hk.
    split; [exact Ha|]. split; [exact Hl|]. split; [exact Hk|]. split.
    + intros E. destruct (Hd E) as [H1 H2]. destruct (Sd E) as [S1 S2].
      rewrite S1 in H1. rewrite S2 in H2. split; assumption.
    + intros E. rewrite (Hn E). exact (Sn E).
Qed.

Lemma setup_global_hotkeys_ok st : fst (setup_global_hotkeys st) = Ok tt.
Proof.
  destruct st as [self os]. unfold setup_global_hotkeys.
  destruct (pynput_installed os); [|reflexivity].
  destruct (dict_get _ "activate"); [|reflexivity].
  destruct (dict_get _ "paste_last"); [|reflexivity].
  destruct (dict_get _ "clear_history"); [|reflexivity].
  destruct (forallb _ _); reflexivity.
Qed.

(** Setting up hotkeys touches neither the bindings nor the file. *)
Lemma setup_global_hotkeys_frame st :
  let st' := snd (setup_global_hotkeys st) in
  default_keybindings (fst st') = default_keybindings (fst st)
  /\ loaded (fst st') = loaded (fst st)
  /\ aliased (fst st') = aliased (fst st)
  /\ keybindings_file (snd st') = keybindings_file (snd st).
Proof.
  destruct st as [self os]. unfold setup_global_hotkeys. cbv zeta.
  destruct (pynput_installed os); [|repeat split].
  change (keybindings (with_listener self (option_map stop (current_listener self))))
    with (keybindings self).
  destruct (dict_get _ "activate"); [|repeat split].
  destruct (dict_get _ "paste_last"); [|repeat split].
  destruct (dict_get _ "clear_history"); [|repeat split].
  destruct (forallb _ _); repeat split.
Qed.

Lemma keybindings_frame self self' :
  default_keybindings self' = default_keybindings self ->
  loaded self' = loaded self ->
  aliased self' = aliased self ->
  keybindings self' = keybindings self.
Proof. unfold keybindings. intros -> -> ->. reflexivity. Qed.

Lemma load_keybindings_eq self os :
  load_keybindings (self, os) =
    match keybindings_file os with
    | KbJson b =>
        (Ok tt,
         ({| default_keybindings := default_keybindings self;
             loaded := b; aliased := false;
             current_listener := current_listener self |}, os))
    | _ =>
        let self' :=
          {| default_keybindings := default_keybindings self;
             loaded := loaded self; aliased := true;
             current_listener := current_listener self |} in
        if keybindings_writable os
        then (Ok tt, (self', with_file os (KbJson (default_keybindings self))))
        else (Raise OSError, (self', os))
    end.
Proof.
  unfold load_keybindings, save_keybindings.
  destruct (keybindings_file os); try reflexivity;
    destruct (keybindings_writable os); reflexivity.
Qed.

(** X15. After [load_keybindings] the bindings in memory and the file
    agree. It raises in one case only: the file is missing or is not
    JSON, and it cannot be written; the exception is [OSError]. Whenever
    it returns normally the file holds exactly the bindings now in
    memory: those it read, or the defaults it has just written in place
    of a missing or broken file. *)
Theorem load_keybindings_leaves_file_in_step :
  (forall st st' : state,
      load_keybindings st = (Ok tt, st') ->
      keybindings_file (snd st') = KbJson (keybindings (fst st')))
  /\ (forall (st : state) (e : exn),
         fst (load_keybindings st) = Raise e ->
         e = OSError
         /\ keybindings_writable (snd st) = false
         /\ (keybindings_file (snd st) = KbMissing
             \/ keybindings_file (snd st) = KbGarbage))
  /\ (forall st : state,
         keybindings_writable (snd st) = false ->
         keybindings_file (snd st) = KbMissing
         \/ keybindings_file (snd st) = KbGarbage ->
         fst (load_keybindings st) = Raise OSError
         /\ keybindings (fst (snd (load_keybindings st))) = default_keybindings (fst st)).
Proof.
  split; [|split].
  - intros [self os] st' H. rewrite load_keybindings_eq in H.
    destruct (keybindings_file os) eqn:Hf; cbv zeta in H;
      try (destruct (keybindings_writable os); [|discriminate]);
      inversion H; subst; cbn; auto.
  - intros [self os] e H. rewrite load_keybindings_eq in H. cbn [snd].
    destruct (keybindings_file os) eqn:Hf; cbv zeta in H;
      try (destruct (keybindings_writable os); [discriminate|]);
      cbn in H; inversion H; auto.
  - intros [self os] Hw Hf. cbn [fst snd] in *. rewrite load_keybindings_eq.
    destruct Hf as [Hf|Hf]; rewrite Hf; cbv zeta; rewrite Hw; split; reflexivity.
Qed.

Lemma load_keybindings_leaves_file_in_step_witness :
  keybindings_file (snd (snd (load_keybindings (__init__, host_fresh))))
    = KbJson (keybindings (fst (snd (load_keybindings (__init__, host_fresh)))))
  /\ (OSError = OSError
      /\ keybindings_writable (snd (__init__, host_readonly)) = false
      /\ (keybindings_file (snd (__init__, host_readonly)) = KbMissing
          \/ keybindings_file (snd (__init__, host_readonly)) = KbGarbage))
  /\ (fst (load_keybindings (__init__, host_readonly)) = Raise OSError
      /\ keybindings (fst (snd (load_keybindings (__init__, host_readonly))))
         = default_keybindings (fst (__init__, host_readonly))).
Proof.
  destruct load_keybindings_leaves_file_in_step as [H1 [H2 H3]].
  split; [|split].
  - apply (H1 (__init__, host_fresh)). reflexivity.
  - apply (H2 (__init__, host_readonly)). reflexivity.
  - apply (H3 (__init__, host_readonly)); [reflexivity | right; reflexivity].
Defined.

Lemma save_keybindings_from_dialog_eq key_edits self os :
  let self' :=
    fold_left (fun self e => set_binding self (fst e) (snd e)) key_edits self in
  save_keybindings_from_dialog key_edits (self, os) =
    if keybindings_writable os
    then setup_global_hotkeys (self', with_file os (KbJson (keybindings self')))
    else (Raise OSError, (self', os)).
Proof.
  cbv zeta. unfold save_keybindings_from_dialog, save_keybindings.
  destruct (keybindings_writable os); reflexivity.
Qed.

(** X16. What is saved in the dialog survives a restart. Open the dialog
    on the current bindings (one line per binding, names unchanged) and
    click Save with the file writable: the call returns normally, the
    bindings in memory are exactly the texts of the lines, the file holds
    them, and a [load_keybindings] of a newly constructed manager on that
    file ends with the same bindings. *)
Theorem dialog_edits_survive_restart :
  forall (st : state) (key_edits : dict string),
    List.NoDup (keys (keybindings (fst st))) ->
    keys key_edits = keys (keybindings (fst st)) ->
    keybindings_writable (snd st) = true ->
    exists st',
      save_keybindings_from_dialog key_edits st = (Ok tt, st')
      /\ keybindings (fst st') = key_edits
      /\ keybindings_file (snd st') = KbJson key_edits
      /\ forall fresh : t,
          fst (load_keybindings (fresh, snd st')) = Ok tt
          /\ keybindings (fst (snd (load_keybindings (fresh, snd st')))) = key_edits.
Proof.
  intros [self os] key_edits Hnd Hk Hw. cbn [fst snd] in *.
  exists (snd (save_keybindings_from_dialog key_edits (self, os))).
  pose proof (save_keybindings_from_dialog_eq key_edits self os) as E.
  cbv zeta in E. rewrite Hw in E.
  destruct (fold_set_binding key_edits self) as [Ha [Hl [Hkb _]]].
  rewrite (apply_edits_same_keys _ _ Hnd Hk) in Hkb.
  rewrite Hkb in E.
  match type of E with
  | _ = setup_global_hotkeys ?s =>
      pose proof (setup_global_hotkeys_ok s) as Hok;
      destruct (setup_global_hotkeys_frame s) as [F1 [F2 [F3 F4]]]
  end.
  rewrite <- E in Hok, F1, F2, F3, F4. cbn [fst snd] in F1, F2, F3, F4.
  assert (Hkeep : keybindings (fst (save_keybindings_from_dialog key_edits (self, os)).2)
                  = key_edits).
  { etransitivity; [|exact Hkb]. apply keybindings_frame; assumption. }
  assert (Hfile : keybindings_file
                    (snd (save_keybindings_from_dialog key_edits (self, os)).2)
                  = KbJson key_edits) by exact F4.
  split; [|split; [exact Hkeep|split; [exact Hfile|]]].
  - destruct (save_keybindings_from_dialog key_edits (self, os)) as [r st'].
    cbn [fst snd] in *. now rewrite Hok.
  - intros fresh. rewrite load_keybindings_eq, Hfile. split; reflexivity.
Qed.

Lemma dialog_edits_survive_restart_witness :
  exists st',
    save_keybindings_from_dialog typed_edits
      (snd (load_keybindings (__init__, host_fresh))) = (Ok tt, st')
    /\ keybindings (fst st') = typed_edits
    /\ keybindings_file (snd st') = KbJson typed_edits
    /\ forall fresh : t,
        fst (load_keybindings (fresh, snd st')) = Ok tt
        /\ keybindings (fst (snd (load_keybindings (fresh, snd st')))) = typed_edits.
Proof.
  apply dialog_edits_survive_restart.
  - vm_compute. repeat constructor; cbn; intros H; intuition discriminate.
  - reflexivity.
  - reflexivity.
Defined.

End KeybindingFacts.

(* ------------------------------------------------------------------ *)
(** ** Defaults, hotkeys and startup *)

Module HotkeyFacts.
Import Keybindings KeyScenarios KeybindingFacts.

Lemma save_keybindings_from_dialog_fields key_edits st :
  let self' :=
    fold_left (fun self e => set_binding self (fst e) (snd e)) key_edits (fst st) in
  let st2 := snd (save_keybindings_from_dialog key_edits st) in
  default_keybindings (fst st2) = default_keybindings self'
  /\ loaded (fst st2) = loaded self'
  /\ aliased (fst st2) = aliased self'.
Proof.
  destruct st as [self os]. cbv zeta. cbn [fst].
  pose proof (save_keybindings_from_dialog_eq key_edits self os) as E.
  cbv zeta in E. rewrite E.
  destruct (keybindings_writable os); [|repeat split].
  match goal with
  | |- context [setup_global_hotkeys ?s] =>
      destruct (setup_global_hotkeys_frame s) as [F1 [F2 [F3 _]]]
  end.
  repeat split; assumption.
Qed.

(** X17. The defaults are not a copy. When [load_keybindings] falls back
    on the defaults (file missing or not JSON), [self.keybindings] and
    [self.default_keybindings] are one and the same dictionary, so saving
    the dialog rewrites the defaults too: afterwards the defaults are the
    edited bindings, whether or not the file could be written. When the
    bindings were read from the file, the dialog leaves the defaults
    alone. *)
Theorem dialog_rewrites_defaults_after_fallback :
  (forall (self : t) (os : host) (key_edits : dict string),
      keybindings_file os = KbMissing \/ keybindings_file os = KbGarbage ->
      let st1 := snd (load_keybindings (self, os)) in
      let st2 := snd (save_keybindings_from_dialog key_edits st1) in
      default_keybindings (fst st2) = apply_edits (default_keybindings self) key_edits
      /\ keybindings (fst st2) = default_keybindings (fst st2))
  /\ (forall (self : t) (os : host) (b key_edits : dict string),
         keybindings_file os = KbJson b ->
         let st1 := snd (load_keybindings (self, os)) in
         let st2 := snd (save_keybindings_from_dialog key_edits st1) in
         default_keybindings (fst st2) = default_keybindings self
         /\ keybindings (fst st2) = apply_edits b key_edits).
Proof.
  split.
  - intros self os key_edits Hf st1 st2.
    destruct (save_keybindings_from_dialog_fields key_edits st1) as [F1 [F2 F3]].
    fold st2 in F1, F2, F3.
    destruct (fold_set_binding key_edits (fst st1)) as [Ha [_ [_ [Hd _]]]].
    assert (E1 : aliased (fst st1) = true /\ default_keybindings (fst st1)
                                             = default_keybindings self).
    { subst st1. rewrite load_keybindings_eq.
      destruct Hf as [Hf|Hf]; rewrite Hf; cbv zeta;
        destruct (keybindings_writable os); split; reflexivity. }
    destruct E1 as [E1 E2]. destruct (Hd E1) as [Hd1 _].
    rewrite E2 in Hd1. rewrite Ha, E1 in F3.
    split.
    + now rewrite F1.
    + unfold keybindings. now rewrite F3.
  - intros self os b key_edits Hf st1 st2.
    destruct (save_keybindings_from_dialog_fields key_edits st1) as [F1 [F2 F3]].
    fold st2 in F1, F2, F3.
    destruct (fold_set_binding key_edits (fst st1)) as [Ha [_ [Hk [_ Hn]]]].
    assert (E1 : aliased (fst st1) = false
                 /\ default_keybindings (fst st1) = default_keybindings self
                 /\ keybindings (fst st1) = b).
    { subst st1. rewrite load_keybindings_eq, Hf. repeat split. }
    destruct E1 as [E1 [E2 E3]].
    split.
    + rewrite F1, (Hn E1). exact E2.
    + rewrite E3 in Hk. rewrite <- Hk. now apply keybindings_frame.
Qed.

Lemma dialog_rewrites_defaults_after_fallback_witness :
  (let st1 := snd (load_keybindings (__init__, host_readonly)) in
   let st2 := snd (save_keybindings_from_dialog typed_edits st1) in
   default_keybindings (fst st2) = apply_edits (default_keybindings __init__) typed_edits
   /\ keybindings (fst st2) = default_keybindings (fst st2))
  /\ (let st1 := snd (load_keybindings (__init__, host_with pynput_bindings)) in
      let st2 := snd (save_keybindings_from_dialog typed_edits st1) in
      default_keybindings (fst st2) = default_keybindings __init__
      /\ keybindings (fst st2) = apply_edits pynput_bindings typed_edits).
Proof.
  destruct dialog_rewrites_defaults_after_fallback as [H1 H2].
  split.
  - apply (H1 __init__ host_readonly typed_edits). right. reflexivity.
  - apply (H2 __init__ (host_with pynput_bindings) pynput_bindings typed_edits).
    reflexivity.
Defined.

(** X18. [setup_global_hotkeys] never raises, and it is all or nothing.
    If pynput is there and one of the three action names has no binding,
    no hotkey at all is registered: the previous listener, if there was
    one, has been stopped and stays in place, stopped; none is started;
    and the message printed carries the [KeyError] of the first missing
    name, in the order activate, paste_last, clear_history. *)
Theorem hotkeys_are_all_or_nothing :
  (forall st : state, fst (setup_global_hotkeys st) = Ok tt)
  /\ (forall st : state,
         pynput_installed (snd st) = true ->
         dict_get (keybindings (fst st)) "activate" = None
         \/ dict_get (keybindings (fst st)) "paste_last" = None
         \/ dict_get (keybindings (fst st)) "clear_history" = None ->
         let st' := snd (setup_global_hotkeys st) in
         current_listener (fst st') = option_map stop (current_listener (fst st))
         /\ (forall l, current_listener (fst st') = Some l -> running l = false)
         /\ exists name,
             dict_get (keybindings (fst st)) name = None
             /\ console (snd st')
                = FailedToSetupHotkeys (KeyError name) :: console (snd st)).
Proof.
  split; [apply setup_global_hotkeys_ok|].
  intros [self os] Hp Hmiss st'. subst st'. cbn [fst snd] in *.
  unfold setup_global_hotkeys. rewrite Hp.
  change (keybindings (with_listener self (option_map stop (current_listener self))))
    with (keybindings self).
  assert (Hstopped : forall l,
             option_map stop (current_listener self) = Some l -> running l = false).
  { intros l H. destruct (current_listener self); inversion H. reflexivity. }
  destruct (dict_get (keybindings self) "activate") eqn:Ea.
  - destruct (dict_get (keybindings self) "paste_last") eqn:Eb.
    + destruct (dict_get (keybindings self) "clear_history") eqn:Ec.
      * destruct Hmiss as [H|[H|H]]; discriminate.
      * cbn [fst snd]. split; [reflexivity|]. split; [exact Hstopped|].
        exists "clear_history". split; [exact Ec|reflexivity].
    + cbn [fst snd]. split; [reflexivity|]. split; [exact Hstopped|].
      exists "paste_last". split; [exact Eb|reflexivity].
  - cbn [fst snd]. split; [reflexivity|]. split; [exact Hstopped|].
    exists "activate". split; [exact Ea|reflexivity].
Qed.

Lemma hotkeys_are_all_or_nothing_witness :
  let st : state :=
    ({| default_keybindings := builtin_keybindings; loaded := partial_bindings;
        aliased := false; current_listener := Some a_listener |}, host_fresh) in
  let st' := snd (setup_global_hotkeys st) in
  current_listener (fst st') = option_map stop (current_listener (fst st))
  /\ (forall l, current_listener (fst st') = Some l -> running l = false)
  /\ exists name,
      dict_get (keybindings (fst st)) name = None
      /\ console (snd st') = FailedToSetupHotkeys (KeyError name) :: console (snd st).
Proof.
  intros st.
  apply (proj2 hotkeys_are_all_or_nothing st); [reflexivity|].
  right. left. reflexivity.
Defined.

Lemma forallb_keys_subset (f : string -> bool) (d : dict action) (l : list string) :
  (forall x, In x (keys d) -> In x l) ->
  forallb f l = true -> forallb f (keys d) = true.
Proof.
  intros Hsub Hl. rewrite forallb_forall in *. intros x Hx. auto.
Qed.

(** X19. One action per key combination. When pynput is there, all three
    names are bound and pynput accepts the three combinations, a running
    listener is installed, and for each combination it runs exactly one
    method: where two names share a combination the later one in the
    order activate, paste_last, clear_history wins. So [clear_history]
    always has its hotkey, [paste_last_item] has one unless it shares the
    combination of [clear_history], and [toggle_window] has one only if
    its combination is shared with neither. *)
Theorem one_action_per_combination :
  forall (st : state) (a p c : string),
    pynput_installed (snd st) = true ->
    dict_get (keybindings (fst st)) "activate" = Some a ->
    dict_get (keybindings (fst st)) "paste_last" = Some p ->
    dict_get (keybindings (fst st)) "clear_history" = Some c ->
    forallb (hotkey_accepted (snd st)) [a; p; c] = true ->
    exists l,
      current_listener (fst (snd (setup_global_hotkeys st))) = Some l
      /\ running l = true
      /\ dict_get (hotkeys l) c = Some RunClearHistory
      /\ dict_get (hotkeys l) p
         = Some (if String.eqb p c then RunClearHistory else RunPasteLastItem)
      /\ dict_get (hotkeys l) a
         = Some (if String.eqb a c then RunClearHistory
                 else if String.eqb a p then RunPasteLastItem
                 else RunToggleWindow)
      /\ (forall k, In k (keys (hotkeys l)) -> In k [a; p; c]).
Proof.
  intros [self os] a p c Hp Ha Hb Hc Hacc. cbn [fst snd] in *.
  set (d := dict_set (dict_set (dict_set [] a RunToggleWindow) p RunPasteLastItem)
              c RunClearHistory).
  assert (Hkeys : forall k, In k (keys d) -> In k [a; p; c]).
  { intros k Hk. subst d.
    apply keys_dict_set in Hk as [->|Hk]; [cbn; tauto|].
    apply keys_dict_set in Hk as [->|Hk]; [cbn; tauto|].
    apply keys_dict_set in Hk as [->|Hk]; [cbn; tauto|].
    destruct Hk. }
  exists {| hotkeys := d; running := true |}.
  split.
  - unfold setup_global_hotkeys. rewrite Hp.
    change (keybindings (with_listener self (option_map stop (current_listener self))))
      with (keybindings self).
    rewrite Ha, Hb, Hc. fold d.
    rewrite (forallb_keys_subset _ d [a; p; c] Hkeys Hacc). reflexivity.
  - cbn [hotkeys running]. split; [reflexivity|]. split; [|split; [|split]].
    + subst d. apply dict_get_set_eq.
    + subst d. destruct (String.eqb p c) eqn:E.
      * apply String.eqb_eq in E. subst p. apply dict_get_set_eq.
      * assert (c <> p) by (intros ->; rewrite String.eqb_refl in E; discriminate).
        rewrite dict_get_set_ne by assumption. apply dict_get_set_eq.
    + subst d. destruct (String.eqb a c) eqn:E.
      * apply String.eqb_eq in E. subst a. apply dict_get_set_eq.
      * assert (c <> a) by (intros ->; rewrite String.eqb_refl in E; discriminate).
        rewrite dict_get_set_ne by assumption.
        destruct (String.eqb a p) eqn:E'.
        -- apply String.eqb_eq in E'. subst a. apply dict_get_set_eq.
        -- assert (p <> a) by (intros ->; rewrite String.eqb_refl in E'; discriminate).
           rewrite dict_get_set_ne by assumption. apply dict_get_set_eq.
    + exact Hkeys.
Qed.

Lemma one_action_per_combination_witness :
  let st : state :=
    ({| default_keybindings := builtin_keybindings; loaded := clashing_bindings;
        aliased := false; current_listener := None |}, host_fresh) in
  exists l,
    current_listener (fst (snd (setup_global_hotkeys st))) = Some l
    /\ running l = true
    /\ dict_get (hotkeys l) "<ctrl>+<alt>+c" = Some RunClearHistory
    /\ dict_get (hotkeys l) "<ctrl>+<alt>+c"
       = Some (if String.eqb "<ctrl>+<alt>+c" "<ctrl>+<alt>+c"
               then RunClearHistory else RunPasteLastItem)
    /\ dict_get (hotkeys l) "<ctrl>+<alt>+v"
       = Some (if String.eqb "<ctrl>+<alt>+v" "<ctrl>+<alt>+c" then RunClearHistory
               else if String.eqb "<ctrl>+<alt>+v" "<ctrl>+<alt>+c" then RunPasteLastItem
               else RunToggleWindow)
    /\ (forall k, In k (keys (hotkeys l)) ->
        In k ["<ctrl>+<alt>+v"; "<ctrl>+<alt>+c"; "<ctrl>+<alt>+c"]).
Proof.
  intros st.
  apply (one_action_per_combination st "<ctrl>+<alt>+v" "<ctrl>+<alt>+c" "<ctrl>+<alt>+c");
    reflexivity.
Defined.

End HotkeyFacts.

(* ------------------------------------------------------------------ *)
(** ** Startup *)

Module Startup.
Import ClipboardManager ManagerFacts StoreFacts CodecFacts RunFacts StoreInvariants.
Import Fixtures Scenarios.

Lemma populate_list_well_typed st :
  forallb well_typed (history (fst st)) = true ->
  populate_list st = (Ok tt, st).
Proof.
  intros H. unfold populate_list, bind, get_history, ret. cbn [fst snd].
  now rewrite (well_typed_all_render _ H).
Qed.

(** X20. When the manager starts, on files of the persisted formats: a
    history file that is missing, is not JSON or holds a document whose
    records carry strings, and a key bindings file that is missing, is
    not JSON or holds an object of strings. On such files the constructor
    fails in two cases only. An exception of [load_config], that is a
    record of the history document that cannot be decoded, aborts it.
    Otherwise a key bindings file that is missing or not JSON and cannot
    be written aborts it with [OSError], although the history was loaded.
    In every other case it completes: the list view is filled without
    error, a failure to set up hotkeys is only printed, the store is the
    one [load_config] left, and the key bindings file holds the bindings
    in memory. JSON of another shape (a top level that is not an object,
    a [content] that is not a string) can make the constructor fail in
    further ways and is outside this statement. *)
Theorem startup_outcomes :
  forall (mx : Z) (os : environment) (kos : Keybindings.host),
    (forall e, fst (__init__ mx os) = Raise e -> startup mx os kos = Raise e)
    /\ (fst (__init__ mx os) = Ok tt ->
        Keybindings.keybindings_writable kos = false ->
        Keybindings.keybindings_file kos = Keybindings.KbMissing
        \/ Keybindings.keybindings_file kos = Keybindings.KbGarbage ->
        startup mx os kos = Raise OSError)
    /\ (fst (__init__ mx os) = Ok tt ->
        Keybindings.keybindings_writable kos = true
        \/ (exists b, Keybindings.keybindings_file kos = Keybindings.KbJson b) ->
        exists kst,
          startup mx os kos = Ok (snd (__init__ mx os), kst)
          /\ Keybindings.keybindings_file (snd kst)
             = Keybindings.KbJson (Keybindings.keybindings (fst kst))).
Proof.
  intros mx os kos. unfold startup.
  pose proof (init_history_well_typed mx os) as Hwt.
  destruct (__init__ mx os) as [[u|e0] st] eqn:Ei; cbn [fst snd] in *.
  - split; [discriminate|]. destruct u.
    rewrite (KeybindingFacts.load_keybindings_eq Keybindings.__init__ kos).
    split.
    + intros _ Hw Hf. destruct Hf as [Hf|Hf]; rewrite Hf; cbv zeta; rewrite Hw;
        reflexivity.
    + intros _ Hcase.
      rewrite (populate_list_well_typed st Hwt).
      destruct (Keybindings.keybindings_file kos) as [| |b] eqn:Hf; cbv zeta.
      * destruct Hcase as [Hw|[b Hb]]; [|discriminate]. rewrite Hw.
        match goal with
        | |- context [Keybindings.setup_global_hotkeys ?s] =>
            pose proof (KeybindingFacts.setup_global_hotkeys_ok s) as Hok;
            destruct (KeybindingFacts.setup_global_hotkeys_frame s) as [F1 [F2 [F3 F4]]];
            destruct (Keybindings.setup_global_hotkeys s) as [r kst]
        end.
        cbn [fst snd] in *. subst r. exists kst. split; [reflexivity|].
        rewrite F4. cbn. f_equal. symmetry.
        etransitivity; [apply KeybindingFacts.keybindings_frame; eassumption|].
        reflexivity.
      * destruct Hcase as [Hw|[b Hb]]; [|discriminate]. rewrite Hw.
        match goal with
        | |- context [Keybindings.setup_global_hotkeys ?s] =>
            pose proof (KeybindingFacts.setup_global_hotkeys_ok s) as Hok;
            destruct (KeybindingFacts.setup_global_hotkeys_frame s) as [F1 [F2 [F3 F4]]];
            destruct (Keybindings.setup_global_hotkeys s) as [r kst]
        end.
        cbn [fst snd] in *. subst r. exists kst. split; [reflexivity|].
        rewrite F4. cbn. f_equal. symmetry.
        etransitivity; [apply KeybindingFacts.keybindings_frame; eassumption|].
        reflexivity.
      * match goal with
        | |- context [Keybindings.setup_global_hotkeys ?s] =>
            pose proof (KeybindingFacts.setup_global_hotkeys_ok s) as Hok;
            destruct (KeybindingFacts.setup_global_hotkeys_frame s) as [F1 [F2 [F3 F4]]];
            destruct (Keybindings.setup_global_hotkeys s) as [r kst]
        end.
        cbn [fst snd] in *. subst r. exists kst. split; [reflexivity|].
        rewrite F4, Hf. f_equal. symmetry.
        etransitivity; [apply KeybindingFacts.keybindings_frame; eassumption|].
        reflexivity.
  - split; [intros e H; inversion H; reflexivity|].
    split; discriminate.
Qed.

Lemma startup_outcomes_witness :
  startup 10 (os_with doc_one_bad) KeyScenarios.host_fresh = Raise (KeyError "content")
  /\ startup 10 (os_with doc_oversized) KeyScenarios.host_readonly = Raise OSError
  /\ (exists kst,
         startup 10 (os_with doc_oversized) KeyScenarios.host_fresh
           = Ok (snd (__init__ 10 (os_with doc_oversized)), kst)
         /\ Keybindings.keybindings_file (snd kst)
            = Keybindings.KbJson (Keybindings.keybindings (fst kst))).
Proof.
  split; [|split].
  - apply (startup_outcomes 10 (os_with doc_one_bad) KeyScenarios.host_fresh).
    vm_compute. reflexivity.
  - apply (startup_outcomes 10 (os_with doc_oversized) KeyScenarios.host_readonly).
    + vm_compute. reflexivity.
    + reflexivity.
    + right. reflexivity.
  - apply (startup_outcomes 10 (os_with doc_oversized) KeyScenarios.host_fresh).
    + vm_compute. reflexivity.
    + left. reflexivity.
Defined.

End Startup.

(* ------------------------------------------------------------------ *)
(** ** From the clipboard and back *)

Module BackToClipboard.
Import ClipboardManager ManagerFacts StoreFacts CodecFacts Insertion RunFacts.
Import StoreInvariants Lookup Fixtures Scenarios.

Lemma save_config_sink st :
  sink (snd (snd (save_config st))) = sink (snd st)
  /\ platform_linux (snd (snd (save_config st))) = platform_linux (snd st).
Proof.
  destruct st as [self os]. rewrite save_config_eq.
  destruct (mapM ClipboardItem.to_dict (history self)) as [dicts|e];
    [|split; reflexivity].
  destruct (config_writable os); [|split; reflexivity].
  destruct (mapM json_record dicts); split; reflexivity.
Qed.

Lemma add_item_sink c ty st :
  sink (snd (snd (add_item c ty st))) = sink (snd st)
  /\ platform_linux (snd (snd (add_item c ty st))) = platform_linux (snd st).
Proof.
  destruct st as [self os]. rewrite add_item_eq.
  destruct (existsb _ (history self)); [split; reflexivity|].
  destruct (forallb renders _); [|split; reflexivity].
  match goal with
  | |- context [save_config ?s] =>
      pose proof (save_config_sink s) as H; destruct (save_config s) as [[u|e] st']
  end; exact H.
Qed.

Lemma paste_last_item_head item h n os :
  paste_last_item ({| history := item :: h; max_items := n |}, os) =
    match push_item false item ({| history := item :: h; max_items := n |}, os) with
    | (Ok _, st') => (Ok (Some item), st')
    | (Raise e, st') => (Raise e, st')
    end.
Proof. reflexivity. Qed.

(** X21. A text just copied is the text that gets pasted. After
    [add_item] has taken a new text into a store with room for at least
    one entry, whether or not the document could be written,
    [paste_last_item] finds that entry, leaves the store as it is and
    hands the text, unchanged, to [setText], followed by the simulated
    paste key on Linux and by nothing elsewhere. For a new image the
    entry is found as well, but what is set on the clipboard is the image
    [QImage.fromData] makes of the stored bytes, whatever that is, and no
    key press follows on any platform. *)
Theorem paste_hands_over_the_last_copy :
  forall (st : state),
    1 <= max_items (fst st) ->
    (forall s : string,
        ~ In (fingerprint (PyStr s)) (ids (history (fst st))) ->
        let st1 := snd (add_item (PyStr s) "text" st) in
        let item := ClipboardItem.__init__ (PyStr s) "text" (script_mtime (snd st)) in
        fst (paste_last_item st1) = Ok (Some item)
        /\ fst (snd (paste_last_item st1)) = fst st1
        /\ sink (snd (snd (paste_last_item st1))) =
             if platform_linux (snd st)
             then XdotoolPaste :: SetText s :: sink (snd st)
             else SetText s :: sink (snd st))
    /\ (forall b : list byte,
           ~ In (fingerprint (PyBytes b)) (ids (history (fst st))) ->
           let st1 := snd (add_item (PyBytes b) "image" st) in
           let item := ClipboardItem.__init__ (PyBytes b) "image" (script_mtime (snd st)) in
           fst (paste_last_item st1) = Ok (Some item)
           /\ fst (snd (paste_last_item st1)) = fst st1
           /\ sink (snd (snd (paste_last_item st1)))
              = SetMimeData (QImage_fromData b) :: sink (snd st)).
Proof.
  intros st Hn. split.
  - intros s Hout st1 item.
    pose proof (add_item_absent (PyStr s) "text" st Hout) as Hs.
    destruct (add_item_sink (PyStr s) "text" st) as [Hk Hl].
    fold st1 in Hs, Hk, Hl. fold item in Hs.
    destruct st1 as [self1 os1]. cbn [fst snd] in *.
    assert (Hh : history self1 = item :: take (Z.to_nat (max_items (fst st)) - 1)
                                          (history (fst st))).
    { rewrite Hs, inserted_history by lia.
      destruct (Z.to_nat (max_items (fst st))) as [|k] eqn:E; [lia|].
      replace (S k - 1)%nat with k by lia. reflexivity. }
    destruct self1 as [h1 n1]. cbn [history] in Hh. subst h1.
    rewrite paste_last_item_head.
    unfold push_item, bind, emit, get_env, ret. cbn. rewrite Hl.
    destruct (platform_linux (snd st)); cbn; rewrite Hk; repeat split; reflexivity.
  - intros b Hout st1 item.
    pose proof (add_item_absent (PyBytes b) "image" st Hout) as Hs.
    destruct (add_item_sink (PyBytes b) "image" st) as [Hk Hl].
    fold st1 in Hs, Hk, Hl. fold item in Hs.
    destruct st1 as [self1 os1]. cbn [fst snd] in *.
    assert (Hh : history self1 = item :: take (Z.to_nat (max_items (fst st)) - 1)
                                          (history (fst st))).
    { rewrite Hs, inserted_history by lia.
      destruct (Z.to_nat (max_items (fst st))) as [|k] eqn:E; [lia|].
      replace (S k - 1)%nat with k by lia. reflexivity. }
    destruct self1 as [h1 n1]. cbn [history] in Hh. subst h1.
    rewrite paste_last_item_head.
    unfold push_item, bind, emit, get_env, ret. cbn. rewrite Hk.
    repeat split; reflexivity.
Qed.

Lemma paste_hands_over_the_last_copy_witness :
  (let st1 := snd (add_item (PyStr "again") "text" (two_store, os_readonly)) in
   let item := ClipboardItem.__init__ (PyStr "again") "text" 1700000000 in
   fst (paste_last_item st1) = Ok (Some item)
   /\ fst (snd (paste_last_item st1)) = fst st1
   /\ sink (snd (snd (paste_last_item st1))) =
        if platform_linux os_readonly
        then XdotoolPaste :: SetText "again" :: sink os_readonly
        else SetText "again" :: sink os_readonly)
  /\ (let st1 := snd (add_item (PyBytes [x01; x02]) "image" (two_store, os_fresh)) in
      let item := ClipboardItem.__init__ (PyBytes [x01; x02]) "image" 1700000000 in
      fst (paste_last_item st1) = Ok (Some item)
      /\ fst (snd (paste_last_item st1)) = fst st1
      /\ sink (snd (snd (paste_last_item st1)))
         = SetMimeData (QImage_fromData [x01; x02]) :: sink os_fresh).
Proof.
  split.
  - apply (proj1 (paste_hands_over_the_last_copy (two_store, os_readonly)
                    ltac:(cbn; lia)) "again").
    vm_compute. intros H; intuition discriminate.
  - apply (proj2 (paste_hands_over_the_last_copy (two_store, os_fresh)
                    ltac:(cbn; lia)) [x01; x02]).
    vm_compute. intros H; intuition discriminate.
Defined.

Lemma run_op_max_items o st : max_items (fst (run_op o st)) = max_items (fst st).
Proof.
  destruct (run_op_self_cases o st) as [E|[[c [ty [_ [_ E]]]]|E]]; rewrite E;
    reflexivity.
Qed.

(** X22. Nothing changes the capacity after construction: whatever the
    sequence of operations, with any payloads and whether or not writes
    succeed, [max_items] at the end is [max_items] at the start. *)
Theorem capacity_never_changes :
  forall (st : state) (ops : list op),
    max_items (fst (run_ops ops st)) = max_items (fst st).
Proof.
  intros st ops. revert st. unfold run_ops.
  induction ops as [|o ops IH]; intros st; cbn [fold_left]; [reflexivity|].
  rewrite IH. apply run_op_max_items.
Qed.

End BackToClipboard.
